(** * Miro widgets frontend: item renderers and the widget state store

    A shallow embedding of the parts of
    [tv/lib/frontends/widgets/widgetstatestore.py] and
    [tv/lib/frontends/widgets/style.py] that decide how per-display UI
    state is stored and defaulted, which emblem an item shows, how the
    download progress bar is drawn and how the rating cell is hit-tested.

    Python objects that are mutated in place (the column lists held in
    [DEFAULT_COLUMNS], the [DisplayInfo] and [ViewInfo] entities) live in an
    explicit store; exceptions are an outcome of every operation and leave
    the mutations made before them in place, as in Python. *)

From Stdlib Require Import ZArith Lia Bool List String Ascii DecimalString SpecFloat.
From stdpp Require Import base option list gmap strings fin_maps.

Local Open Scope string_scope.
Local Open Scope list_scope.
Local Open Scope Z_scope.

(** ** Python values used as keys *)

(** What callers pass as [display_id]: [None], a database id or a name. *)
Inductive pyval : Type :=
  | PyNone
  | PyInt (n : Z)
  | PyUnicode (s : string).

(** [unicode(display_id)] *)
Definition unicode (v : pyval) : string :=
  match v with
  | PyNone => "None"
  | PyInt n => NilZero.string_of_int (Z.to_int n)
  | PyUnicode s => s
  end.

(** [s.lstrip('-')]: every leading dash is dropped. *)
Fixpoint lstrip_dash (s : string) : string :=
  match s with
  | String c rest => if Ascii.eqb c "-"%char then lstrip_dash rest else s
  | EmptyString => EmptyString
  end.

(** [l.remove(x)] on a list that contains [x]: the first occurrence goes. *)
Fixpoint list_remove (x : string) (l : list string) : list string :=
  match l with
  | [] => []
  | y :: rest => if String.eqb x y then rest else y :: list_remove x rest
  end.

(** ** Exceptions and the store monad *)

Inductive exn : Type :=
  | ValueError
  | KeyError (key : string)
  | AttributeError (attr : string)
  | OverflowError
  | ZeroDivisionError
  | RuntimeError.          (* maximum recursion depth exceeded *)

Inductive outcome (A : Type) : Type :=
  | Ret (a : A)
  | Raise (e : exn).
Arguments Ret {A} a.
Arguments Raise {A} e.

Definition raises {A} (o : outcome A) : bool :=
  match o with Ret _ => false | Raise _ => true end.

(** Code that mutates the state [S] and may raise.  The state comes back
    in both cases: what was mutated before an exception stays mutated. *)
Definition stateM (S A : Type) : Type := S -> outcome A * S.

Definition ret {S A} (a : A) : stateM S A := fun s => (Ret a, s).
Definition raise {S A} (e : exn) : stateM S A := fun s => (Raise e, s).
Definition bind {S A B} (m : stateM S A) (k : A -> stateM S B) : stateM S B :=
  fun s =>
    match m s with
    | (Ret a, s') => k a s'
    | (Raise e, s') => (Raise e, s')
    end.

Notation "'do' x <- m ; k" := (bind m (fun x => k))
  (at level 10, x name, m at level 100, k at level 200).
Notation "'exec' m ; k" := (bind m (fun _ => k))
  (at level 10, m at level 100, k at level 200).

(** [d[k]] on a dict with string keys. *)
Definition getitem {S V} (d : gmap string V) (k : string) : stateM S V :=
  match d !! k with
  | Some v => ret v
  | None => raise (KeyError k)
  end.

(** Identity of a Python list object. *)
Definition loc : Type := positive.

Module WidgetStateStore.

Definition LIST_VIEW : Z := 1.
Definition STANDARD_VIEW : Z := 0.

Definition FILTER_VIEW_ALL : Z := 0.
Definition FILTER_UNWATCHED : Z := 1.
Definition FILTER_NONFEED : Z := 2.
Definition FILTER_DOWNLOADED : Z := 4.
Definition DEFAULT_DISPLAY_FILTERS : Z := FILTER_VIEW_ALL.

Definition DEFAULT_VIEW_TYPE : gmap string Z :=
  list_to_map
    [ ("videos", STANDARD_VIEW); ("music", LIST_VIEW); ("others", LIST_VIEW);
      ("downloading", STANDARD_VIEW); ("all-feeds", STANDARD_VIEW);
      ("feed", STANDARD_VIEW); ("search", LIST_VIEW); ("sharing", LIST_VIEW);
      ("device-video", STANDARD_VIEW); ("device-audio", LIST_VIEW);
      ("playlist", LIST_VIEW) ].

Definition DEFAULT_COLUMN_WIDTHS : gmap string Z :=
  list_to_map
    [ ("state", 20); ("name", 130); ("artist", 110); ("album", 100);
      ("track", 30); ("feed-name", 70); ("length", 60); ("genre", 65);
      ("year", 40); ("rating", 75); ("size", 65); ("status", 70);
      ("date", 70); ("eta", 60); ("torrent-details", 160); ("rate", 60);
      ("description", 160) ].

(** The dict literal, before the three aliasing assignments. *)
Definition DEFAULT_SORT_COLUMN_literal : gmap string string :=
  list_to_map
    [ ("videos", "name"); ("music", "artist"); ("others", "name");
      ("downloading", "eta"); ("all-feeds", "feed-name"); ("feed", "date");
      ("playlist", "playlist"); ("search", "name") ].

Definition alias {V} (new old : string) (d : gmap string V) : gmap string V :=
  match d !! old with
  | Some v => <[new := v]> d
  | None => d
  end.

Definition DEFAULT_SORT_COLUMN : gmap string string :=
  alias "device-audio" "music"
    (alias "device-video" "videos"
      (alias "sharing" "videos" DEFAULT_SORT_COLUMN_literal)).

(** The seven list objects of the [DEFAULT_COLUMNS] literal.  The dict
    maps a display type to the object, and the four assignments after the
    literal bind more display types to the _same_ objects. *)
Definition videos_columns : loc := 1%positive.
Definition music_columns : loc := 2%positive.
Definition others_columns : loc := 3%positive.
Definition downloading_columns : loc := 4%positive.
Definition all_feeds_columns : loc := 5%positive.
Definition feed_columns : loc := 6%positive.
Definition search_columns : loc := 7%positive.

Definition DEFAULT_COLUMNS_literal : gmap string loc :=
  list_to_map
    [ ("videos", videos_columns); ("music", music_columns);
      ("others", others_columns); ("downloading", downloading_columns);
      ("all-feeds", all_feeds_columns); ("feed", feed_columns);
      ("search", search_columns) ].

Definition DEFAULT_COLUMNS : gmap string loc :=
  alias "playlist" "music"
    (alias "device-audio" "music"
      (alias "device-video" "videos"
        (alias "sharing" "videos" DEFAULT_COLUMNS_literal))).

(** Contents of the list objects when the class body has run. *)
Definition class_heap : gmap loc (list string) :=
  list_to_map
    [ (videos_columns, ["state"; "name"; "length"; "feed-name"; "size"]);
      (music_columns, ["state"; "name"; "artist"; "album"; "track";
                       "feed-name"; "length"; "genre"; "year"; "rating"]);
      (others_columns, ["name"; "feed-name"; "size"]);
      (downloading_columns, ["name"; "feed-name"; "status"; "eta"; "rate";
                             "torrent-details"; "size"]);
      (all_feeds_columns, ["state"; "name"; "feed-name"; "length";
                           "status"; "size"; "date"]);
      (feed_columns, ["state"; "name"; "length"; "status"; "size"; "date"]);
      (search_columns, ["state"; "name"; "description"]) ].

(** [AVAILABLE_COLUMNS]: a copy ([[:]]) of each default list taken while the
    class body runs, four of them extended afterwards. *)
Definition AVAILABLE_COLUMNS : gmap string (list string) :=
  let copies := (fun l : loc => default [] (class_heap !! l)) <$> DEFAULT_COLUMNS in
  let extend (dt : string) (extra : list string) (d : gmap string (list string)) :=
    match d !! dt with Some l => <[dt := l ++ extra]> d | None => d end in
  extend "search" ["rating"]
    (extend "others" ["rating"]
      (extend "music" ["size"]
        (extend "videos" ["rating"] copies))).

(** *** Entities *)

(** Modelled from the spec: [DisplayInfo] is declared in [miro.messages],
    which is not part of these sources.  It is keyed by
    (display_type, display_id) and carries selected_view, active_filters,
    list_view_columns and list_view_widths, each unset on creation. *)
Record DisplayInfo : Type := mkDisplayInfo {
  display_key : string * string;
  selected_view : option Z;
  active_filters : option Z;
  list_view_columns : option loc;
  list_view_widths : option (gmap string Z);
}.

Definition new_DisplayInfo (key : string * string) : DisplayInfo :=
  mkDisplayInfo key None None None None.

(** Modelled from the spec: [ViewInfo] is declared in [miro.messages].  It
    is keyed by (display_type, display_id, view_type) and carries
    sort_state and scroll_position, each unset on creation. *)
Record ViewInfo : Type := mkViewInfo {
  view_key : string * string * Z;
  sort_state : option string;
  scroll_position : option (Z * Z);
}.

Definition new_ViewInfo (key : string * string * Z) : ViewInfo :=
  mkViewInfo key None None.

(** Modelled from the spec: [SaveDisplayState] and [SaveViewState] are the
    opaque "save this display's / view's state" commands of the persistence
    channel; what is recorded is the entity as it is when the command is
    sent. *)
Inductive message : Type :=
  | SaveDisplayState (display : DisplayInfo)
  | SaveViewState (view : ViewInfo).

(** The store: the instance's two dicts, the list objects reachable from
    it and from the class tables, and the commands sent so far (oldest
    first). *)
Record World : Type := mkWorld {
  heap : gmap loc (list string);
  displays : gmap (string * string) DisplayInfo;
  views : gmap (string * string * Z) ViewInfo;
  backend : list message;
}.

(** A fresh [WidgetStateStore()] right after the class is defined. *)
Definition init : World := mkWorld class_heap ∅ ∅ [].

Abbreviation M := (stateM World).

Definition get_displays : M (gmap (string * string) DisplayInfo) :=
  fun w => (Ret (displays w), w).
Definition get_views : M (gmap (string * string * Z) ViewInfo) :=
  fun w => (Ret (views w), w).

(** [self.displays[key] = d]; also how an attribute assignment on the
    entity that [self.displays[key]] refers to shows in the store. *)
Definition put_display (key : string * string) (d : DisplayInfo) : M unit :=
  fun w => (Ret tt, mkWorld (heap w) (<[key := d]> (displays w))
                            (views w) (backend w)).
Definition put_view (key : string * string * Z) (v : ViewInfo) : M unit :=
  fun w => (Ret tt, mkWorld (heap w) (displays w)
                            (<[key := v]> (views w)) (backend w)).

(** [m.send_to_backend()] *)
Definition send_to_backend (m : message) : M unit :=
  fun w => (Ret tt, mkWorld (heap w) (displays w) (views w) (backend w ++ [m])).

(** Reading and mutating a list object.  References never dangle in
    Python; a location outside the heap reads as the empty list. *)
Definition read_list (l : loc) : M (list string) :=
  fun w => (Ret (default [] (heap w !! l)), w).
Definition write_list (l : loc) (cols : list string) : M unit :=
  fun w => (Ret tt, mkWorld (<[l := cols]> (heap w)) (displays w) (views w)
                            (backend w)).

(** *** Get-or-create *)

(** [_save_display_state] and [_get_display] call each other.  The bodies
    are written against the callee; the knot is tied by the interpreter's
    recursion depth below. *)
Section bodies.
Variable get_display_rec : string -> pyval -> M DisplayInfo.
Variable get_view_rec : string -> pyval -> Z -> M ViewInfo.

Definition save_display_state_body (display_type : string)
    (display_id : pyval) : M unit :=
  do display <- get_display_rec display_type display_id;
  send_to_backend (SaveDisplayState display).

Definition get_display_body (display_type : string) (display_id : pyval)
    : M DisplayInfo :=
  let display_id := unicode display_id in
  let key := (display_type, display_id) in
  do ds <- get_displays;
  exec (match ds !! key with
   | None =>
       exec put_display key (new_DisplayInfo key);
       save_display_state_body display_type (PyUnicode display_id)
   | Some _ => ret tt
   end);
  do ds <- get_displays;
  match ds !! key with
  | Some d => ret d
  | None => raise (KeyError (fst key))
  end.

Definition save_view_state_body (display_type : string)
    (display_id : pyval) (view_type : Z) : M unit :=
  do view <- get_view_rec display_type display_id view_type;
  send_to_backend (SaveViewState view).

Definition get_view_body (display_type : string) (display_id : pyval)
    (view_type : Z) : M ViewInfo :=
  let display_id := unicode display_id in
  let key := (display_type, display_id, view_type) in
  do vs <- get_views;
  exec (match vs !! key with
   | None =>
       exec put_view key (new_ViewInfo key);
       save_view_state_body display_type (PyUnicode display_id) view_type
   | Some _ => ret tt
   end);
  do vs <- get_views;
  match vs !! key with
  | Some v => ret v
  | None => raise (KeyError display_type)
  end.
End bodies.

Fixpoint get_display_depth (depth : nat) : string -> pyval -> M DisplayInfo :=
  match depth with
  | O => fun _ _ => raise RuntimeError
  | S n => get_display_body (get_display_depth n)
  end.

Fixpoint get_view_depth (depth : nat) : string -> pyval -> Z -> M ViewInfo :=
  match depth with
  | O => fun _ _ _ => raise RuntimeError
  | S n => get_view_body (get_view_depth n)
  end.

(** Frames left to the store when one of its methods is entered; any
    number from 2 up gives the same functions ([get_display_depth_enough]). *)
Definition recursion_depth : nat := 100.

Definition _get_display : string -> pyval -> M DisplayInfo :=
  get_display_depth recursion_depth.
Definition _save_display_state : string -> pyval -> M unit :=
  save_display_state_body _get_display.
Definition _get_view : string -> pyval -> Z -> M ViewInfo :=
  get_view_depth recursion_depth.
Definition _save_view_state : string -> pyval -> Z -> M unit :=
  save_view_state_body _get_view.

(** *** Static properties *)

Definition is_list_view (view_type : Z) : bool := view_type =? LIST_VIEW.
Definition is_standard_view (view_type : Z) : bool := view_type =? STANDARD_VIEW.

Definition toggle_filter (filters filter_ : Z) : Z :=
  if filter_ =? FILTER_VIEW_ALL then filter_ else Z.lxor filters filter_.

Definition is_view_all_filter (filters : Z) : bool := filters =? FILTER_VIEW_ALL.
Definition has_unwatched_filter (filters : Z) : bool :=
  negb (Z.land filters FILTER_UNWATCHED =? 0).
Definition has_non_feed_filter (filters : Z) : bool :=
  negb (Z.land filters FILTER_NONFEED =? 0).
Definition has_downloaded_filter (filters : Z) : bool :=
  negb (Z.land filters FILTER_DOWNLOADED =? 0).

Definition get_columns_available (display_type : string) : M (list string) :=
  getitem AVAILABLE_COLUMNS display_type.

(** *** Loading persisted state *)

Definition setup_displays (message_displays : list DisplayInfo) : M unit :=
  fun w => (Ret tt,
            mkWorld (heap w)
                    (fold_left (fun ds d => <[display_key d := d]> ds)
                               message_displays (displays w))
                    (views w) (backend w)).

Definition setup_views (message_views : list ViewInfo) : M unit :=
  fun w => (Ret tt,
            mkWorld (heap w) (displays w)
                    (fold_left (fun vs v => <[view_key v := v]> vs)
                               message_views (views w))
                    (backend w)).

(** *** Attribute assignment on an entity *)

Definition with_selected_view (d : DisplayInfo) (v : option Z) : DisplayInfo :=
  mkDisplayInfo (display_key d) v (active_filters d) (list_view_columns d)
                (list_view_widths d).
Definition with_active_filters (d : DisplayInfo) (f : option Z) : DisplayInfo :=
  mkDisplayInfo (display_key d) (selected_view d) f (list_view_columns d)
                (list_view_widths d).
Definition with_list_view_columns (d : DisplayInfo) (c : option loc) : DisplayInfo :=
  mkDisplayInfo (display_key d) (selected_view d) (active_filters d) c
                (list_view_widths d).
Definition with_list_view_widths (d : DisplayInfo) (w : option (gmap string Z))
    : DisplayInfo :=
  mkDisplayInfo (display_key d) (selected_view d) (active_filters d)
                (list_view_columns d) w.
Definition with_sort_state (v : ViewInfo) (s : option string) : ViewInfo :=
  mkViewInfo (view_key v) s (scroll_position v).
Definition with_scroll_position (v : ViewInfo) (p : option (Z * Z)) : ViewInfo :=
  mkViewInfo (view_key v) (sort_state v) p.

(** *** Real DisplayState properties *)

Definition get_selected_view (display_type : string) (display_id : pyval) : M Z :=
  do display <- _get_display display_type display_id;
  match selected_view display with
  | Some view => ret view
  | None => getitem DEFAULT_VIEW_TYPE display_type
  end.

Definition set_selected_view (display_type : string) (display_id : pyval)
    (view : Z) : M unit :=
  do display <- _get_display display_type display_id;
  exec put_display (display_type, unicode display_id)
         (with_selected_view display (Some view));
  _save_display_state display_type display_id.

Definition get_filters (display_type : string) (display_id : pyval) : M Z :=
  do display <- _get_display display_type display_id;
  match active_filters display with
  | None => ret DEFAULT_DISPLAY_FILTERS
  | Some filters => ret filters
  end.

Definition toggle_filters (display_type : string) (display_id : pyval)
    (filter_ : Z) : M unit :=
  do filters <- get_filters display_type display_id;
  let filters := toggle_filter filters filter_ in
  do display <- _get_display display_type display_id;
  exec put_display (display_type, unicode display_id)
         (with_active_filters display (Some filters));
  _save_display_state display_type display_id.

(** *** ViewState properties that are only valid for specific view types *)

(** The result is the list object itself. *)
Definition get_columns_enabled (display_type : string) (display_id : pyval)
    (view_type : Z) : M loc :=
  if is_list_view view_type then
    do display <- _get_display display_type display_id;
    match list_view_columns display with
    | Some columns_enabled => ret columns_enabled
    | None => getitem DEFAULT_COLUMNS display_type
    end
  else raise ValueError.

Definition set_columns_enabled (display_type : string) (display_id : pyval)
    (view_type : Z) (enabled : loc) : M unit :=
  if is_list_view view_type then
    do display <- _get_display display_type display_id;
    exec put_display (display_type, unicode display_id)
           (with_list_view_columns display (Some enabled));
    _save_display_state display_type display_id
  else raise ValueError.

Definition toggle_column (display_type : string) (display_id : pyval)
    (view_type : Z) (column : string) : M unit :=
  if is_list_view view_type then
    do display <- _get_display display_type display_id;
    do columns_enabled <- get_columns_enabled display_type display_id view_type;
    do cols <- read_list columns_enabled;
    exec (if bool_decide (column ∈ cols)
          then write_list columns_enabled (list_remove column cols)
          else write_list columns_enabled (cols ++ [column]));
    set_columns_enabled display_type display_id view_type columns_enabled
  else raise ValueError.

(** [for name in ...: defaults[name] = DEFAULT_COLUMN_WIDTHS[name]] *)
Fixpoint fill_default_widths (names : list string) (defaults : gmap string Z)
    : M (gmap string Z) :=
  match names with
  | [] => ret defaults
  | name :: rest =>
      do width <- getitem DEFAULT_COLUMN_WIDTHS name;
      fill_default_widths rest (<[name := width]> defaults)
  end.

Definition get_column_widths (display_type : string) (display_id : pyval)
    (view_type : Z) : M (gmap string Z) :=
  if is_list_view view_type then
    do display <- _get_display display_type display_id;
    match list_view_widths display with
    | Some column_widths => ret column_widths
    | None =>
        do enabled <- get_columns_enabled display_type display_id view_type;
        do names <- read_list enabled;
        fill_default_widths names ∅
    end
  else raise ValueError.

Definition update_column_widths (display_type : string) (display_id : pyval)
    (view_type : Z) (widths : gmap string Z) : M unit :=
  if is_list_view view_type then
    do display <- _get_display display_type display_id;
    do display <-
      (match list_view_widths display with
       | None =>
           do column_widths <- get_column_widths display_type display_id view_type;
           let display := with_list_view_widths display (Some column_widths) in
           exec put_display (display_type, unicode display_id) display;
           ret display
       | Some _ => ret display
       end);
    exec put_display (display_type, unicode display_id)
      (with_list_view_widths display
         (Some (widths ∪ default ∅ (list_view_widths display))));
    _save_display_state display_type display_id
  else raise ValueError.

(** *** Real ViewState properties *)

Definition get_sort_state (display_type : string) (display_id : pyval)
    (view_type : Z) : M string :=
  do view <- _get_view display_type display_id view_type;
  do sort_state <-
    (match sort_state view with
     | None => getitem DEFAULT_SORT_COLUMN display_type
     | Some sort_state => ret sort_state
     end);
  if is_standard_view view_type then ret sort_state
  else
    do enabled <- get_columns_enabled display_type display_id view_type;
    do cols <- read_list enabled;
    let column := lstrip_dash sort_state in
    if bool_decide (column ∈ cols) then ret sort_state
    else getitem DEFAULT_SORT_COLUMN display_type.

Definition set_sort_state (display_type : string) (display_id : pyval)
    (view_type : Z) (sort_key : string) : M unit :=
  do view <- _get_view display_type display_id view_type;
  exec put_view (display_type, unicode display_id, view_type)
       (with_sort_state view (Some sort_key));
  _save_view_state display_type display_id view_type.

Definition get_scroll_position (display_type : string) (display_id : pyval)
    (view_type : Z) : M (Z * Z) :=
  do view <- _get_view display_type display_id view_type;
  match scroll_position view with
  | Some position => ret position
  | None => ret (0, 0)
  end.

Definition set_scroll_position (display_type : string) (display_id : pyval)
    (view_type : Z) (position : Z * Z) : M unit :=
  do view <- _get_view display_type display_id view_type;
  exec put_view (display_type, unicode display_id, view_type)
       (with_scroll_position view (Some position));
  _save_view_state display_type display_id view_type.

(** [get_display_types()]: the keys of [AVAILABLE_COLUMNS]. *)
Definition display_types : list string :=
  [ "videos"; "music"; "others"; "downloading"; "all-feeds"; "feed";
    "search"; "sharing"; "device-video"; "device-audio"; "playlist" ].

End WidgetStateStore.


(** ** Python floats

    [float] is IEEE 754 binary64 with round-to-nearest-even, which is what
    [SpecFloat] computes for precision 53 and maximal exponent 1024. *)
Module PyFloat.

Definition prec : Z := 53.
Definition emax : Z := 1024.

(** [float(n)] for an int or long [n]. *)
Definition of_int (n : Z) : outcome spec_float :=
  match binary_normalize prec emax n 0 false with
  | S754_infinity _ => Raise OverflowError
  | f => Ret f
  end.

Definition is_zero (f : spec_float) : bool :=
  match f with S754_zero _ => true | _ => false end.

(** [a / b] *)
Definition div (a b : spec_float) : outcome spec_float :=
  if is_zero b then Raise ZeroDivisionError else Ret (SFdiv prec emax a b).

(** [a * b] *)
Definition mul (a b : spec_float) : spec_float := SFmul prec emax a b.

(** [int(f)]: truncation towards zero. *)
Definition to_int (f : spec_float) : outcome Z :=
  match f with
  | S754_zero _ => Ret 0
  | S754_finite s m e =>
      let magnitude :=
        if 0 <=? e then Z.pos m * 2 ^ e else Z.pos m / 2 ^ (- e) in
      Ret (if s then - magnitude else magnitude)
  | S754_infinity _ => Raise OverflowError
  | S754_nan => Raise ValueError
  end.

End PyFloat.

(** ** Cell renderers *)

Module Style.

(** Colors stay symbolic: [css_to_color] of a CSS string, or one of the
    two [widgetutil] constants. *)
Inductive color : Type :=
  | css_to_color (css_string : string)
  | WHITE
  | BLACK.

(** Modelled from the spec: the data object the renderers read is declared
    outside these sources.  These are the fields of [info.download_info]
    that the methods below read. *)
Record DownloadInfo : Type := mkDownloadInfo {
  dl_state : string;             (* [download_info.state] *)
  downloaded_size : Z;
  total_size : Z;
  rate : Z;
  short_reason_failed : string;
}.

(** Modelled from the spec: these are the fields of [info] that the methods
    below read.  [download_info] and [expiration_date] are [None] when
    absent; [description_stripped] is the text with its link spans. *)
Record ItemInfo : Type := mkItemInfo {
  id : Z;
  state : string;
  download_info : option DownloadInfo;
  size : Z;
  has_drm : bool;
  pending_auto_dl : bool;
  downloaded : bool;
  video_watched : bool;
  is_playable : bool;
  item_viewed : bool;
  resume_time : Z;
  file_type : string;
  expiration_date : option Z;
  description_stripped : string * list (Z * Z * string);
}.

(** *** ItemRenderer *)

Record ImageSurface : Type := mkImageSurface {
  width : Z;
  height : Z;
}.

(** The attributes of an [ItemRenderer] that the methods below read or
    assign.  An attribute that no method has assigned yet is [None]. *)
Record ItemRenderer : Type := mkItemRenderer {
  info : ItemInfo;
  images : string -> ImageSurface;
  attrs : gmap string Z;
  self_download_info : option (option DownloadInfo);   (* [self.download_info] *)
  download_mode : option bool;
  throbber_mode : option bool;
  hotspot : option (option string);
  selected : bool;
  hover : option bool;
}.

Definition with_self_download_info (self : ItemRenderer)
    (v : option DownloadInfo) : ItemRenderer :=
  mkItemRenderer (info self) (images self) (attrs self) (Some v)
                 (download_mode self) (throbber_mode self) (hotspot self)
                 (selected self) (hover self).
Definition with_download_mode (self : ItemRenderer) (v : bool) : ItemRenderer :=
  mkItemRenderer (info self) (images self) (attrs self)
                 (self_download_info self) (Some v) (throbber_mode self)
                 (hotspot self) (selected self) (hover self).
Definition with_throbber_mode (self : ItemRenderer) (v : bool) : ItemRenderer :=
  mkItemRenderer (info self) (images self) (attrs self)
                 (self_download_info self) (download_mode self) (Some v)
                 (hotspot self) (selected self) (hover self).
Definition with_flags (self : ItemRenderer) (hotspot_ : option string)
    (selected_ hover_ : bool) : ItemRenderer :=
  mkItemRenderer (info self) (images self) (attrs self)
                 (self_download_info self) (download_mode self)
                 (throbber_mode self) (Some hotspot_) selected_ (Some hover_).

Definition assign (f : ItemRenderer -> ItemRenderer) : stateM ItemRenderer unit :=
  fun self => (Ret tt, f self).

(** [x in ('downloading', 'paused')] *)
Definition in_downloading_paused (x : string) : bool :=
  String.eqb x "downloading" || String.eqb x "paused".

Definition calc_download_mode : stateM ItemRenderer unit :=
  fun self =>
    let mode := in_downloading_paused (state (info self)) in
    let self := with_download_mode self mode in
    if mode then
      match download_info (info self) with
      | Some dl_info =>
          (Ret tt,
           with_throbber_mode self
             ((0 <? downloaded_size dl_info) && (total_size dl_info <? 0)))
      | None => (Raise (AttributeError "downloaded_size"), self)
      end
    else (Ret tt, self).

(** [hotspot_test] and [render] start alike; what follows the three flag
    assignments (the layout pass and its use) is a parameter. *)
Section entry_points.
Variable find_hotspot_in_layout :
  Z -> Z -> Z -> Z -> stateM ItemRenderer (option string).
Variable draw_layout : stateM ItemRenderer unit.

Definition hotspot_test (x y width height : Z)
    : stateM ItemRenderer (option string) :=
  exec assign (fun self => with_self_download_info self (download_info (info self)));
  exec calc_download_mode;
  exec assign (fun self => with_flags self None false true);
  find_hotspot_in_layout x y width height.

Definition render (selected_ : bool) (hotspot_ : option string) (hover_ : bool)
    : stateM ItemRenderer unit :=
  exec assign (fun self => with_self_download_info self (download_info (info self)));
  exec calc_download_mode;
  exec assign (fun self => with_flags self hotspot_ selected_ hover_);
  draw_layout.
End entry_points.

(** What reaches the drawing context and the signal emitter. *)
Inductive draw_op : Type :=
  | ImageDraw (image : string) (x y width height : Z)
  | ThrobberDraw (index : Z) (x y width : Z)
  | SignalEmit (signal : string) (item : Z).

Definition draw (op : draw_op) : stateM (list draw_op) unit :=
  fun context => (Ret tt, context ++ [op]).

Definition lift {S A} (o : outcome A) : stateM S A := fun s => (o, s).

(** [len(self.progress_throbber_surfaces)] *)
Definition progress_throbber_count : Z := 5.

Definition draw_progress_throbber (self : ItemRenderer) (x y width height : Z)
    : stateM (list draw_op) unit :=
  let throbber_count := default 0 (attrs self !! "throbber-value") in
  let index := throbber_count mod progress_throbber_count in
  exec draw (ThrobberDraw index x y width);
  draw (SignalEmit "throbber-drawn" (id (info self))).

Definition draw_progress_bar (self : ItemRenderer) (x y width height : Z)
    : stateM (list draw_op) unit :=
  match throbber_mode self with
  | None => raise (AttributeError "throbber_mode")
  | Some true => draw_progress_throbber self x y width height
  | Some false =>
      if size (info self) =? 0 then ret tt
      else
        match download_info (info self) with
        | None => raise (AttributeError "downloaded_size")
        | Some dl_info =>
            do downloaded <- lift (PyFloat.of_int (downloaded_size dl_info));
            do total <- lift (PyFloat.of_int (size (info self)));
            do progress_ratio <- lift (PyFloat.div downloaded total);
            do width_f <- lift (PyFloat.of_int width);
            do progress_width <- lift (PyFloat.to_int (PyFloat.mul width_f progress_ratio));
            let left := "progress-left-cap" in
            let middle := "progress-middle" in
            let right := "progress-right-cap" in
            let left_w := Style.width (images self left) in
            let right_w := Style.width (images self right) in
            let left_width := Z.min left_w progress_width in
            let right_width := Z.max 0 (progress_width - (width - right_w)) in
            let middle_width := Z.max 0 (progress_width - left_width - right_width) in
            exec draw (ImageDraw left x y left_width height);
            exec draw (ImageDraw middle (x + left_w) y middle_width height);
            draw (ImageDraw right (x + width - right_w) y right_width height)
        end
  end.

(** *** PlaylistItemRenderer *)

Section playlist.
Variable sort_key : ItemInfo -> Z.      (* [self.playlist_sorter.sort_key] *)

(** The text box is the list of the runs appended to it. *)
Definition add_description_preface (self : ItemRenderer)
    : stateM (list string) Z :=
  let order_number := sort_key (info self) + 1 in
  let sort_key_preface :=
    if negb (String.eqb (fst (description_stripped (info self))) EmptyString)
    then (unicode (PyInt order_number) ++ " - ")%string
    else unicode (PyInt order_number) in
  fun textbox =>
    (Ret (Z.of_nat (String.length sort_key_preface)),
     textbox ++ [sort_key_preface]).
End playlist.

(** *** _EmblemDrawer *)

Definition EMBLEM_TEXT_PAD_END : Z := 20.
Definition EMBLEM_TEXT_PAD_END_SMALL : Z := 6.

Definition RESUME_TEXT_COLOR := css_to_color "#306219".
Definition RESUME_TEXT_SHADOW := WHITE.
Definition UNPLAYED_TEXT_COLOR := css_to_color "#d8ffc7".
Definition UNPLAYED_TEXT_SHADOW := BLACK.
Definition NEWLY_AVAILABLE_TEXT_COLOR := css_to_color "#e1efff".
Definition NEWLY_AVAILABLE_TEXT_SHADOW := BLACK.
Definition DRM_TEXT_COLOR := css_to_color "#582016".
Definition DRM_TEXT_SHADOW := WHITE.
Definition QUEUED_TEXT_COLOR := css_to_color "#4a2c00".
Definition QUEUED_TEXT_SHADOW := WHITE.
Definition FAILED_TEXT_COLOR := css_to_color "#ffe7e7".
Definition FAILED_TEXT_SHADOW := BLACK.

Inductive pref : Type :=
  | RESUME_PODCASTS_MODE
  | RESUME_VIDEOS_MODE
  | RESUME_MUSIC_MODE.

(** The attributes of an [_EmblemDrawer].  [text_color], [text_shadow] and
    [emblem] are only assigned by the branches of [_calc_emblem_parts]. *)
Record EmblemDrawer : Type := mkEmblemDrawer {
  e_info : ItemInfo;                 (* [self.info] *)
  is_podcast : bool;
  text : option string;
  image : option string;
  margin_right : Z;
  text_bold : bool;
  text_color : option color;
  text_shadow : option color;
  emblem : option string;
}.

Section emblem.
(** The collaborators queried in mid-layout. *)
Variable gettext : string -> string.                        (* [_] *)
Variable gettext_values : string -> list (string * string) -> string.
Variable is_playing_id : Z -> bool.        (* [app.playback_manager] *)
Variable config_get : pref -> bool.        (* [app.config.get] *)
Variable short_time_string : Z -> string.  (* [displaytext] *)

Definition ERROR_TEXT := gettext "Error".
Definition QUEUED_TEXT := gettext "Queued for Auto-download".
Definition UNPLAYED_TEXT := gettext "Unplayed".
Definition CURRENTLY_PLAYING_TEXT := gettext "Currently Playing".
Definition NEWLY_AVAILABLE_TEXT := gettext "Newly Available".

Definition should_resume_item (self : EmblemDrawer) : bool :=
  let resume_pref :=
    if is_podcast self then RESUME_PODCASTS_MODE
    else if String.eqb (file_type (e_info self)) "video" then RESUME_VIDEOS_MODE
    else RESUME_MUSIC_MODE in
  is_playable (e_info self)
  && item_viewed (e_info self)
  && (0 <? resume_time (e_info self))
  && config_get resume_pref.

(** [info.download_info and info.download_info.state == 'failed'] *)
Definition download_failed (i : ItemInfo) : bool :=
  match download_info i with
  | Some dl => String.eqb (dl_state dl) "failed"
  | None => false
  end.

Definition _calc_emblem_parts (self : EmblemDrawer) : EmblemDrawer :=
  let i := e_info self in
  let podcast := is_podcast self in
  (* self.text = self.image = None; margin_right; text_bold *)
  let color0 := text_color self in
  let shadow0 := text_shadow self in
  let emblem0 := emblem self in
  if has_drm i then
    mkEmblemDrawer i podcast (Some (gettext "DRM locked")) None
      EMBLEM_TEXT_PAD_END true
      (Some DRM_TEXT_COLOR) (Some DRM_TEXT_SHADOW) (Some "drm")
  else if download_failed i then
    mkEmblemDrawer i podcast
      (Some (ERROR_TEXT ++ "-" ++
             match download_info i with
             | Some dl => short_reason_failed dl
             | None => EmptyString
             end)%string)
      (Some "status-icon-alert")
      EMBLEM_TEXT_PAD_END true
      (Some FAILED_TEXT_COLOR) (Some FAILED_TEXT_SHADOW) (Some "failed")
  else if pending_auto_dl i then
    mkEmblemDrawer i podcast (Some QUEUED_TEXT) None
      EMBLEM_TEXT_PAD_END false
      (Some QUEUED_TEXT_COLOR) (Some QUEUED_TEXT_SHADOW) (Some "queued")
  else if downloaded i && is_playing_id (id i) then
    mkEmblemDrawer i podcast (Some CURRENTLY_PLAYING_TEXT) None
      EMBLEM_TEXT_PAD_END false
      (Some UNPLAYED_TEXT_COLOR) (Some UNPLAYED_TEXT_SHADOW) (Some "unplayed")
  else if downloaded i && negb (video_watched i) && is_playable i then
    mkEmblemDrawer i podcast (Some UNPLAYED_TEXT) None
      EMBLEM_TEXT_PAD_END true
      (Some UNPLAYED_TEXT_COLOR) (Some UNPLAYED_TEXT_SHADOW) (Some "unplayed")
  else if should_resume_item self then
    mkEmblemDrawer i podcast
      (Some (gettext_values "Resume at %(resumetime)s"
               [("resumetime", short_time_string (resume_time i))]))
      None
      EMBLEM_TEXT_PAD_END_SMALL true
      (Some RESUME_TEXT_COLOR) (Some RESUME_TEXT_SHADOW) (Some "resume")
  else if negb (item_viewed i) && String.eqb (state i) "new" then
    mkEmblemDrawer i podcast (Some NEWLY_AVAILABLE_TEXT) None
      EMBLEM_TEXT_PAD_END_SMALL true
      (Some NEWLY_AVAILABLE_TEXT_COLOR) (Some NEWLY_AVAILABLE_TEXT_SHADOW)
      (Some "newly")
  else
    mkEmblemDrawer i podcast None None EMBLEM_TEXT_PAD_END false
      color0 shadow0 emblem0.

(** **** The precedence table, row by row

    The same derivation written as the ordered table of rows: the first
    row whose condition holds decides the emblem, and no other row is
    looked at. *)
Inductive emblem_row : Type :=
  | DrmLocked
  | DownloadFailed
  | PendingAutoDownload
  | CurrentlyPlaying
  | Unplayed
  | ResumeEligible
  | NewlyAvailable.

Definition emblem_rows : list emblem_row :=
  [ DrmLocked; DownloadFailed; PendingAutoDownload; CurrentlyPlaying;
    Unplayed; ResumeEligible; NewlyAvailable ].

Definition row_condition (self : EmblemDrawer) (row : emblem_row) : bool :=
  let i := e_info self in
  match row with
  | DrmLocked => has_drm i
  | DownloadFailed => download_failed i
  | PendingAutoDownload => pending_auto_dl i
  | CurrentlyPlaying => downloaded i && is_playing_id (id i)
  | Unplayed => downloaded i && is_playable i && negb (video_watched i)
  | ResumeEligible => should_resume_item self
  | NewlyAvailable => negb (item_viewed i) && String.eqb (state i) "new"
  end.

(** (text, bold, image, text color, shadow, right margin, emblem key) *)
Definition row_emblem (self : EmblemDrawer) (row : emblem_row)
    : string * bool * option string * color * color * Z * string :=
  let i := e_info self in
  match row with
  | DrmLocked =>
      (gettext "DRM locked", true, None, DRM_TEXT_COLOR, DRM_TEXT_SHADOW,
       EMBLEM_TEXT_PAD_END, "drm")
  | DownloadFailed =>
      ((ERROR_TEXT ++ "-" ++
        match download_info i with
        | Some dl => short_reason_failed dl
        | None => EmptyString
        end)%string,
       true, Some "status-icon-alert", FAILED_TEXT_COLOR, FAILED_TEXT_SHADOW,
       EMBLEM_TEXT_PAD_END, "failed")
  | PendingAutoDownload =>
      (QUEUED_TEXT, false, None, QUEUED_TEXT_COLOR, QUEUED_TEXT_SHADOW,
       EMBLEM_TEXT_PAD_END, "queued")
  | CurrentlyPlaying =>
      (CURRENTLY_PLAYING_TEXT, false, None, UNPLAYED_TEXT_COLOR,
       UNPLAYED_TEXT_SHADOW, EMBLEM_TEXT_PAD_END, "unplayed")
  | Unplayed =>
      (UNPLAYED_TEXT, true, None, UNPLAYED_TEXT_COLOR, UNPLAYED_TEXT_SHADOW,
       EMBLEM_TEXT_PAD_END, "unplayed")
  | ResumeEligible =>
      (gettext_values "Resume at %(resumetime)s"
         [("resumetime", short_time_string (resume_time i))],
       true, None, RESUME_TEXT_COLOR, RESUME_TEXT_SHADOW,
       EMBLEM_TEXT_PAD_END_SMALL, "resume")
  | NewlyAvailable =>
      (NEWLY_AVAILABLE_TEXT, true, None, NEWLY_AVAILABLE_TEXT_COLOR,
       NEWLY_AVAILABLE_TEXT_SHADOW, EMBLEM_TEXT_PAD_END_SMALL, "newly")
  end.

(** The first row, in table order, whose condition holds. *)
Definition first_matching_row (self : EmblemDrawer) : option emblem_row :=
  List.find (row_condition self) emblem_rows.

Definition emblem_by_precedence (self : EmblemDrawer) : EmblemDrawer :=
  match first_matching_row self with
  | Some row =>
      let '(text_, bold, image_, color_, shadow, margin, key) :=
        row_emblem self row in
      mkEmblemDrawer (e_info self) (is_podcast self) (Some text_) image_
        margin bold (Some color_) (Some shadow) (Some key)
  | None =>
      mkEmblemDrawer (e_info self) (is_podcast self) None None
        EMBLEM_TEXT_PAD_END false
        (text_color self) (text_shadow self) (emblem self)
  end.
End emblem.

(** *** RatingRenderer *)

Definition ICON_HORIZONTAL_SPACING : Z := 2.
Definition ICON_COUNT : Z := 5.

Record RatingRenderer : Type := mkRatingRenderer {
  icon_height : Z;
  icon_width : Z;
}.

(** [RatingRenderer.__init__] *)
Definition new_RatingRenderer : RatingRenderer :=
  let icon_height := 9 in
  mkRatingRenderer icon_height icon_height.

Definition icon_index_at_x (self : RatingRenderer) (x : Z) : option Z :=
  let icon_width_with_pad := icon_width self + ICON_HORIZONTAL_SPACING in
  let x := x + ICON_HORIZONTAL_SPACING / 2 in
  if (0 <=? x) && (x <? icon_width_with_pad * ICON_COUNT)
  then Some (x / icon_width_with_pad + 1)
  else None.

(** [hotspot_test]: ["rate:%s" % hotspot_index] *)
Definition rating_hotspot_test (self : RatingRenderer) (x : Z) : option string :=
  match icon_index_at_x self x with
  | Some hotspot_index => Some ("rate:" ++ unicode (PyInt hotspot_index))%string
  | None => None
  end.

End Style.

(** ** Describing accesses to the store *)

Module Access.
Import WidgetStateStore.

(** The world after the display under [key] was created: the default
    entity is stored and one save command for it is sent. *)
Definition created (key : string * string) (w : World) : World :=
  mkWorld (heap w) (<[key := new_DisplayInfo key]> (displays w)) (views w)
          (backend w ++ [SaveDisplayState (new_DisplayInfo key)]).

Definition view_created (key : string * string * Z) (w : World) : World :=
  mkWorld (heap w) (displays w) (<[key := new_ViewInfo key]> (views w))
          (backend w ++ [SaveViewState (new_ViewInfo key)]).

(** The entity [_get_display] hands out for [key], and the world it leaves. *)
Definition entity (key : string * string) (w : World) : DisplayInfo :=
  default (new_DisplayInfo key) (displays w !! key).
Definition touch (key : string * string) (w : World) : World :=
  match displays w !! key with Some _ => w | None => created key w end.

Definition view_entity (key : string * string * Z) (w : World) : ViewInfo :=
  default (new_ViewInfo key) (views w !! key).
Definition view_touch (key : string * string * Z) (w : World) : World :=
  match views w !! key with Some _ => w | None => view_created key w end.

(** The list object a display's list view shows: its own if one was
    stored, else the default of its display type. *)
Definition columns_object (display_type : string) (key : string * string)
    (w : World) : option loc :=
  match list_view_columns (entity key w) with
  | Some l => Some l
  | None => DEFAULT_COLUMNS !! display_type
  end.

Definition columns_of (l : loc) (w : World) : list string :=
  default [] (heap w !! l).

(** What [toggle_column] does to the contents of the list. *)
Definition toggled (column : string) (cols : list string) : list string :=
  if bool_decide (column ∈ cols) then list_remove column cols
  else cols ++ [column].

(** The world after an attribute assignment on the display under [key]
    and the save that follows it. *)
Definition updated (key : string * string) (d : DisplayInfo) (w : World) : World :=
  mkWorld (heap w) (<[key := d]> (displays (touch key w))) (views w)
          (backend (touch key w) ++ [SaveDisplayState d]).

Definition view_updated (key : string * string * Z) (v : ViewInfo) (w : World)
    : World :=
  mkWorld (heap w) (displays w) (<[key := v]> (views (view_touch key w)))
          (backend (view_touch key w) ++ [SaveViewState v]).

(** The world after [toggle_column] worked on the list object [l]. *)
Definition toggled_world (key : string * string) (l : loc) (column : string)
    (w : World) : World :=
  mkWorld (<[l := toggled column (columns_of l w)]> (heap w))
          (<[key := with_list_view_columns (entity key w) (Some l)]>
             (displays (touch key w)))
          (views w)
          (backend (touch key w)
           ++ [SaveDisplayState (with_list_view_columns (entity key w) (Some l))]).

(** The public methods that go through [_get_display], the list-view ones
    called for the list view. *)
Inductive display_access : Type :=
  | GetSelectedView
  | SetSelectedView (view : Z)
  | GetFilters
  | ToggleFilters (filter_ : Z)
  | GetColumnsEnabled
  | SetColumnsEnabled (enabled : loc)
  | ToggleColumn (column : string)
  | GetColumnWidths
  | UpdateColumnWidths (widths : gmap string Z).

Definition is_getter (a : display_access) : bool :=
  match a with
  | GetSelectedView | GetFilters | GetColumnsEnabled | GetColumnWidths => true
  | _ => false
  end.

Definition discard {A} (m : M A) : M unit := do _ <- m; ret tt.

Definition run_access (a : display_access) (display_type : string)
    (display_id : pyval) : M unit :=
  match a with
  | GetSelectedView => discard (get_selected_view display_type display_id)
  | SetSelectedView view => set_selected_view display_type display_id view
  | GetFilters => discard (get_filters display_type display_id)
  | ToggleFilters filter_ => toggle_filters display_type display_id filter_
  | GetColumnsEnabled =>
      discard (get_columns_enabled display_type display_id LIST_VIEW)
  | SetColumnsEnabled enabled =>
      set_columns_enabled display_type display_id LIST_VIEW enabled
  | ToggleColumn column =>
      toggle_column display_type display_id LIST_VIEW column
  | GetColumnWidths =>
      discard (get_column_widths display_type display_id LIST_VIEW)
  | UpdateColumnWidths widths =>
      update_column_widths display_type display_id LIST_VIEW widths
  end.

End Access.

(** ** Sample data *)

Module Samples.
Import Style.

Definition no_images (name : string) : ImageSurface := mkImageSurface 10 22.

(** An item whose download has started (100 bytes so far) while neither
    the total size nor the item size is known. *)
Definition started_download : DownloadInfo :=
  mkDownloadInfo "downloading" 100 (-1) 0 EmptyString.

Definition item (state_ : string) (dl : option DownloadInfo) (size_ : Z)
    : ItemInfo :=
  mkItemInfo 7 state_ dl size_ false false false false false false 0 "video"
             None (EmptyString, []).

Definition renderer_for (i : ItemInfo) : ItemRenderer :=
  mkItemRenderer i no_images ∅ None None None None false None.

(** The item is in state 'downloading' and carries no download info. *)
Definition downloading_without_info : ItemRenderer :=
  renderer_for (item "downloading" None 0).

(** Paused before anything arrived: size unknown, nothing downloaded. *)
Definition paused_before_start : ItemRenderer :=
  snd (calc_download_mode
         (renderer_for (item "paused" (Some (mkDownloadInfo "paused" 0 (-1) 0 EmptyString)) 0))).

Definition throbbing_size_zero : ItemRenderer :=
  snd (calc_download_mode (renderer_for (item "downloading" (Some started_download) 0))).

(** A downloaded, playable, unwatched item that is DRM locked. *)
Definition drm_unplayed_item : ItemInfo :=
  mkItemInfo 7 "saved" None 1000 true false true false true true 0 "video"
             None (EmptyString, []).

Definition fresh_drawer (i : ItemInfo) : EmblemDrawer :=
  mkEmblemDrawer i false None None 0 false None None None.

End Samples.

(** ** What the store shows to its callers *)

Module Observations.
Import WidgetStateStore Access.

(** The last command sent is a save of the display that the store holds
    under [key]. *)
Definition saved_stored (key : string * string) (w : World) : Prop :=
  exists d, last (backend w) = Some (SaveDisplayState d)
            /\ displays w !! key = Some d.

(** What [get_column_widths] gives for the list view. *)
Definition widths_outcome (dt : string) (key : string * string) (w : World)
    : outcome (gmap string Z) :=
  match list_view_widths (entity key w) with
  | Some column_widths => Ret column_widths
  | None =>
      match columns_object dt key w with
      | None => Raise (KeyError dt)
      | Some l => fst (fill_default_widths (columns_of l w) ∅ w)
      end
  end.

End Observations.

(** ** Python slices *)

(** Where a slice bound lands in a sequence of length [len]: a negative
    bound counts from the end, and both ends are clipped. *)
Definition slice_index (len i : Z) : Z :=
  if i <? 0 then Z.max 0 (i + len) else Z.min i len.

(** [l[start:stop]] *)
Definition py_slice_list {A} (l : list A) (start stop : Z) : list A :=
  let len := Z.of_nat (length l) in
  let a := slice_index len start in
  let b := slice_index len stop in
  take (Z.to_nat (b - a)) (drop (Z.to_nat a) l).

(** [l[:stop]] *)
Definition py_slice_to {A} (l : list A) (stop : Z) : list A :=
  py_slice_list l 0 stop.

(** [s[start:stop]] and [s[start:]] *)
Definition py_slice (s : string) (start stop : Z) : string :=
  string_of_list_ascii (py_slice_list (list_ascii_of_string s) start stop).
Definition py_slice_from (s : string) (start : Z) : string :=
  py_slice s start (Z.of_nat (String.length s)).

(** ** More of the cell renderers *)

Module Cells.
Import Style.

(** Modelled from the spec: further fields of the item data object that
    the methods below read; [torrent] and [startup_activity] are fields of
    its [download_info], [children] is the list of the items of a torrent
    folder, and the ratings are [None] when there is none. *)
Record ItemMore : Type := mkItemMore {
  feed_name : string;
  children : list Z;
  torrent : bool;
  startup_activity : string;
  display_date : string;
  display_duration : string;
  display_size : string;
  file_format : string;
  mime_type : string;
  rating : option Z;
  auto_rating : option Z;
  connections : Z;
  seeders : Z;
  leechers : Z;
}.

(** Modelled from the spec: [cellpack.LayoutRect], an axis-aligned
    rectangle (x, y, width, height) with the derived [right] and
    [bottom]. *)
Record LayoutRect : Type := mkLayoutRect {
  rect_x : Z;
  rect_y : Z;
  rect_width : Z;
  rect_height : Z;
}.
Definition rect_right (r : LayoutRect) : Z := rect_x r + rect_width r.
Definition rect_bottom (r : LayoutRect) : Z := rect_y r + rect_height r.

(** The attributes [setup_guides] leaves on the renderer, as far as the
    methods below read them. *)
Record Guides : Type := mkGuides {
  image_rect : LayoutRect;
  middle_rect : LayoutRect;
  emblem_bottom : Z;
}.

(** *** Description text and its links *)

(** Colors that are float triples in the source. *)
Inductive text_color : Type :=
  | ITEM_DESC_COLOR
  | FEED_NAME_COLOR
  | TORRENT_INFO_LABEL_COLOR
  | TORRENT_INFO_DATA_COLOR.

(** One [append_text] call on a text box. *)
Record text_run : Type := mkRun {
  run_text : string;
  run_underline : bool;
  run_color : option text_color;
}.

(** [ItemRenderer.add_description_preface] *)
Definition add_description_preface (display_channel : bool) (more : ItemMore)
    (textbox : list text_run) : Z * list text_run :=
  if display_channel && negb (String.eqb (feed_name more) EmptyString) then
    let feed_preface := (feed_name more ++ ": ")%string in
    (Z.of_nat (String.length feed_preface),
     textbox ++ [mkRun feed_preface false (Some FEED_NAME_COLOR)])
  else (0, textbox).

(** The loop over [links] in [make_description]; the result is [pos] and
    the text box after the loop. *)
Fixpoint append_links (text : string) (pos : Z) (links : list (Z * Z * string))
    (textbox : list text_run) : Z * list text_run :=
  match links with
  | [] => (pos, textbox)
  | (start, end_, url) :: rest =>
      append_links text end_ rest
        (textbox ++ [mkRun (py_slice text pos start) false None;
                     mkRun (py_slice text start end_) true (Some ITEM_DESC_COLOR)])
  end.

(** What [make_description] returns and leaves in
    [self.description_text_start] and [self.description_links]. *)
Record Description : Type := mkDescription {
  textbox : list text_run;
  description_text_start : Z;
  description_links : list (Z * Z * string);
}.

Definition make_description (display_channel : bool)
    (torrent_folder_description : string * list (Z * Z * string))
    (i : ItemInfo) (more : ItemMore) : Description :=
  let '(text_start, textbox) := add_description_preface display_channel more [] in
  let '(text, links) :=
    if match download_info i with Some _ => true | None => false end
       && torrent more
       && match children more with [] => false | _ => true end
    then torrent_folder_description
    else description_stripped i in
  let '(pos, textbox) := append_links text 0 links textbox in
  let textbox :=
    if pos <? Z.of_nat (String.length text)
    then textbox ++ [mkRun (py_slice_from text pos) false None]
    else textbox in
  mkDescription textbox text_start links.




(** The [for] loop of [hotspot_test] over the links of the description. *)
Fixpoint link_at (index : Z) (links : list (Z * Z * string)) : option string :=
  match links with
  | [] => None
  | (start, end_, url) :: rest =>
      if (start <=? index) && (index <? end_) then
        if String.eqb url "#show-torrent-contents" then Some "show_contents"
        else Some ("description-link:" ++ url)%string
      else link_at index rest
  end.

(** [ItemRenderer.hotspot_test] from the point where the layout has
    answered [find_hotspot]: [hotspot_info] is that answer, [char_at] the
    text box of the description. *)
Definition hotspot_of_layout (description : Description)
    (char_at : Z -> Z -> option Z) (hotspot_info : option (string * Z * Z))
    : option string :=
  match hotspot_info with
  | None => None
  | Some (hotspot, x, y) =>
      if String.eqb hotspot "description" then
        match char_at x y with
        | None => None
        | Some index =>
            let index := index - description_text_start description in
            if index <? 0 then None
            else link_at index (description_links description)
        end
      else Some hotspot
  end.

(** *** Emblem button and thumbnail *)

Inductive button : Type :=
  | ImageButton (image_name : string)
  | TextButton (text : string) (pressed : bool) (icon : option string).

Definition calc_thumbnail_hotspot (i : ItemInfo) : option string :=
  if negb (downloaded i) then Some "thumbnail-download"
  else if is_playable i then Some "thumbnail-play"
  else None.

Section emblem_button.
Variable gettext : string -> string.
Variable REVEAL_IN_TEXT : string.
(** [app.playback_manager]: the id of the playing item, if any, and the
    paused flag. *)
Variable playing_item : option Z.
Variable is_paused : bool.

(** [_EmblemDrawer.make_emblem_button]; [hotspot] is [self.hotspot]. *)
Definition make_emblem_button (i : ItemInfo) (more : ItemMore)
    (hotspot : option string) : button * string :=
  if downloaded i then
    if is_playable i then
      let '(button_name, hotspot_name) :=
        if match playing_item with
           | Some playing_id => playing_id =? id i
           | None => false
           end
        then (if is_paused then "play" else "pause", "play_pause")
        else ("play", "play") in
      let button_name :=
        if bool_decide (hotspot = Some hotspot_name)
        then (button_name ++ "-pressed")%string else button_name in
      (ImageButton button_name, hotspot_name)
    else
      (TextButton REVEAL_IN_TEXT (bool_decide (hotspot = Some "show_local_file"))
                  None,
       "show_local_file")
  else
    let text :=
      if String.eqb (mime_type more) "application/x-bittorrent"
      then gettext "Download Torrent" else gettext "Download" in
    (TextButton text (bool_decide (hotspot = Some "download"))
                (Some "download-arrow"),
     "download").
End emblem_button.

(** *** Rating stars *)

(** [RatingRenderer._get_icon]: the state of the [i]th star. *)
Definition _get_icon (hover : option Z) (more : ItemMore) (i : Z) : string :=
  match hover with
  | Some hover => if i <=? hover then "yes" else "no"
  | None =>
      match rating more with
      | Some rating => if i <=? rating then "yes" else "no"
      | None =>
          match auto_rating more with
          | Some auto_rating => if i <=? auto_rating then "probably" else "unset"
          | None => "unset"
          end
      end
  end.

(** The loop of [RatingRenderer.render] from star [i] on, [count] stars
    left. *)
Fixpoint draw_stars (self : RatingRenderer) (hover : option Z) (more : ItemMore)
    (y_pos : Z) (count : nat) (i x_pos : Z) : list draw_op :=
  match count with
  | O => []
  | S count =>
      ImageDraw (_get_icon hover more i) x_pos y_pos
                (icon_width self) (icon_height self)
      :: draw_stars self hover more y_pos count (i + 1)
           (x_pos + icon_width self + ICON_HORIZONTAL_SPACING)
  end.

(** [RatingRenderer.render]; [hover] is the pointer position or [None],
    and each icon has the size it was loaded at. *)
Definition rating_render (self : RatingRenderer) (more : ItemMore)
    (context_height : Z) (hover : option (Z * Z)) : list draw_op :=
  let hover_index :=
    match hover with
    | Some (x, _) => icon_index_at_x self x
    | None => None
    end in
  let y_pos := (context_height - icon_height self) / 2 in
  draw_stars self hover_index more y_pos (Z.to_nat ICON_COUNT) 1 0.

(** *** Painting *)

(** Calls on the drawing context and on image surfaces. *)
Inductive paint_op : Type :=
  | SurfaceDraw (image : string) (x y width height : Z)
  | ThreeImageDraw (left middle right : string) (x y width : Z)
  | TextDraw (text : string) (x y width height : Z)
  | SetColor (c : color)
  | Rectangle (x y width height : Z)
  | Fill.

Definition paint (op : paint_op) : stateM (list paint_op) unit :=
  fun context => (Ret tt, context ++ [op]).

Definition RIGHT_WIDTH_DOWNLOAD_MODE : Z := 115.

Definition draw_download_info_background (self : ItemRenderer) (x y width : Z)
    : stateM (list paint_op) unit :=
  if selected self then
    paint (ThreeImageDraw "dl-stats-selected-left-cap" "dl-stats-selected-middle"
                          "dl-stats-selected-right-cap" x y width)
  else
    paint (ThreeImageDraw "dl-stats-left-cap" "dl-stats-middle"
                          "dl-stats-right-cap" x y width).

Definition draw_background (self : ItemRenderer) (guides : Guides)
    (x y width height : Z) : stateM (list paint_op) unit :=
  let '(left_, thumb, middle, right_) :=
    if selected self
    then ("selected-background-left", "dl-stats-selected-middle",
          "selected-background-middle", "selected-background-right")
    else ("background-left", "dl-stats-middle",
          "background-middle", "background-right") in
  let left_w := Style.width (images self left_) in
  exec paint (SurfaceDraw left_ x y left_w height);
  do right_width <-
    (match download_mode self with
     | None => raise (AttributeError "download_mode")
     | Some true =>
         let right_width := RIGHT_WIDTH_DOWNLOAD_MODE in
         let download_info_x := x + width - right_width in
         exec draw_download_info_background self download_info_x y right_width;
         ret right_width
     | Some false =>
         let right_width := Style.width (images self right_) in
         exec paint (SurfaceDraw right_ (x + width - right_width) y right_width height);
         ret right_width
     end);
  let image_end_x := rect_right (image_rect guides) in
  let middle_end_x := x + width - right_width in
  let middle_width := middle_end_x - image_end_x in
  exec paint (SurfaceDraw middle image_end_x y middle_width height);
  let thumbnail_background_width := image_end_x - (x + left_w) in
  paint (SurfaceDraw thumb (x + left_w) y thumbnail_background_width height).

(** The columns a painting step covers: an image is drawn from [x] on,
    [width] wide. *)
Definition extent (op : paint_op) : option (Z * Z) :=
  match op with
  | SurfaceDraw _ x _ width _ => Some (x, width)
  | ThreeImageDraw _ _ _ x _ width => Some (x, width)
  | _ => None
  end.

Definition paints_at (px : Z) (op : paint_op) : bool :=
  match extent op with
  | Some (x, width) => (x <=? px) && (px <? x + width)
  | None => false
  end.

(** [_ExtraInfoDrawer]: the text boxes are the texts they were made for,
    measured by the layout manager. *)
Record ExtraInfoDrawer : Type := mkExtraInfoDrawer {
  separator_color : color;
  textboxes : list string;
  drawer_height : Z;
}.

Definition extra_info_setup (more : ItemMore) (line_height : Z)
    (separator_color_ : color) : ExtraInfoDrawer :=
  mkExtraInfoDrawer separator_color_
    (List.filter (fun attr => negb (String.eqb attr EmptyString))
       [display_date more; display_duration more; display_size more;
        file_format more])
    line_height.

Definition extra_info_reset (self : ExtraInfoDrawer) : ExtraInfoDrawer :=
  mkExtraInfoDrawer (separator_color self) [] (drawer_height self).

Section extra_info_draw.
Variable text_size : string -> Z * Z.        (* [textbox.get_size()] *)

(** The loop of [_ExtraInfoDrawer.draw]; [round] of an int is that int. *)
Fixpoint draw_textboxes (color_ : color) (boxes : list string)
    (x y height : Z) : stateM (list paint_op) unit :=
  match boxes with
  | [] => ret tt
  | box :: rest =>
      let '(text_width, text_height) := text_size box in
      exec paint (TextDraw box x y text_width text_height);
      let separator_x := x + text_width + 4 in
      exec paint (SetColor color_);
      exec paint (Rectangle separator_x y 1 height);
      exec paint Fill;
      draw_textboxes color_ rest (x + text_width + 8) y height
  end.

Definition extra_info_draw (self : ExtraInfoDrawer) (x y width height : Z)
    : stateM (list paint_op) unit :=
  draw_textboxes (separator_color self) (textboxes self) x y height.
End extra_info_draw.

(** *** Laying out *)

(** What an element of a layout draws with. *)
Inductive callback : Type :=
  | ImageCallback (image : string)        (* [image.draw] *)
  | DrawProgressBar                       (* [self.draw_progress_bar] *)
  | TextboxCallback (text : string) (color_ : text_color) (right_aligned : bool).

(** Calls on a [cellpack.Layout], in the order they are made. *)
Inductive layout_call : Type :=
  | Add (x y width height : Z) (cb : callback)
  | AddRect (rect : LayoutRect) (cb : callback)
  | AddImage (image : string) (x y : Z) (hotspot : option string)
  | AddTextLine (cb : callback) (x y width : Z).

Definition call (c : layout_call) : stateM (list layout_call) unit :=
  fun layout => (Ret tt, layout ++ [c]).

(** [_make_image_button] *)
Definition _make_image_button (self : ItemRenderer) (image_name hotspot_name : string)
    : outcome string :=
  match hotspot self with
  | None => Raise (AttributeError "hotspot")
  | Some active =>
      if negb (bool_decide (active = Some hotspot_name)) then Ret image_name
      else Ret (image_name ++ "-pressed")%string
  end.

Definition _add_image_button (self : ItemRenderer) (x y : Z)
    (image_name hotspot_name : string) : stateM (list layout_call) unit :=
  do image <- lift (_make_image_button self image_name hotspot_name);
  call (AddImage image x y (Some hotspot_name)).

Definition layout_progress_bar (self : ItemRenderer) (guides : Guides)
    : stateM (list layout_call) unit :=
  let left := rect_x (middle_rect guides) in
  let width := rect_width (middle_rect guides) in
  let top := emblem_bottom guides - Style.height (images self "progress-track") in
  let height := 22 in
  let end_button_width := 47 in
  let progress_cap_width := 10 in
  do width <-
    (match throbber_mode self with
     | None => raise (AttributeError "throbber_mode")
     | Some true =>
         let button_width_extra := end_button_width * 2 - progress_cap_width * 2 in
         ret (width - (width - button_width_extra) mod 10)
     | Some false => ret width
     end);
  do left_button <-
    (match self_download_info self with
     | None => raise (AttributeError "download_info")
     | Some None => ret ("pause", "download-pause")
     | Some (Some dl) =>
         if negb (String.eqb (dl_state dl) "paused")
         then ret ("pause", "download-pause")
         else ret ("resume", "download-resume")
     end);
  let '(left_hotspot, left_button_name) := left_button in
  exec _add_image_button self left top left_button_name left_hotspot;
  let right_button_x := left + width - end_button_width in
  exec _add_image_button self right_button_x top "download-stop" "cancel";
  let track_x := left + end_button_width in
  let track_rect := mkLayoutRect track_x top (right_button_x - track_x) height in
  exec call (AddRect track_rect (ImageCallback "progress-track"));
  let progress_x := track_x - progress_cap_width in
  let bar_width_total := (right_button_x - progress_x) + progress_cap_width in
  let bar_rect := mkLayoutRect progress_x top bar_width_total height in
  call (AddRect bar_rect DrawProgressBar).

Section torrent_details.
Variable gettext : string -> string.
Variable text_size : string -> Z * Z.      (* [textbox.get_size()] *)
Variable line_height : Z.                  (* of the details font *)
Variable up_down_ratio_text : string.      (* ["%.2f" % info.up_down_ratio] *)

(** The loop over the lines that are left. *)
Fixpoint add_detail_lines (lines : list (string * string)) (rect : LayoutRect)
    (y : Z) : stateM (list layout_call) unit :=
  match lines with
  | [] => ret tt
  | (label, value) :: rest =>
      exec call (AddTextLine (TextboxCallback label TORRENT_INFO_LABEL_COLOR false)
                             (rect_x rect) y (rect_width rect));
      exec call (AddTextLine (TextboxCallback value TORRENT_INFO_DATA_COLOR true)
                             (rect_x rect) y (rect_width rect));
      add_detail_lines rest rect (y + line_height)
  end.

Definition layout_download_right_torrent (i : ItemInfo) (more : ItemMore)
    (rect : LayoutRect) : stateM (list layout_call) unit :=
  match download_info i with
  | None => raise (AttributeError "rate")
  | Some dl =>
      if rate dl =? 0 then
        let height := snd (text_size (startup_activity more)) in
        let y := rect_bottom rect - height in
        call (Add (rect_x rect) y (rect_width rect) height
                  (TextboxCallback (startup_activity more)
                                   TORRENT_INFO_DATA_COLOR false))
      else
        let lines :=
          [ (gettext "PEERS", unicode (PyInt (connections more)));
            (gettext "SEEDS", unicode (PyInt (seeders more)));
            (gettext "LEECH", unicode (PyInt (leechers more)));
            (gettext "SHARE", up_down_ratio_text) ] in
        if line_height =? 0 then raise ZeroDivisionError
        else
          let potential_lines := rect_height rect / line_height in
          let lines := py_slice_to lines potential_lines in
          let total_height := line_height * Z.of_nat (length lines) in
          let y := rect_bottom rect - total_height in
          add_detail_lines lines rect y
  end.
End torrent_details.

End Cells.

(** ** More sample data *)

Module CellSamples.
Import Style Cells Samples.

Definition plain_more : ItemMore :=
  mkItemMore "Feed" [] false "connecting" "Jan 1" EmptyString "12 MB" "mp4"
             "video/mp4" None (Some 3) 4 2 1.

(** "See the site for more": the word "site" links to a page. *)
Definition linked_item : ItemInfo :=
  mkItemInfo 7 "saved" None 1000 false false true false true true 0 "video"
             None ("See the site for more", [(8, 12, "http://example.com/")]).

Definition linked_description : Description :=
  make_description true ("display contents", [(0, 16, "#show-torrent-contents")])
                   linked_item plain_more.

(** The text box answers with the character under the point. *)
Definition char_at_x (x y : Z) : option Z := Some x.

Definition flat_size (text : string) : Z * Z :=
  (Z.of_nat (String.length text) * 6, 12).

Definition sample_guides : Guides :=
  mkGuides (mkLayoutRect 20 11 180 125) (mkLayoutRect 220 11 250 125) 118.

(** A renderer in the middle of a paint pass for a download of unknown
    total size. *)
Definition painting_throbber : ItemRenderer :=
  mkItemRenderer (item "downloading" (Some started_download) 0) no_images ∅
                 (Some (Some started_download)) (Some true) (Some true)
                 (Some None) false (Some false).

Definition torrent_item : ItemInfo :=
  item "downloading" (Some (mkDownloadInfo "downloading" 50 200 10 EmptyString)) 200.

End CellSamples.

(** * Properties *)

(** ** Filters *)

Section filters.
Import WidgetStateStore.

Lemma lxor_twice (m f : Z) : Z.lxor (Z.lxor m f) f = m.
Proof. now rewrite Z.lxor_assoc, Z.lxor_nilpotent, Z.lxor_0_r. Qed.

(** C7: the view-all filter is absorbing, every other filter toggles by
    XOR against the mask; toggling the unwatched filter from view-all
    leaves exactly the unwatched bit set, and toggling a filter other than
    view-all twice gives the mask back. *)
Theorem toggle_filter_absorbs_or_xors (m f : Z) :
  toggle_filter m FILTER_VIEW_ALL = FILTER_VIEW_ALL
  /\ (f <> FILTER_VIEW_ALL -> toggle_filter m f = Z.lxor m f)
  /\ (forall n, Z.testbit (toggle_filter FILTER_VIEW_ALL FILTER_UNWATCHED) n
                = Z.testbit FILTER_UNWATCHED n)
  /\ has_unwatched_filter (toggle_filter FILTER_VIEW_ALL FILTER_UNWATCHED) = true
  /\ (f <> FILTER_VIEW_ALL -> toggle_filter (toggle_filter m f) f = m).
Proof.
  assert (Hne : f <> FILTER_VIEW_ALL -> forall k, toggle_filter k f = Z.lxor k f).
  { intros Hf k. unfold toggle_filter.
    destruct (Z.eqb_spec f FILTER_VIEW_ALL); [contradiction | reflexivity]. }
  repeat split.
  - intros Hf. now apply Hne.
  - intros Hf. rewrite !Hne by assumption. apply lxor_twice.
Qed.

Lemma toggle_filter_absorbs_or_xors_witness :
  FILTER_DOWNLOADED <> FILTER_VIEW_ALL
  /\ toggle_filter 3 FILTER_DOWNLOADED = 7
  /\ toggle_filter (toggle_filter 3 FILTER_DOWNLOADED) FILTER_DOWNLOADED = 3.
Proof.
  assert (H : FILTER_DOWNLOADED <> FILTER_VIEW_ALL) by discriminate.
  destruct (toggle_filter_absorbs_or_xors 3 FILTER_DOWNLOADED)
    as (_ & Hxor & _ & _ & Htwice).
  split; [exact H | split].
  - rewrite (Hxor H). reflexivity.
  - exact (Htwice H).
Defined.

End filters.

(** ** Item renderer *)

Module StyleProofs.
Import Style Samples.

Lemma in_downloading_paused_iff (s : string) :
  in_downloading_paused s = true <-> s = "downloading" \/ s = "paused".
Proof.
  unfold in_downloading_paused. rewrite orb_true_iff, !String.eqb_eq. tauto.
Qed.

(** C2: [download_mode] is set exactly for the states 'downloading' and
    'paused'; in download mode, with the download info [dl] of the item,
    [throbber_mode] is set exactly when bytes have arrived and the total
    size is negative. *)
Theorem calc_download_mode_flags (self : ItemRenderer) :
  let self' := snd (calc_download_mode self) in
  (download_mode self' = Some true
   <-> state (info self) = "downloading" \/ state (info self) = "paused")
  /\ (download_mode self' = Some true \/ download_mode self' = Some false)
  /\ (forall dl,
        download_info (info self) = Some dl ->
        download_mode self' = Some true ->
        fst (calc_download_mode self) = Ret tt
        /\ (throbber_mode self' = Some true
            <-> 0 < downloaded_size dl /\ total_size dl < 0)).
Proof.
  cbv zeta. unfold calc_download_mode.
  rewrite <- in_downloading_paused_iff.
  destruct (in_downloading_paused (state (info self))) eqn:Hmode; cbn;
    destruct (download_info (info self)) as [dl0|] eqn:Hdl; cbn.
  - split; [split; reflexivity | split; [now left |]].
    intros dl [= <-] _. split; [reflexivity |].
    rewrite <- !Z.ltb_lt, <- andb_true_iff.
    split; [now intros [= ->] | now intros ->].
  - split; [split; reflexivity | split; [now left |]]. intros dl [=].
  - split; [split; discriminate | split; [now right |]]. intros dl _ [=].
  - split; [split; discriminate | split; [now right |]]. intros dl [=].
Qed.

Lemma calc_download_mode_flags_witness :
  throbber_mode throbbing_size_zero = Some true <-> 0 < 100 /\ -1 < 0.
Proof.
  pose proof (calc_download_mode_flags
                (renderer_for (item "downloading" (Some started_download) 0)))
    as (_ & _ & H).
  destruct (H started_download eq_refl eq_refl) as [_ Hiff].
  exact Hiff.
Defined.

(** *** The entry points and the download info *)

(** [render] and [hotspot_test] run [calc_download_mode] before anything is
    laid out, and it reads [dl_info.downloaded_size] of an item in a
    download state: with [download_info] being [None] there, both raise
    [AttributeError], whatever the layout pass would do afterwards.  Whether
    an item in state 'downloading' can come without download info is
    decided where the items are made, not in the renderers, which read it
    unguarded in download mode throughout. *)
Lemma render_raises_without_download_info
    (find_hotspot_in_layout : Z -> Z -> Z -> Z -> stateM ItemRenderer (option string))
    (draw_layout : stateM ItemRenderer unit)
    (selected_ hover_ : bool) (hotspot_ : option string) (x y w h : Z) :
  fst (render draw_layout selected_ hotspot_ hover_ downloading_without_info)
    = Raise (AttributeError "downloaded_size")
  /\ fst (hotspot_test find_hotspot_in_layout x y w h downloading_without_info)
    = Raise (AttributeError "downloaded_size").
Proof. split; reflexivity. Qed.

(** Outside download mode a missing [download_info] is not read by
    [calc_download_mode]. *)
Lemma calc_download_mode_total (self : ItemRenderer) :
  raises (fst (calc_download_mode self)) = true
  <-> in_downloading_paused (state (info self)) = true
      /\ download_info (info self) = None.
Proof.
  unfold calc_download_mode.
  destruct (in_downloading_paused (state (info self))); cbn;
    destruct (download_info (info self)); cbn; intuition congruence.
Qed.

(** A zero-length description only changes the preface text. *)
Lemma add_description_preface_total (sort_key : ItemInfo -> Z)
    (self : ItemRenderer) (textbox : list string) :
  raises (fst (add_description_preface sort_key self textbox)) = false.
Proof. reflexivity. Qed.

(** *** Progress bar *)

(** C4, as stated, fails: with [throbber_mode] set the throbber is drawn
    for an item of size 0. *)
Lemma draw_progress_bar_size_zero_throbber :
  size (info throbbing_size_zero) = 0
  /\ draw_progress_bar throbbing_size_zero 0 0 200 22 []
     = (Ret tt, [ThrobberDraw 0 0 0 200; SignalEmit "throbber-drawn" 7]).
Proof. split; reflexivity. Qed.

(** C4 (amended): for an item of size 0 the progress bar draws nothing
    when [throbber_mode] is off; when [throbber_mode] is on, the throbber
    frame is drawn and 'throbber-drawn' emitted, whatever the size. *)
Theorem draw_progress_bar_size_zero (self : ItemRenderer) (x y w h : Z)
    (context : list draw_op) :
  (size (info self) = 0 -> throbber_mode self = Some false ->
     draw_progress_bar self x y w h context = (Ret tt, context))
  /\ (throbber_mode self = Some true ->
        draw_progress_bar self x y w h context
        = (Ret tt,
           context ++
             [ThrobberDraw (default 0 (attrs self !! "throbber-value") mod 5) x y w;
              SignalEmit "throbber-drawn" (id (info self))])).
Proof.
  unfold draw_progress_bar. split.
  - intros Hsize ->. now rewrite Hsize.
  - intros ->. unfold draw_progress_throbber, bind, draw. cbn.
    now rewrite <- app_assoc.
Qed.

Lemma draw_progress_bar_size_zero_witness :
  draw_progress_bar throbbing_size_zero 3 4 200 22 []
  = (Ret tt, [ThrobberDraw 0 3 4 200; SignalEmit "throbber-drawn" 7])
  /\ draw_progress_bar paused_before_start 3 4 200 22 [] = (Ret tt, []).
Proof.
  split.
  - exact (proj2 (draw_progress_bar_size_zero throbbing_size_zero 3 4 200 22 [])
                 eq_refl).
  - exact (proj1 (draw_progress_bar_size_zero paused_before_start 3 4 200 22 [])
                 eq_refl eq_refl).
Defined.

(** A download of 50 bytes out of 200 in a bar 100 wide: a quarter of the
    bar, split between the left cap and the middle. *)
Example draw_progress_bar_quarter :
  draw_progress_bar
    (snd (calc_download_mode
            (renderer_for (item "downloading"
                             (Some (mkDownloadInfo "downloading" 50 200 10 EmptyString)) 200))))
    0 0 100 22 []
  = (Ret tt, [ImageDraw "progress-left-cap" 0 0 10 22;
              ImageDraw "progress-middle" 10 0 15 22;
              ImageDraw "progress-right-cap" 90 0 0 22]).
Proof. vm_compute. reflexivity. Qed.

(** *** Rating cell *)

(** C5, as stated, fails at x = 10: the shift by half the spacing puts it
    on the second star. *)
Lemma icon_index_at_10 :
  icon_index_at_x new_RatingRenderer 10 = Some 2
  /\ icon_index_at_x new_RatingRenderer 10 <> Some 1.
Proof. split; [reflexivity | discriminate]. Qed.

(** C5 (amended): inside the icon run the index is
    floor((x + spacing/2) / (icon_width + spacing)) + 1, between 1 and 5;
    outside it there is none.  With icon_width 9 and spacing 2: x = 0
    gives 1, x = 10 gives 2, x = 11 gives 2, x = 55 gives none. *)
Theorem icon_index_at_x_formula (self : RatingRenderer) (x : Z) :
  let pad := icon_width self + ICON_HORIZONTAL_SPACING in
  let shifted := x + ICON_HORIZONTAL_SPACING / 2 in
  (0 <= shifted < pad * ICON_COUNT ->
     icon_index_at_x self x = Some (shifted / pad + 1)
     /\ 1 <= shifted / pad + 1 <= ICON_COUNT)
  /\ (~ 0 <= shifted < pad * ICON_COUNT -> icon_index_at_x self x = None)
  /\ icon_index_at_x new_RatingRenderer 0 = Some 1
  /\ icon_index_at_x new_RatingRenderer 10 = Some 2
  /\ icon_index_at_x new_RatingRenderer 11 = Some 2
  /\ icon_index_at_x new_RatingRenderer 55 = None.
Proof.
  cbv zeta. unfold icon_index_at_x, ICON_COUNT, ICON_HORIZONTAL_SPACING.
  change (2 / 2) with 1.
  set (pad := icon_width self + 2). set (s := x + 1).
  repeat split; try reflexivity.
  - destruct H as [H0 H1].
    apply Z.leb_le in H0. apply Z.ltb_lt in H1. now rewrite H0, H1.
  - assert (0 <= s / pad) by (apply Z.div_pos; lia). lia.
  - assert (0 < pad) by lia.
    assert (s / pad < 5) by (apply Z.div_lt_upper_bound; lia). lia.
  - intros Hout.
    destruct (Z.leb_spec 0 s); destruct (Z.ltb_spec s (pad * 5)); cbn;
      try reflexivity. lia.
Qed.

Lemma icon_index_at_x_formula_witness :
  0 <= 23 + 2 / 2 < (9 + 2) * 5
  /\ icon_index_at_x new_RatingRenderer 23 = Some 3.
Proof.
  assert (H : 0 <= 23 + ICON_HORIZONTAL_SPACING / 2
              < (icon_width new_RatingRenderer + ICON_HORIZONTAL_SPACING) * ICON_COUNT)
    by (vm_compute; split; congruence).
  split; [exact H |].
  exact (proj1 (proj1 (icon_index_at_x_formula new_RatingRenderer 23) H)).
Defined.

(** *** Emblems *)

Section emblem_precedence.
Variable gettext : string -> string.
Variable gettext_values : string -> list (string * string) -> string.
Variable is_playing_id : Z -> bool.
Variable config_get : pref -> bool.
Variable short_time_string : Z -> string.

Abbreviation calc :=
  (_calc_emblem_parts gettext gettext_values is_playing_id config_get
                      short_time_string).
Abbreviation by_precedence :=
  (emblem_by_precedence gettext gettext_values is_playing_id config_get
                        short_time_string).
Abbreviation condition := (row_condition is_playing_id config_get).
Abbreviation first_row := (first_matching_row is_playing_id config_get).

(** The row that decides comes first among the rows whose condition
    holds. *)
Lemma first_matching_row_first (self : EmblemDrawer) (row : emblem_row) :
  first_row self = Some row ->
  condition self row = true
  /\ exists before after,
       emblem_rows = before ++ row :: after
       /\ Forall (fun r => condition self r = false) before.
Proof.
  unfold first_matching_row.
  generalize emblem_rows. intros rows.
  induction rows as [|r rows IH]; cbn [List.find].
  - discriminate.
  - destruct (row_condition is_playing_id config_get self r) eqn:Hr.
    + intros [= <-]. split; [exact Hr |]. exists [], rows. now split.
    + intros Hfind. destruct (IH Hfind) as (Hc & before & after & -> & Hall).
      split; [exact Hc |]. exists (r :: before), after. split; [reflexivity |].
      now constructor.
Qed.

(** C1: [_calc_emblem_parts] is the first-match-wins reading of the
    seven rows in table order, so the emblem is that of at most one row;
    an item that is DRM locked and also unplayed gets the DRM emblem. *)
Theorem calc_emblem_parts_first_match (self : EmblemDrawer) :
  calc self = by_precedence self
  /\ emblem_rows = [ DrmLocked; DownloadFailed; PendingAutoDownload;
                     CurrentlyPlaying; Unplayed; ResumeEligible;
                     NewlyAvailable ]
  /\ (first_row self = None ->
        text (calc self) = None /\ image (calc self) = None)
  /\ (forall row, first_row self = Some row ->
        condition self row = true
        /\ emblem (calc self)
           = Some (snd (row_emblem gettext gettext_values short_time_string
                                   self row)))
  /\ (condition self DrmLocked = true ->
      condition self Unplayed = true ->
      text (calc self) = Some (gettext "DRM locked")
      /\ text_color (calc self) = Some DRM_TEXT_COLOR
      /\ text_shadow (calc self) = Some DRM_TEXT_SHADOW
      /\ emblem (calc self) = Some "drm"
      /\ emblem (calc self) <> Some "unplayed").
Proof.
  assert (Heq : calc self = by_precedence self).
  { unfold calc, by_precedence, _calc_emblem_parts, emblem_by_precedence,
      first_matching_row, emblem_rows.
    cbn [List.find row_condition].
    destruct (has_drm (e_info self)); [reflexivity |].
    destruct (download_failed (e_info self)); [reflexivity |].
    destruct (pending_auto_dl (e_info self)); [reflexivity |].
    destruct (downloaded (e_info self) && is_playing_id (id (e_info self)));
      [reflexivity |].
    replace (downloaded (e_info self) && is_playable (e_info self)
             && negb (video_watched (e_info self)))
      with (downloaded (e_info self) && negb (video_watched (e_info self))
            && is_playable (e_info self))
      by (rewrite <- !andb_assoc; f_equal; apply andb_comm).
    destruct (downloaded (e_info self) && negb (video_watched (e_info self))
              && is_playable (e_info self)); [reflexivity |].
    destruct (should_resume_item config_get self); [reflexivity |].
    destruct (negb (item_viewed (e_info self))
              && String.eqb (state (e_info self)) "new"); reflexivity. }
  split; [exact Heq |]. split; [reflexivity |].
  rewrite Heq. unfold by_precedence, emblem_by_precedence. fold first_row.
  split; [| split].
  - intros ->. split; reflexivity.
  - intros row Hrow. rewrite Hrow.
    split; [exact (proj1 (first_matching_row_first self row Hrow)) |].
    destruct row; reflexivity.
  - intros Hdrm _. unfold first_row, first_matching_row, emblem_rows.
    cbn [List.find]. fold condition. rewrite Hdrm. cbn.
    repeat split; discriminate.
Qed.
End emblem_precedence.

Lemma calc_emblem_parts_first_match_witness :
  let calc := _calc_emblem_parts (fun s => s) (fun s _ => s) (fun _ => false)
                                 (fun _ => true) (fun _ => "0:00") in
  text (calc (fresh_drawer drm_unplayed_item)) = Some "DRM locked"
  /\ emblem (calc (fresh_drawer drm_unplayed_item)) = Some "drm".
Proof.
  destruct (calc_emblem_parts_first_match (fun s => s) (fun s _ => s)
              (fun _ => false) (fun _ => true) (fun _ => "0:00")
              (fresh_drawer drm_unplayed_item))
    as (_ & _ & _ & _ & H).
  destruct (H eq_refl eq_refl) as (Ht & _ & _ & He & _).
  split; [exact Ht | exact He].
Defined.

End StyleProofs.

(** ** Widget state store *)

Module StoreProofs.
Import WidgetStateStore Access.

(** *** Get-or-create *)

Lemma get_display_depth_spec (n : nat) (dt : string) (id : pyval) (w : World) :
  (2 <= n)%nat ->
  get_display_depth n dt id w =
    match displays w !! (dt, unicode id) with
    | Some d => (Ret d, w)
    | None => (Ret (new_DisplayInfo (dt, unicode id)), created (dt, unicode id) w)
    end.
Proof.
  destruct n as [|[|n]]; [lia | lia | intros _].
  change (get_display_depth (S (S n)))
    with (get_display_body (get_display_body (get_display_depth n))).
  unfold get_display_body at 1.
  unfold bind, get_displays, put_display, ret, save_display_state_body,
    send_to_backend. cbn.
  destruct (displays w !! (dt, unicode id)) as [d|] eqn:Hlook; cbn.
  - now rewrite Hlook.
  - unfold get_display_body, bind, get_displays, ret.
    repeat (cbn; rewrite ?lookup_insert_eq). reflexivity.
Qed.

Lemma get_view_depth_spec (n : nat) (dt : string) (id : pyval) (vt : Z) (w : World) :
  (2 <= n)%nat ->
  get_view_depth n dt id vt w =
    match views w !! (dt, unicode id, vt) with
    | Some v => (Ret v, w)
    | None => (Ret (new_ViewInfo (dt, unicode id, vt)),
               view_created (dt, unicode id, vt) w)
    end.
Proof.
  destruct n as [|[|n]]; [lia | lia | intros _].
  change (get_view_depth (S (S n)))
    with (get_view_body (get_view_body (get_view_depth n))).
  unfold get_view_body at 1.
  unfold bind, get_views, put_view, ret, save_view_state_body,
    send_to_backend. cbn.
  destruct (views w !! (dt, unicode id, vt)) as [v|] eqn:Hlook; cbn.
  - now rewrite Hlook.
  - unfold get_view_body, bind, get_views, ret.
    repeat (cbn; rewrite ?lookup_insert_eq). reflexivity.
Qed.

(** Any depth from 2 up gives the same functions: the recursion never
    runs out. *)
Lemma get_display_depth_enough (n : nat) (dt : string) (id : pyval) (w : World) :
  (2 <= n)%nat -> get_display_depth n dt id w = _get_display dt id w.
Proof.
  intros Hn. unfold _get_display, recursion_depth.
  rewrite !get_display_depth_spec by lia. reflexivity.
Qed.

Lemma _get_display_spec (dt : string) (id : pyval) (w : World) :
  _get_display dt id w =
    match displays w !! (dt, unicode id) with
    | Some d => (Ret d, w)
    | None => (Ret (new_DisplayInfo (dt, unicode id)), created (dt, unicode id) w)
    end.
Proof. apply get_display_depth_spec. unfold recursion_depth. lia. Qed.

Lemma _get_view_spec (dt : string) (id : pyval) (vt : Z) (w : World) :
  _get_view dt id vt w =
    match views w !! (dt, unicode id, vt) with
    | Some v => (Ret v, w)
    | None => (Ret (new_ViewInfo (dt, unicode id, vt)),
               view_created (dt, unicode id, vt) w)
    end.
Proof. apply get_view_depth_spec. unfold recursion_depth. lia. Qed.

Lemma _get_display_touch (dt : string) (id : pyval) (w : World) :
  _get_display dt id w
  = (Ret (entity (dt, unicode id) w), touch (dt, unicode id) w).
Proof.
  rewrite _get_display_spec. unfold entity, touch.
  now destruct (displays w !! (dt, unicode id)).
Qed.

Lemma _get_view_touch (dt : string) (id : pyval) (vt : Z) (w : World) :
  _get_view dt id vt w
  = (Ret (view_entity (dt, unicode id, vt) w),
     view_touch (dt, unicode id, vt) w).
Proof.
  rewrite _get_view_spec. unfold view_entity, view_touch.
  now destruct (views w !! (dt, unicode id, vt)).
Qed.

Lemma bind_ret {S A B} (m : stateM S A) (k : A -> stateM S B) (s s' : S) (a : A) :
  m s = (Ret a, s') -> bind m k s = k a s'.
Proof. unfold bind. now intros ->. Qed.

Lemma bind_raise {S A B} (m : stateM S A) (k : A -> stateM S B) (s s' : S) (e : exn) :
  m s = (Raise e, s') -> bind m k s = (Raise e, s').
Proof. unfold bind. now intros ->. Qed.

Lemma touch_lookup (key : string * string) (w : World) :
  displays (touch key w) !! key = Some (entity key w).
Proof.
  unfold touch, entity.
  destruct (displays w !! key) eqn:H; cbn; [exact H | apply lookup_insert_eq].
Qed.

Lemma touch_entity (key : string * string) (w : World) :
  entity key (touch key w) = entity key w.
Proof. unfold entity at 1. now rewrite touch_lookup. Qed.

Lemma touch_touch (key : string * string) (w : World) :
  touch key (touch key w) = touch key w.
Proof. unfold touch at 1. now rewrite touch_lookup. Qed.

Lemma touch_heap (key : string * string) (w : World) :
  heap (touch key w) = heap w.
Proof. unfold touch. now destruct (displays w !! key). Qed.

Lemma touch_views (key : string * string) (w : World) :
  views (touch key w) = views w.
Proof. unfold touch. now destruct (displays w !! key). Qed.

Lemma touch_present (key : string * string) (w : World) (d : DisplayInfo) :
  displays w !! key = Some d -> touch key w = w /\ entity key w = d.
Proof. unfold touch, entity. now intros ->. Qed.

Lemma touch_absent (key : string * string) (w : World) :
  displays w !! key = None ->
  touch key w = created key w /\ entity key w = new_DisplayInfo key.
Proof. unfold touch, entity. now intros ->. Qed.

(** *** What each method does, in terms of the entity and the world *)

Ltac fetch :=
  first [ erewrite bind_ret by apply _get_display_touch
        | erewrite bind_ret by apply _get_view_touch ].

Lemma save_display_state_spec (dt : string) (id : pyval) (w : World) :
  _save_display_state dt id w
  = (Ret tt,
     mkWorld (heap (touch (dt, unicode id) w))
             (displays (touch (dt, unicode id) w))
             (views (touch (dt, unicode id) w))
             (backend (touch (dt, unicode id) w)
              ++ [SaveDisplayState (entity (dt, unicode id) w)])).
Proof.
  unfold _save_display_state, save_display_state_body. fetch. reflexivity.
Qed.

Lemma save_view_state_spec (dt : string) (id : pyval) (vt : Z) (w : World) :
  _save_view_state dt id vt w
  = (Ret tt,
     mkWorld (heap (view_touch (dt, unicode id, vt) w))
             (displays (view_touch (dt, unicode id, vt) w))
             (views (view_touch (dt, unicode id, vt) w))
             (backend (view_touch (dt, unicode id, vt) w)
              ++ [SaveViewState (view_entity (dt, unicode id, vt) w)])).
Proof.
  unfold _save_view_state, save_view_state_body. fetch. reflexivity.
Qed.

Lemma put_then_save (dt : string) (id : pyval) (d : DisplayInfo) (w : World) :
  bind (put_display (dt, unicode id) d) (fun _ => _save_display_state dt id)
       (touch (dt, unicode id) w)
  = (Ret tt, updated (dt, unicode id) d w).
Proof.
  unfold updated. rewrite <- (touch_heap (dt, unicode id) w) at 1.
  rewrite <- (touch_views (dt, unicode id) w) at 1.
  generalize (touch (dt, unicode id) w). intros w1.
  erewrite bind_ret by reflexivity. rewrite save_display_state_spec.
  match goal with
  | |- context [touch ?k ?w2] =>
      destruct (touch_present k w2 d (lookup_insert_eq _ _ _)) as [-> ->]
  end.
  reflexivity.
Qed.

Lemma get_columns_enabled_spec (dt : string) (id : pyval) (w : World) :
  get_columns_enabled dt id LIST_VIEW w
  = (match columns_object dt (dt, unicode id) w with
     | Some l => Ret l
     | None => Raise (KeyError dt)
     end, touch (dt, unicode id) w).
Proof.
  unfold get_columns_enabled. change (is_list_view LIST_VIEW) with true. cbv iota.
  fetch. unfold columns_object.
  destruct (list_view_columns (entity (dt, unicode id) w)); [reflexivity |].
  unfold getitem. now destruct (DEFAULT_COLUMNS !! dt).
Qed.

Lemma get_columns_enabled_not_list (dt : string) (id : pyval) (vt : Z) (w : World) :
  vt <> LIST_VIEW -> get_columns_enabled dt id vt w = (Raise ValueError, w).
Proof.
  intros H. unfold get_columns_enabled, is_list_view.
  destruct (Z.eqb_spec vt LIST_VIEW); [contradiction | reflexivity].
Qed.

Lemma set_columns_enabled_spec (dt : string) (id : pyval) (l : loc) (w : World) :
  set_columns_enabled dt id LIST_VIEW l w
  = (Ret tt,
     updated (dt, unicode id)
             (with_list_view_columns (entity (dt, unicode id) w) (Some l)) w).
Proof.
  unfold set_columns_enabled. change (is_list_view LIST_VIEW) with true. cbv iota.
  fetch. apply put_then_save.
Qed.

Lemma columns_object_touch (dt : string) (key : string * string) (w : World) :
  columns_object dt key (touch key w) = columns_object dt key w.
Proof. unfold columns_object. now rewrite touch_entity. Qed.

Lemma toggle_column_spec (dt : string) (id : pyval) (c : string) (w : World) :
  toggle_column dt id LIST_VIEW c w
  = match columns_object dt (dt, unicode id) w with
    | None => (Raise (KeyError dt), touch (dt, unicode id) w)
    | Some l =>
        (Ret tt,
         toggled_world (dt, unicode id) l c w)
    end.
Proof.
  unfold toggle_column. change (is_list_view LIST_VIEW) with true. cbv iota.
  fetch. unfold bind at 1. rewrite get_columns_enabled_spec.
  rewrite columns_object_touch, touch_touch.
  destruct (columns_object dt (dt, unicode id) w) as [l|]; [| reflexivity].
  erewrite bind_ret by reflexivity.
  replace (if bool_decide (c ∈ default [] (heap (touch (dt, unicode id) w) !! l))
           then write_list l (list_remove c (default [] (heap (touch (dt, unicode id) w) !! l)))
           else write_list l (default [] (heap (touch (dt, unicode id) w) !! l) ++ [c]))
    with (write_list l (toggled c (columns_of l w))).
  2:{ unfold toggled, columns_of. rewrite touch_heap.
      now destruct (bool_decide (c ∈ default [] (heap w !! l))). }
  erewrite bind_ret by reflexivity.
  rewrite set_columns_enabled_spec.
  unfold toggled_world, updated.
  match goal with
  | |- context [touch ?k (mkWorld ?h ?d ?v ?b)] =>
      destruct (touch_present k (mkWorld h d v b) (entity k w)
                  (touch_lookup k w)) as [-> ->]
  end.
  cbn. now rewrite touch_heap, touch_views.
Qed.

Lemma view_touch_lookup (key : string * string * Z) (w : World) :
  views (view_touch key w) !! key = Some (view_entity key w).
Proof.
  unfold view_touch, view_entity.
  destruct (views w !! key) eqn:H; cbn; [exact H | apply lookup_insert_eq].
Qed.

Lemma view_touch_present (key : string * string * Z) (w : World) (v : ViewInfo) :
  views w !! key = Some v -> view_touch key w = w /\ view_entity key w = v.
Proof. unfold view_touch, view_entity. now intros ->. Qed.

Lemma view_touch_heap (key : string * string * Z) (w : World) :
  heap (view_touch key w) = heap w.
Proof. unfold view_touch. now destruct (views w !! key). Qed.

Lemma view_touch_displays (key : string * string * Z) (w : World) :
  displays (view_touch key w) = displays w.
Proof. unfold view_touch. now destruct (views w !! key). Qed.

Lemma put_then_save_view (dt : string) (id : pyval) (vt : Z) (v : ViewInfo)
    (w : World) :
  bind (put_view (dt, unicode id, vt) v) (fun _ => _save_view_state dt id vt)
       (view_touch (dt, unicode id, vt) w)
  = (Ret tt, view_updated (dt, unicode id, vt) v w).
Proof.
  unfold view_updated. rewrite <- (view_touch_heap (dt, unicode id, vt) w) at 1.
  rewrite <- (view_touch_displays (dt, unicode id, vt) w) at 1.
  generalize (view_touch (dt, unicode id, vt) w). intros w1.
  erewrite bind_ret by reflexivity. rewrite save_view_state_spec.
  match goal with
  | |- context [view_touch ?k ?w2] =>
      destruct (view_touch_present k w2 v (lookup_insert_eq _ _ _)) as [-> ->]
  end.
  reflexivity.
Qed.

Lemma get_selected_view_spec (dt : string) (id : pyval) (w : World) :
  get_selected_view dt id w
  = (match selected_view (entity (dt, unicode id) w) with
     | Some view => Ret view
     | None => match DEFAULT_VIEW_TYPE !! dt with
               | Some view => Ret view
               | None => Raise (KeyError dt)
               end
     end, touch (dt, unicode id) w).
Proof.
  unfold get_selected_view. fetch.
  destruct (selected_view (entity (dt, unicode id) w)); [reflexivity |].
  unfold getitem. now destruct (DEFAULT_VIEW_TYPE !! dt).
Qed.

Lemma set_selected_view_spec (dt : string) (id : pyval) (view : Z) (w : World) :
  set_selected_view dt id view w
  = (Ret tt,
     updated (dt, unicode id)
             (with_selected_view (entity (dt, unicode id) w) (Some view)) w).
Proof. unfold set_selected_view. fetch. apply put_then_save. Qed.

Lemma get_filters_spec (dt : string) (id : pyval) (w : World) :
  get_filters dt id w
  = (Ret (default DEFAULT_DISPLAY_FILTERS
                  (active_filters (entity (dt, unicode id) w))),
     touch (dt, unicode id) w).
Proof.
  unfold get_filters. fetch.
  now destruct (active_filters (entity (dt, unicode id) w)).
Qed.

Lemma toggle_filters_spec (dt : string) (id : pyval) (f : Z) (w : World) :
  toggle_filters dt id f w
  = (Ret tt,
     updated (dt, unicode id)
       (with_active_filters (entity (dt, unicode id) w)
          (Some (toggle_filter
                   (default DEFAULT_DISPLAY_FILTERS
                            (active_filters (entity (dt, unicode id) w))) f)))
       w).
Proof.
  unfold toggle_filters. erewrite bind_ret by apply get_filters_spec.
  fetch. rewrite touch_entity, touch_touch. apply put_then_save.
Qed.

Lemma fill_default_widths_world (names : list string) (acc : gmap string Z)
    (w : World) :
  snd (fill_default_widths names acc w) = w.
Proof.
  revert acc. induction names as [|name rest IH]; intros acc.
  - reflexivity.
  - change (fill_default_widths (name :: rest) acc)
      with (bind (getitem DEFAULT_COLUMN_WIDTHS name)
                 (fun width => fill_default_widths rest (<[name := width]> acc))
            : M (gmap string Z)).
    unfold bind, getitem.
    destruct (DEFAULT_COLUMN_WIDTHS !! name); [apply IH | reflexivity].
Qed.

Lemma get_column_widths_world (dt : string) (id : pyval) (w : World) :
  snd (get_column_widths dt id LIST_VIEW w) = touch (dt, unicode id) w.
Proof.
  unfold get_column_widths. change (is_list_view LIST_VIEW) with true. cbv iota.
  fetch. destruct (list_view_widths (entity (dt, unicode id) w)); [reflexivity |].
  unfold bind at 1. rewrite get_columns_enabled_spec, touch_touch.
  destruct (columns_object dt (dt, unicode id) (touch (dt, unicode id) w));
    [| reflexivity].
  erewrite bind_ret by reflexivity. apply fill_default_widths_world.
Qed.

Lemma set_sort_state_spec (dt : string) (id : pyval) (vt : Z) (k : string)
    (w : World) :
  set_sort_state dt id vt k w
  = (Ret tt,
     view_updated (dt, unicode id, vt)
       (with_sort_state (view_entity (dt, unicode id, vt) w) (Some k)) w).
Proof. unfold set_sort_state. fetch. apply put_then_save_view. Qed.

Lemma set_scroll_position_spec (dt : string) (id : pyval) (vt : Z) (p : Z * Z)
    (w : World) :
  set_scroll_position dt id vt p w
  = (Ret tt,
     view_updated (dt, unicode id, vt)
       (with_scroll_position (view_entity (dt, unicode id, vt) w) (Some p)) w).
Proof. unfold set_scroll_position. fetch. apply put_then_save_view. Qed.

Lemma get_scroll_position_spec (dt : string) (id : pyval) (vt : Z) (w : World) :
  get_scroll_position dt id vt w
  = (Ret (default (0, 0) (scroll_position (view_entity (dt, unicode id, vt) w))),
     view_touch (dt, unicode id, vt) w).
Proof.
  unfold get_scroll_position. fetch.
  now destruct (scroll_position (view_entity (dt, unicode id, vt) w)).
Qed.

(** The sort key [get_sort_state] starts from. *)
Lemma get_sort_state_spec (dt : string) (id : pyval) (vt : Z) (w : World) :
  let vkey := (dt, unicode id, vt) in
  let key := (dt, unicode id) in
  get_sort_state dt id vt w
  = match (match sort_state (view_entity vkey w) with
           | Some k => Some k
           | None => DEFAULT_SORT_COLUMN !! dt
           end) with
    | None => (Raise (KeyError dt), view_touch vkey w)
    | Some k =>
        if is_standard_view vt then (Ret k, view_touch vkey w)
        else if is_list_view vt then
          match columns_object dt key w with
          | None => (Raise (KeyError dt), touch key (view_touch vkey w))
          | Some l =>
              (if bool_decide (lstrip_dash k ∈ columns_of l w) then Ret k
               else match DEFAULT_SORT_COLUMN !! dt with
                    | Some dflt => Ret dflt
                    | None => Raise (KeyError dt)
                    end,
               touch key (view_touch vkey w))
          end
        else (Raise ValueError, view_touch vkey w)
    end.
Proof.
  cbv zeta. unfold get_sort_state. fetch.
  assert (Hobj : columns_object dt (dt, unicode id)
                   (view_touch (dt, unicode id, vt) w)
                 = columns_object dt (dt, unicode id) w).
  { unfold columns_object, entity. now rewrite view_touch_displays. }
  destruct (sort_state (view_entity (dt, unicode id, vt) w)) as [k|].
  - erewrite bind_ret by reflexivity.
    destruct (is_standard_view vt); [reflexivity |].
    destruct (is_list_view vt) eqn:Hlist.
    + apply Z.eqb_eq in Hlist. subst vt.
      unfold bind at 1. rewrite get_columns_enabled_spec, Hobj.
      destruct (columns_object dt (dt, unicode id) w) as [l|]; [| reflexivity].
      erewrite bind_ret by reflexivity.
      unfold columns_of. rewrite touch_heap, view_touch_heap.
      destruct (bool_decide _); [reflexivity |].
      unfold getitem. now destruct (DEFAULT_SORT_COLUMN !! dt).
    + apply Z.eqb_neq in Hlist. unfold bind.
      now rewrite get_columns_enabled_not_list.
  - unfold getitem at 1. destruct (DEFAULT_SORT_COLUMN !! dt) as [k|] eqn:Hd.
    + erewrite bind_ret by reflexivity.
      destruct (is_standard_view vt); [reflexivity |].
      destruct (is_list_view vt) eqn:Hlist.
      * apply Z.eqb_eq in Hlist. subst vt.
        unfold bind at 1. rewrite get_columns_enabled_spec, Hobj.
        destruct (columns_object dt (dt, unicode id) w) as [l|]; [| reflexivity].
        erewrite bind_ret by reflexivity.
        unfold columns_of. rewrite touch_heap, view_touch_heap.
        destruct (bool_decide _); [reflexivity |].
        unfold getitem. now rewrite Hd.
      * apply Z.eqb_neq in Hlist. unfold bind.
        now rewrite get_columns_enabled_not_list.
    + reflexivity.
Qed.

(** *** The fixed tables *)

Lemma dom_DEFAULT_VIEW_TYPE :
  dom DEFAULT_VIEW_TYPE = (list_to_set display_types : gset string).
Proof. vm_compute. reflexivity. Qed.

Lemma dom_DEFAULT_SORT_COLUMN :
  dom DEFAULT_SORT_COLUMN = (list_to_set display_types : gset string).
Proof. vm_compute. reflexivity. Qed.

Lemma dom_DEFAULT_COLUMNS :
  dom DEFAULT_COLUMNS = (list_to_set display_types : gset string).
Proof. vm_compute. reflexivity. Qed.

Lemma dom_AVAILABLE_COLUMNS :
  dom AVAILABLE_COLUMNS = (list_to_set display_types : gset string).
Proof. vm_compute. reflexivity. Qed.

Lemma table_unknown {V} (table : gmap string V) (dt : string) :
  dom table = (list_to_set display_types : gset string) ->
  dt ∉ display_types -> table !! dt = None.
Proof.
  intros Hdom Hdt. apply not_elem_of_dom. rewrite Hdom.
  now rewrite elem_of_list_to_set.
Qed.

Lemma table_known {V} (table : gmap string V) (dt : string) :
  dom table = (list_to_set display_types : gset string) ->
  dt ∈ display_types <-> is_Some (table !! dt).
Proof.
  intros Hdom. rewrite <- elem_of_dom, Hdom. now rewrite elem_of_list_to_set.
Qed.

(** *** Lazy creation *)

Lemma bind_get_display_touch {B} (dt : string) (id : pyval)
    (k : DisplayInfo -> M B) (w : World) :
  bind (_get_display dt id) k (touch (dt, unicode id) w)
  = bind (_get_display dt id) k w.
Proof.
  unfold bind. now rewrite !_get_display_touch, touch_entity, touch_touch.
Qed.

(** A method run on the world in which the display already exists does
    what it does on the world in which it has to create it first. *)
Lemma run_access_touch (a : display_access) (dt : string) (id : pyval)
    (w : World) :
  run_access a dt id (touch (dt, unicode id) w) = run_access a dt id w.
Proof.
  destruct a; cbn [run_access];
    unfold discard, get_selected_view, set_selected_view, get_filters,
      toggle_filters, get_columns_enabled, set_columns_enabled, toggle_column,
      get_column_widths, update_column_widths;
    change (is_list_view LIST_VIEW) with true; cbv iota;
    unfold bind;
    first [ rewrite !_get_display_touch
          | rewrite !get_filters_spec ];
    rewrite ?touch_entity, ?touch_touch; reflexivity.
Qed.

Lemma discard_world {A} (m : M A) (w : World) : snd (discard m w) = snd (m w).
Proof. unfold discard, bind, ret. now destruct (m w) as [[a|e] w']. Qed.

Lemma update_column_widths_shape (dt : string) (id : pyval)
    (ws : gmap string Z) (w : World) :
  let key := (dt, unicode id) in
  snd (update_column_widths dt id LIST_VIEW ws w) = touch key w
  \/ exists d',
       snd (update_column_widths dt id LIST_VIEW ws w)
       = mkWorld (heap w) (<[key := d']> (displays (touch key w))) (views w)
                 (backend (touch key w) ++ [SaveDisplayState d']).
Proof.
  cbv zeta. unfold update_column_widths.
  change (is_list_view LIST_VIEW) with true. cbv iota. fetch.
  destruct (list_view_widths (entity (dt, unicode id) w)) as [cw|] eqn:Hcw.
  - right. erewrite bind_ret by reflexivity. rewrite put_then_save.
    eexists. reflexivity.
  - pose proof (get_column_widths_world dt id (touch (dt, unicode id) w)) as Hw.
    rewrite touch_touch in Hw.
    destruct (get_column_widths dt id LIST_VIEW (touch (dt, unicode id) w))
      as [[cw|e] w2] eqn:Hget; cbn in Hw; subst w2.
    + right.
      erewrite (bind_ret (bind _ _)).
      2:{ erewrite bind_ret by exact Hget. erewrite bind_ret by reflexivity.
          reflexivity. }
      erewrite bind_ret by reflexivity. rewrite save_display_state_spec.
      match goal with
      | |- context [touch ?k ?w2] =>
          destruct (touch_present k w2 _ (lookup_insert_eq _ _ _)) as [-> ->]
      end.
      cbn. rewrite insert_insert_eq, touch_heap, touch_views.
      eexists. reflexivity.
    + left. erewrite (bind_raise (bind _ _)); [reflexivity |].
      erewrite bind_raise by exact Hget. reflexivity.
Qed.

(** Every method leaves the world either as [_get_display] left it, or
    with the display under [key] assigned and one save sent after that;
    the getters do the former. *)
Lemma access_shape (a : display_access) (dt : string) (id : pyval) (w : World) :
  let key := (dt, unicode id) in
  (is_getter a = true -> snd (run_access a dt id w) = touch key w)
  /\ (snd (run_access a dt id w) = touch key w
      \/ exists h d',
           snd (run_access a dt id w)
           = mkWorld h (<[key := d']> (displays (touch key w))) (views w)
                     (backend (touch key w) ++ [SaveDisplayState d'])).
Proof.
  cbv zeta. destruct a; cbn [run_access is_getter]; rewrite ?discard_world.
  - rewrite get_selected_view_spec. split; [reflexivity | now left].
  - rewrite set_selected_view_spec. split; [discriminate | right].
    eexists _, _. reflexivity.
  - rewrite get_filters_spec. split; [reflexivity | now left].
  - rewrite toggle_filters_spec. split; [discriminate | right].
    eexists _, _. reflexivity.
  - rewrite get_columns_enabled_spec. split; [reflexivity | now left].
  - rewrite set_columns_enabled_spec. split; [discriminate | right].
    eexists _, _. reflexivity.
  - rewrite toggle_column_spec. split; [discriminate |].
    destruct (columns_object dt (dt, unicode id) w); [right | now left].
    eexists _, _. reflexivity.
  - rewrite get_column_widths_world. split; [reflexivity | now left].
  - split; [discriminate |].
    destruct (update_column_widths_shape dt id widths w) as [H | [d' H]];
      [now left | right]. eexists _, _. exact H.
Qed.

Lemma update_column_widths_outcome (dt : string) (id : pyval)
    (ws : gmap string Z) (w : World) :
  let key := (dt, unicode id) in
  (exists e,
     update_column_widths dt id LIST_VIEW ws w = (Raise e, touch key w))
  \/ exists d',
       update_column_widths dt id LIST_VIEW ws w
       = (Ret tt,
          mkWorld (heap w) (<[key := d']> (displays (touch key w))) (views w)
                  (backend (touch key w) ++ [SaveDisplayState d'])).
Proof.
  cbv zeta. unfold update_column_widths.
  change (is_list_view LIST_VIEW) with true. cbv iota. fetch.
  destruct (list_view_widths (entity (dt, unicode id) w)) as [cw|] eqn:Hcw.
  - right. erewrite bind_ret by reflexivity. rewrite put_then_save.
    eexists. reflexivity.
  - pose proof (get_column_widths_world dt id (touch (dt, unicode id) w)) as Hw.
    rewrite touch_touch in Hw.
    destruct (get_column_widths dt id LIST_VIEW (touch (dt, unicode id) w))
      as [[cw|e] w2] eqn:Hget; cbn in Hw; subst w2.
    + right.
      erewrite (bind_ret (bind _ _)).
      2:{ erewrite bind_ret by exact Hget. erewrite bind_ret by reflexivity.
          reflexivity. }
      erewrite bind_ret by reflexivity. rewrite save_display_state_spec.
      match goal with
      | |- context [touch ?k ?w2] =>
          destruct (touch_present k w2 _ (lookup_insert_eq _ _ _)) as [-> ->]
      end.
      cbn. rewrite insert_insert_eq, touch_heap, touch_views.
      eexists. reflexivity.
    + left. exists e. erewrite (bind_raise (bind _ _)); [reflexivity |].
      erewrite bind_raise by exact Hget. reflexivity.
Qed.

(** A setter either returns, having assigned the display under [key] and
    sent one save of it after whatever [_get_display] did, or raises and
    leaves the world as [_get_display] left it. *)
Lemma setter_outcome (a : display_access) (dt : string) (id : pyval) (w : World) :
  let key := (dt, unicode id) in
  is_getter a = false ->
  (exists h d',
     run_access a dt id w
     = (Ret tt,
        mkWorld h (<[key := d']> (displays (touch key w))) (views w)
                (backend (touch key w) ++ [SaveDisplayState d'])))
  \/ (exists e, run_access a dt id w = (Raise e, touch key w)).
Proof.
  cbv zeta. destruct a; cbn [run_access is_getter]; try discriminate; intros _.
  - rewrite set_selected_view_spec. left. eexists _, _. reflexivity.
  - rewrite toggle_filters_spec. left. eexists _, _. reflexivity.
  - rewrite set_columns_enabled_spec. left. eexists _, _. reflexivity.
  - rewrite toggle_column_spec.
    destruct (columns_object dt (dt, unicode id) w); [left | right].
    + eexists _, _. reflexivity.
    + eexists. reflexivity.
  - destruct (update_column_widths_outcome dt id widths w) as [[e H] | [d' H]];
      [right | left].
    + exists e. exact H.
    + eexists _, _. exact H.
Qed.

(** C8, as stated, fails for the setters: the first [set_selected_view]
    for a display sends two saves before it returns, the one of the new
    default display and the one of the display with the view assigned. *)
Lemma first_setter_access_saves_twice :
  displays init !! ("videos", "3") = None
  /\ fst (set_selected_view "videos" (PyInt 3) STANDARD_VIEW init) = Ret tt
  /\ backend (snd (set_selected_view "videos" (PyInt 3) STANDARD_VIEW init))
     = [ SaveDisplayState (new_DisplayInfo ("videos", "3"));
         SaveDisplayState (with_selected_view (new_DisplayInfo ("videos", "3"))
                                              (Some STANDARD_VIEW)) ]
  /\ length (backend (snd (set_selected_view "videos" (PyInt 3) STANDARD_VIEW init)))
     <> 1%nat.
Proof.
  rewrite set_selected_view_spec.
  split; [reflexivity |]. split; [reflexivity |].
  split; [reflexivity | discriminate].
Qed.

(** C8 (amended): for a key that is not in the store, [_get_display]
    stores the default entity, sends exactly one save command for it and
    returns it.  A getter's first access leaves exactly that behind.  A
    setter's first access that returns sends exactly two saves, the
    creation save followed by the save of the display it assigned, which
    is the one the store then holds; a setter that raises leaves only the
    creation behind.  For a key that is in the store nothing is created and
    no creation save is sent: a getter leaves the world as it is, a setter
    that returns sends exactly its own save, and a setter that raises
    sends none. *)
Theorem first_access_creation_save (dt : string) (id : pyval) (w : World) :
  let key := (dt, unicode id) in
  (displays w !! key = None ->
     _get_display dt id w = (Ret (new_DisplayInfo key), created key w)
     /\ displays (created key w) !! key = Some (new_DisplayInfo key)
     /\ backend (created key w)
        = backend w ++ [SaveDisplayState (new_DisplayInfo key)]
     /\ forall a : display_access,
          run_access a dt id w = run_access a dt id (created key w)
          /\ (is_getter a = true -> snd (run_access a dt id w) = created key w)
          /\ (is_getter a = false ->
              (fst (run_access a dt id w) = Ret tt
               /\ exists d',
                    displays (snd (run_access a dt id w)) !! key = Some d'
                    /\ backend (snd (run_access a dt id w))
                       = backend w ++ [SaveDisplayState (new_DisplayInfo key);
                                       SaveDisplayState d'])
              \/ (exists e,
                    fst (run_access a dt id w) = Raise e
                    /\ snd (run_access a dt id w) = created key w)))
  /\ (forall d, displays w !! key = Some d ->
        _get_display dt id w = (Ret d, w)
        /\ forall a : display_access,
             dom (displays (snd (run_access a dt id w))) = dom (displays w)
             /\ (is_getter a = true -> snd (run_access a dt id w) = w)
             /\ (is_getter a = false ->
                 (fst (run_access a dt id w) = Ret tt
                  /\ exists d',
                       displays (snd (run_access a dt id w)) !! key = Some d'
                       /\ backend (snd (run_access a dt id w))
                          = backend w ++ [SaveDisplayState d'])
                 \/ (exists e,
                       fst (run_access a dt id w) = Raise e
                       /\ snd (run_access a dt id w) = w))).
Proof.
  cbv zeta. split.
  - intros Habsent. destruct (touch_absent _ _ Habsent) as [Htouch Hentity].
    rewrite _get_display_touch, Htouch, Hentity.
    split; [reflexivity |]. split; [apply lookup_insert_eq |].
    split; [reflexivity |]. intros a.
    split; [now rewrite <- Htouch, run_access_touch |].
    destruct (access_shape a dt id w) as [Hget _]. rewrite Htouch in Hget.
    split; [exact Hget |]. intros Hset.
    destruct (setter_outcome a dt id w Hset) as [(h & d' & Hrun) | (e & Hrun)];
      rewrite Hrun, Htouch; cbn [fst snd].
    + left. split; [reflexivity |]. exists d'. cbn.
      split; [apply lookup_insert_eq | now rewrite <- app_assoc].
    + right. exists e. split; reflexivity.
  - intros d Hpresent. destruct (touch_present _ _ _ Hpresent) as [Htouch Hentity].
    rewrite _get_display_touch, Htouch, Hentity.
    split; [reflexivity |]. intros a.
    destruct (access_shape a dt id w) as [Hget Hshape]. rewrite Htouch in *.
    split; [| split; [exact Hget |]].
    + destruct Hshape as [Hw | (h & d' & Hw)]; rewrite Hw; [reflexivity |].
      cbn. apply dom_insert_lookup_L. now rewrite Hpresent.
    + intros Hset.
      destruct (setter_outcome a dt id w Hset) as [(h & d' & Hrun) | (e & Hrun)];
        rewrite Hrun, Htouch; cbn [fst snd].
      * left. split; [reflexivity |]. exists d'. cbn.
        split; [apply lookup_insert_eq | reflexivity].
      * right. exists e. split; reflexivity.
Qed.

Lemma first_access_creation_save_witness :
  backend (snd (get_filters "videos" (PyInt 3) init))
  = [SaveDisplayState (new_DisplayInfo ("videos", "3"))]
  /\ snd (_get_display "videos" (PyInt 3)
            (snd (get_filters "videos" (PyInt 3) init)))
     = snd (get_filters "videos" (PyInt 3) init)
  /\ exists d',
       backend (snd (toggle_filters "videos" (PyInt 3) FILTER_UNWATCHED init))
       = [SaveDisplayState (new_DisplayInfo ("videos", "3")); SaveDisplayState d'].
Proof.
  destruct (first_access_creation_save "videos" (PyInt 3) init)
    as [Hfirst _].
  destruct (Hfirst eq_refl) as (_ & _ & _ & Hacc).
  destruct (Hacc GetFilters) as (_ & Hgetter & _).
  pose proof (Hgetter eq_refl) as Hworld.
  cbn [run_access] in Hworld. rewrite discard_world in Hworld.
  rewrite Hworld.
  destruct (first_access_creation_save "videos" (PyInt 3)
              (created ("videos", "3") init)) as [_ Hagain].
  destruct (Hagain (new_DisplayInfo ("videos", "3")) (lookup_insert_eq _ _ _))
    as [Hsame _].
  split; [reflexivity |].
  split; [exact (f_equal snd Hsame) |].
  destruct (Hacc (ToggleFilters FILTER_UNWATCHED)) as (_ & _ & Hsetter).
  destruct (Hsetter eq_refl) as [(_ & d' & _ & Hsent) | (e & Hraise & _)].
  - exists d'. exact Hsent.
  - cbn [run_access] in Hraise. rewrite toggle_filters_spec in Hraise.
    discriminate Hraise.
Defined.

(** *** Shared default columns *)

Lemma touch_lookup_ne (key key' : string * string) (w : World) :
  key <> key' -> displays (touch key w) !! key' = displays w !! key'.
Proof.
  intros Hne. unfold touch. destruct (displays w !! key); [reflexivity |].
  cbn. now rewrite lookup_insert_ne.
Qed.

Lemma toggled_world_columns_object (dt dt' : string) (key key' : string * string)
    (l : loc) (c : string) (w : World) :
  DEFAULT_COLUMNS !! dt' = Some l ->
  list_view_columns (entity key' w) = None ->
  columns_object dt' key' (toggled_world key l c w) = Some l.
Proof.
  intros Hdefault Hunset. unfold columns_object, entity, toggled_world. cbn.
  destruct (decide (key = key')) as [<- | Hne].
  - now rewrite lookup_insert_eq.
  - rewrite lookup_insert_ne by exact Hne. rewrite touch_lookup_ne by exact Hne.
    unfold entity in Hunset. now rewrite Hunset.
Qed.

(** C10: for a display whose columns were never stored,
    [get_columns_enabled] hands out the list object of [DEFAULT_COLUMNS]
    itself; [toggle_column] on that display changes the contents of that
    object, and every display whose columns were never stored and whose
    display type has that object as its default (the same display type
    among them) gets the toggled columns from [get_columns_enabled]
    afterwards. *)
Theorem toggle_column_mutates_shared_default (dt : string) (id : pyval)
    (c : string) (l : loc) (w : World) :
  list_view_columns (entity (dt, unicode id) w) = None ->
  DEFAULT_COLUMNS !! dt = Some l ->
  let w' := snd (toggle_column dt id LIST_VIEW c w) in
  fst (get_columns_enabled dt id LIST_VIEW w) = Ret l
  /\ fst (toggle_column dt id LIST_VIEW c w) = Ret tt
  /\ columns_of l w' = toggled c (columns_of l w)
  /\ forall (dt' : string) (id' : pyval),
       DEFAULT_COLUMNS !! dt' = Some l ->
       list_view_columns (entity (dt', unicode id') w) = None ->
       fst (get_columns_enabled dt' id' LIST_VIEW w') = Ret l
       /\ columns_of l (snd (get_columns_enabled dt' id' LIST_VIEW w'))
          = toggled c (columns_of l w).
Proof.
  intros Hunset Hdefault. cbv zeta.
  assert (Hobj : columns_object dt (dt, unicode id) w = Some l).
  { unfold columns_object. now rewrite Hunset. }
  rewrite toggle_column_spec, get_columns_enabled_spec, Hobj. cbn [fst snd].
  assert (Hcols : columns_of l (toggled_world (dt, unicode id) l c w)
                  = toggled c (columns_of l w)).
  { unfold columns_of at 1, toggled_world. cbn. now rewrite lookup_insert_eq. }
  split; [reflexivity |]. split; [reflexivity |]. split; [exact Hcols |].
  intros dt' id' Hdefault' Hunset'. rewrite get_columns_enabled_spec.
  rewrite (toggled_world_columns_object dt dt') by assumption. cbn [fst snd].
  split; [reflexivity |].
  unfold columns_of at 1. rewrite touch_heap. exact Hcols.
Qed.

Lemma toggle_column_mutates_shared_default_witness :
  let w' := snd (toggle_column "videos" (PyInt 1) LIST_VIEW "rating" init) in
  fst (get_columns_enabled "sharing" (PyInt 2) LIST_VIEW w') = Ret videos_columns
  /\ columns_of videos_columns
       (snd (get_columns_enabled "sharing" (PyInt 2) LIST_VIEW w'))
     = ["state"; "name"; "length"; "feed-name"; "size"; "rating"].
Proof.
  cbv zeta.
  destruct (toggle_column_mutates_shared_default
              "videos" (PyInt 1) "rating" videos_columns init eq_refl eq_refl)
    as (_ & _ & _ & Hothers).
  destruct (Hothers "sharing" (PyInt 2) eq_refl eq_refl) as [Hobj Hcols].
  split; [exact Hobj |].
  rewrite Hcols. vm_compute. reflexivity.
Defined.

(** *** Sort state *)

Lemma set_sort_state_stored (dt : string) (id : pyval) (vt : Z) (k : string)
    (w : World) :
  let w1 := snd (set_sort_state dt id vt k w) in
  sort_state (view_entity (dt, unicode id, vt) w1) = Some k
  /\ heap w1 = heap w /\ displays w1 = displays w.
Proof.
  cbv zeta. rewrite set_sort_state_spec. cbn [snd].
  unfold view_entity, view_updated. cbn. now rewrite lookup_insert_eq.
Qed.

Lemma columns_object_known (dt : string) (key : string * string) (w : World) :
  dt ∈ display_types -> is_Some (columns_object dt key w).
Proof.
  intros Hdt. unfold columns_object.
  destruct (list_view_columns (entity key w)); [eauto |].
  now apply (table_known _ _ dom_DEFAULT_COLUMNS).
Qed.

(** What [get_sort_state] returns once a sort key [k] is stored. *)
Lemma get_sort_state_stored (dt : string) (id : pyval) (vt : Z) (k dflt : string)
    (w : World) :
  DEFAULT_SORT_COLUMN !! dt = Some dflt ->
  sort_state (view_entity (dt, unicode id, vt) w) = Some k ->
  (vt = STANDARD_VIEW -> fst (get_sort_state dt id vt w) = Ret k)
  /\ (vt = LIST_VIEW ->
      exists l,
        fst (get_columns_enabled dt id vt w) = Ret l
        /\ (lstrip_dash k ∈ columns_of l w ->
            fst (get_sort_state dt id vt w) = Ret k)
        /\ (lstrip_dash k ∉ columns_of l w ->
            fst (get_sort_state dt id vt w) = Ret dflt)).
Proof.
  intros Hdflt Hk. pose proof (get_sort_state_spec dt id vt w) as Hspec.
  cbv zeta in Hspec. rewrite Hk in Hspec. split.
  - intros ->. now rewrite Hspec.
  - intros ->. change (is_standard_view LIST_VIEW) with false in Hspec.
    change (is_list_view LIST_VIEW) with true in Hspec. cbv iota in Hspec.
    assert (Hknown : dt ∈ display_types).
    { apply (table_known _ _ dom_DEFAULT_SORT_COLUMN). now rewrite Hdflt. }
    destruct (columns_object_known dt (dt, unicode id) w Hknown) as [l Hl].
    rewrite Hl, Hdflt in Hspec. exists l.
    rewrite get_columns_enabled_spec, Hl, Hspec. cbn [fst].
    split; [reflexivity |]. split; intros Hin.
    + now rewrite bool_decide_eq_true_2.
    + now rewrite bool_decide_eq_false_2.
Qed.

(** C6: for a display type of the fixed tables and either view type, a
    view whose sort state was never set gets the display type's default
    sort column ('name' for 'videos'); once a key is set (say 'artist'),
    the standard view gets that key back, and the list view gets it back
    when the key without its leading dashes is among the enabled columns
    and the default sort column otherwise. *)
Theorem get_sort_state_default_fallback (dt : string) (id : pyval) (vt : Z)
    (dflt : string) (w : World) :
  DEFAULT_SORT_COLUMN !! dt = Some dflt ->
  vt = LIST_VIEW \/ vt = STANDARD_VIEW ->
  DEFAULT_SORT_COLUMN !! "videos" = Some "name"
  /\ (sort_state (view_entity (dt, unicode id, vt) w) = None ->
      fst (get_sort_state dt id vt w) = Ret dflt)
  /\ (forall k : string,
        let w1 := snd (set_sort_state dt id vt k w) in
        (vt = STANDARD_VIEW -> fst (get_sort_state dt id vt w1) = Ret k)
        /\ (vt = LIST_VIEW ->
            exists l,
              fst (get_columns_enabled dt id vt w1) = Ret l
              /\ (lstrip_dash k ∈ columns_of l w1 ->
                  fst (get_sort_state dt id vt w1) = Ret k)
              /\ (lstrip_dash k ∉ columns_of l w1 ->
                  fst (get_sort_state dt id vt w1) = Ret dflt)))
  /\ (forall k : string,
        sort_state (view_entity (dt, unicode id, vt) w) = Some k ->
        vt = LIST_VIEW ->
        exists l,
          fst (get_columns_enabled dt id vt w) = Ret l
          /\ (lstrip_dash k ∉ columns_of l w ->
              fst (get_sort_state dt id vt w) = Ret dflt)).
Proof.
  intros Hdflt Hvt. split; [reflexivity |]. split; [| split].
  - intros Hunset. pose proof (get_sort_state_spec dt id vt w) as Hspec.
    cbv zeta in Hspec. rewrite Hunset, Hdflt in Hspec. rewrite Hspec.
    destruct Hvt as [-> | ->]; [| reflexivity].
    change (is_standard_view LIST_VIEW) with false.
    change (is_list_view LIST_VIEW) with true. cbv iota.
    assert (Hknown : dt ∈ display_types).
    { apply (table_known _ _ dom_DEFAULT_SORT_COLUMN). now rewrite Hdflt. }
    destruct (columns_object_known dt (dt, unicode id) w Hknown) as [l ->].
    cbn [fst]. now destruct (bool_decide _).
  - intros k. cbv zeta.
    destruct (set_sort_state_stored dt id vt k w) as (Hk & _ & _).
    exact (get_sort_state_stored dt id vt k dflt _ Hdflt Hk).
  - intros k Hk Hlist.
    destruct (proj2 (get_sort_state_stored dt id vt k dflt w Hdflt Hk) Hlist)
      as (l & Hl & _ & Hout).
    exists l. now split.
Qed.

Lemma get_sort_state_default_fallback_witness :
  fst (get_sort_state "videos" (PyInt 1) STANDARD_VIEW init) = Ret "name"
  /\ fst (get_sort_state "videos" (PyInt 1) STANDARD_VIEW
            (snd (set_sort_state "videos" (PyInt 1) STANDARD_VIEW "artist" init)))
     = Ret "artist".
Proof.
  destruct (get_sort_state_default_fallback
              "videos" (PyInt 1) STANDARD_VIEW "name" init eq_refl
              (or_intror eq_refl))
    as (_ & Hunset & Hset & _).
  split; [exact (Hunset eq_refl) |].
  exact (proj1 (Hset "artist") eq_refl).
Defined.

(** The list-view scenario on 'videos': 'artist' is enabled, chosen as
    the sort key, and then disabled again. *)
Example get_sort_state_videos_list_view :
  let enable := toggle_column "videos" (PyInt 1) LIST_VIEW "artist" in
  let choose := set_sort_state "videos" (PyInt 1) LIST_VIEW "-artist" in
  let ask := get_sort_state "videos" (PyInt 1) LIST_VIEW in
  fst ((exec enable; exec choose; ask) init) = Ret "-artist"
  /\ fst ((exec enable; exec choose; exec enable; ask) init) = Ret "name"
  /\ fst ((exec choose; ask) init) = Ret "name".
Proof. vm_compute. repeat split. Qed.

(** *** Arguments outside the fixed sets *)

(** C9, as stated, fails: for a display type and a view type that are
    both outside the fixed sets, [get_scroll_position] and [get_filters]
    return their defaults. *)
Lemma unknown_arguments_get_defaults :
  ("bogus" ∉ display_types)
  /\ 42 <> LIST_VIEW /\ 42 <> STANDARD_VIEW
  /\ fst (get_scroll_position "bogus" PyNone 42 init) = Ret (0, 0)
  /\ fst (get_filters "bogus" PyNone init) = Ret FILTER_VIEW_ALL.
Proof.
  split; [| repeat split; discriminate].
  unfold display_types. rewrite !not_elem_of_cons.
  repeat split; try discriminate. apply not_elem_of_nil.
Qed.

Lemma not_list_view (vt : Z) : vt <> LIST_VIEW -> is_list_view vt = false.
Proof. intros H. now apply Z.eqb_neq. Qed.

(** C9 (amended): the column methods signal [ValueError] for every view
    type other than the list view, and [get_sort_state] signals an error
    for a view type that is neither of the two; an unknown display type
    signals [KeyError] where a table keyed by display type is consulted,
    which is always in [get_columns_available] and, in [get_selected_view],
    [get_columns_enabled] and [get_sort_state], when the value was never
    stored.  [get_filters], [get_scroll_position], [set_selected_view],
    [toggle_filters], [set_sort_state] and [set_scroll_position] take any
    display type and view type and signal nothing; the two getters then
    give the stored value or the default. *)
Theorem invalid_arguments_where_checked (dt : string) (id : pyval) (vt : Z)
    (w : World) :
  let key := (dt, unicode id) in
  let vkey := (dt, unicode id, vt) in
  (vt <> LIST_VIEW ->
     get_columns_enabled dt id vt w = (Raise ValueError, w)
     /\ (forall l, set_columns_enabled dt id vt l w = (Raise ValueError, w))
     /\ (forall c, toggle_column dt id vt c w = (Raise ValueError, w))
     /\ get_column_widths dt id vt w = (Raise ValueError, w)
     /\ (forall ws, update_column_widths dt id vt ws w = (Raise ValueError, w)))
  /\ (vt <> LIST_VIEW -> vt <> STANDARD_VIEW ->
      raises (fst (get_sort_state dt id vt w)) = true)
  /\ (dt ∉ display_types ->
      fst (get_columns_available dt w) = Raise (KeyError dt)
      /\ (selected_view (entity key w) = None ->
          fst (get_selected_view dt id w) = Raise (KeyError dt))
      /\ (list_view_columns (entity key w) = None ->
          fst (get_columns_enabled dt id LIST_VIEW w) = Raise (KeyError dt))
      /\ (sort_state (view_entity vkey w) = None ->
          fst (get_sort_state dt id vt w) = Raise (KeyError dt)))
  /\ fst (get_filters dt id w)
     = Ret (default FILTER_VIEW_ALL (active_filters (entity key w)))
  /\ fst (get_scroll_position dt id vt w)
     = Ret (default (0, 0) (scroll_position (view_entity vkey w)))
  /\ (forall view, fst (set_selected_view dt id view w) = Ret tt)
  /\ (forall f, fst (toggle_filters dt id f w) = Ret tt)
  /\ (forall k, fst (set_sort_state dt id vt k w) = Ret tt)
  /\ (forall p, fst (set_scroll_position dt id vt p w) = Ret tt).
Proof.
  cbv zeta. repeat apply conj.
  - intros Hvt. pose proof (not_list_view vt Hvt) as Hlist.
    unfold get_columns_enabled, set_columns_enabled, toggle_column,
      get_column_widths, update_column_widths. rewrite Hlist.
    repeat split.
  - intros Hlist Hstd. rewrite get_sort_state_spec.
    rewrite (not_list_view vt Hlist).
    replace (is_standard_view vt) with false
      by (symmetry; now apply Z.eqb_neq).
    now destruct (match sort_state _ with Some k => Some k | None => _ end).
  - intros Hdt.
    pose proof (table_unknown _ dt dom_AVAILABLE_COLUMNS Hdt) as Havail.
    pose proof (table_unknown _ dt dom_DEFAULT_VIEW_TYPE Hdt) as Hview.
    pose proof (table_unknown _ dt dom_DEFAULT_COLUMNS Hdt) as Hcols.
    pose proof (table_unknown _ dt dom_DEFAULT_SORT_COLUMN Hdt) as Hsort.
    repeat split.
    + unfold get_columns_available, getitem. now rewrite Havail.
    + intros Hunset. now rewrite get_selected_view_spec, Hunset, Hview.
    + intros Hunset. rewrite get_columns_enabled_spec. unfold columns_object.
      now rewrite Hunset, Hcols.
    + intros Hunset. rewrite get_sort_state_spec. now rewrite Hunset, Hsort.
  - now rewrite get_filters_spec.
  - now rewrite get_scroll_position_spec.
  - intros view. now rewrite set_selected_view_spec.
  - intros f. now rewrite toggle_filters_spec.
  - intros k. now rewrite set_sort_state_spec.
  - intros p. now rewrite set_scroll_position_spec.
Qed.

Lemma invalid_arguments_where_checked_witness :
  get_columns_enabled "videos" (PyInt 1) STANDARD_VIEW init = (Raise ValueError, init)
  /\ raises (fst (get_sort_state "videos" (PyInt 1) 42 init)) = true
  /\ fst (get_selected_view "bogus" (PyInt 1) init) = Raise (KeyError "bogus").
Proof.
  destruct (invalid_arguments_where_checked "videos" (PyInt 1) STANDARD_VIEW init)
    as (Hview & _).
  destruct (invalid_arguments_where_checked "videos" (PyInt 1) 42 init)
    as (_ & Hsort & _).
  destruct (invalid_arguments_where_checked "bogus" (PyInt 1) 42 init)
    as (_ & _ & Hdt & _).
  assert (Hstd : STANDARD_VIEW <> LIST_VIEW) by discriminate.
  assert (H42 : 42 <> LIST_VIEW) by discriminate.
  assert (H42' : 42 <> STANDARD_VIEW) by discriminate.
  assert (Hbogus : "bogus" ∉ display_types).
  { unfold display_types. rewrite !not_elem_of_cons.
    repeat split; try discriminate. apply not_elem_of_nil. }
  split; [exact (proj1 (Hview Hstd)) |].
  split; [exact (Hsort H42 H42') |].
  destruct (Hdt Hbogus) as (_ & Hsel & _). exact (Hsel eq_refl).
Defined.

End StoreProofs.

(** ** Widget state store: round trips, persistence and frames *)

Module StoreExtra.
Import WidgetStateStore Access Observations StoreProofs.

Lemma updated_lookup (key : string * string) (d : DisplayInfo) (w : World) :
  displays (updated key d w) !! key = Some d.
Proof. unfold updated. cbn. apply lookup_insert_eq. Qed.

Lemma updated_entity (key : string * string) (d : DisplayInfo) (w : World) :
  entity key (updated key d w) = d /\ touch key (updated key d w) = updated key d w.
Proof.
  destruct (touch_present key _ d (updated_lookup key d w)) as [Ht He].
  now split.
Qed.

Lemma view_updated_lookup (key : string * string * Z) (v : ViewInfo) (w : World) :
  views (view_updated key v w) !! key = Some v.
Proof. unfold view_updated. cbn. apply lookup_insert_eq. Qed.

Lemma view_updated_entity (key : string * string * Z) (v : ViewInfo) (w : World) :
  view_entity key (view_updated key v w) = v
  /\ view_touch key (view_updated key v w) = view_updated key v w.
Proof.
  destruct (view_touch_present key _ v (view_updated_lookup key v w)) as [Ht He].
  now split.
Qed.

Lemma DEFAULT_VIEW_TYPE_valid (dt : string) (v : Z) :
  DEFAULT_VIEW_TYPE !! dt = Some v -> v = LIST_VIEW \/ v = STANDARD_VIEW.
Proof.
  intros H. unfold DEFAULT_VIEW_TYPE in H.
  apply elem_of_list_to_map_2 in H.
  repeat (apply elem_of_cons in H as [[= _ <-] | H]; [auto |]).
  now apply elem_of_nil in H.
Qed.

(** X1: the selected view that was set is the one that is read back, for
    any display type; a display of a known type whose view was never set
    reads the default of its type, which is one of the two view types. *)
Theorem selected_view_round_trip (dt : string) (id : pyval) (w : World) :
  (forall view : Z,
     fst (get_selected_view dt id (snd (set_selected_view dt id view w)))
     = Ret view)
  /\ (dt ∈ display_types ->
      selected_view (entity (dt, unicode id) w) = None ->
      exists view,
        fst (get_selected_view dt id w) = Ret view
        /\ DEFAULT_VIEW_TYPE !! dt = Some view
        /\ (view = LIST_VIEW \/ view = STANDARD_VIEW)).
Proof.
  split.
  - intros view. rewrite set_selected_view_spec, get_selected_view_spec.
    cbn [fst snd]. now rewrite (proj1 (updated_entity _ _ _)).
  - intros Hdt Hunset.
    destruct (proj1 (table_known _ dt dom_DEFAULT_VIEW_TYPE) Hdt) as [view Hview].
    exists view. rewrite get_selected_view_spec, Hunset, Hview.
    split; [reflexivity |]. split; [reflexivity |].
    now apply (DEFAULT_VIEW_TYPE_valid dt).
Qed.

Lemma selected_view_round_trip_witness :
  fst (get_selected_view "music" (PyInt 4) init) = Ret LIST_VIEW
  /\ fst (get_selected_view "music" (PyInt 4)
            (snd (set_selected_view "music" (PyInt 4) STANDARD_VIEW init)))
     = Ret STANDARD_VIEW.
Proof.
  destruct (selected_view_round_trip "music" (PyInt 4) init) as [Hset Hdefault].
  split; [| exact (Hset STANDARD_VIEW)].
  assert (Hdt : "music" ∈ display_types).
  { unfold display_types. rewrite !elem_of_cons. auto. }
  destruct (Hdefault Hdt eq_refl) as (view & Hget & Hview & _).
  assert (E : DEFAULT_VIEW_TYPE !! "music" = Some LIST_VIEW)
    by (vm_compute; reflexivity).
  rewrite E in Hview. injection Hview as <-. exact Hget.
Defined.

Lemma toggle_filter_twice (m f : Z) :
  f <> FILTER_VIEW_ALL -> toggle_filter (toggle_filter m f) f = m.
Proof.
  intros Hf. unfold toggle_filter.
  destruct (Z.eqb_spec f FILTER_VIEW_ALL); [contradiction | apply lxor_twice].
Qed.

(** X2: [toggle_filters] stores [toggle_filter] of what [get_filters]
    gave before; toggling the same filter twice, other than view-all,
    gives the filters back, and toggling view-all resets them. *)
Theorem toggle_filters_round_trip (dt : string) (id : pyval) (f old : Z)
    (w : World) :
  fst (get_filters dt id w) = Ret old ->
  let w1 := snd (toggle_filters dt id f w) in
  fst (get_filters dt id w1) = Ret (toggle_filter old f)
  /\ (f <> FILTER_VIEW_ALL ->
      fst (get_filters dt id (snd (toggle_filters dt id f w1))) = Ret old)
  /\ fst (get_filters dt id (snd (toggle_filters dt id FILTER_VIEW_ALL w)))
     = Ret FILTER_VIEW_ALL.
Proof.
  rewrite get_filters_spec. cbn [fst]. intros [= Hold]. cbv zeta.
  rewrite !toggle_filters_spec. cbn [snd]. rewrite !get_filters_spec. cbn [fst].
  rewrite !(proj1 (updated_entity _ _ _)). cbn. rewrite Hold.
  split; [reflexivity |]. split; [| reflexivity].
  intros Hf. f_equal.
  now apply toggle_filter_twice.
Qed.

Lemma toggle_filters_round_trip_witness :
  fst (get_filters "feed" (PyInt 9)
         (snd (toggle_filters "feed" (PyInt 9) FILTER_UNWATCHED init)))
  = Ret FILTER_UNWATCHED.
Proof.
  exact (proj1 (toggle_filters_round_trip "feed" (PyInt 9) FILTER_UNWATCHED
                  FILTER_VIEW_ALL init eq_refl)).
Defined.

(** *** Filter bits *)

Lemma has_filter_testbit (m : Z) (k : Z) :
  0 <= k -> negb (Z.land m (2 ^ k) =? 0) = Z.testbit m k.
Proof.
  intros Hk.
  assert (Hland : Z.land m (2 ^ k) = if Z.testbit m k then 2 ^ k else 0).
  { apply Z.bits_inj'. intros n Hn. rewrite Z.land_spec, Z.pow2_bits_eqb by lia.
    destruct (Z.eqb_spec k n) as [<- | Hne].
    - rewrite andb_true_r. destruct (Z.testbit m k) eqn:Hb.
      + rewrite Z.pow2_bits_eqb by lia. now rewrite Z.eqb_refl.
      + now rewrite Z.bits_0.
    - rewrite andb_false_r. destruct (Z.testbit m k).
      + rewrite Z.pow2_bits_eqb by lia. symmetry. now apply Z.eqb_neq.
      + now rewrite Z.bits_0. }
  rewrite Hland. destruct (Z.testbit m k); [| reflexivity].
  assert (0 < 2 ^ k) by (apply Z.pow_pos_nonneg; lia).
  destruct (Z.eqb_spec (2 ^ k) 0); [lia | reflexivity].
Qed.

Lemma has_unwatched_testbit (m : Z) : has_unwatched_filter m = Z.testbit m 0.
Proof. exact (has_filter_testbit m 0 (Z.le_refl 0)). Qed.

Lemma has_non_feed_testbit (m : Z) : has_non_feed_filter m = Z.testbit m 1.
Proof. apply (has_filter_testbit m 1). lia. Qed.

Lemma has_downloaded_testbit (m : Z) : has_downloaded_filter m = Z.testbit m 2.
Proof. apply (has_filter_testbit m 2). lia. Qed.

(** X3: toggling one of the three filters flips what its own test says
    and leaves what the other two tests say, for every mask; a view-all
    mask passes none of the three tests. *)
Theorem toggle_filter_flips_one_test (m : Z) :
  (has_unwatched_filter (toggle_filter m FILTER_UNWATCHED)
     = negb (has_unwatched_filter m)
   /\ has_non_feed_filter (toggle_filter m FILTER_UNWATCHED)
      = has_non_feed_filter m
   /\ has_downloaded_filter (toggle_filter m FILTER_UNWATCHED)
      = has_downloaded_filter m)
  /\ (has_unwatched_filter (toggle_filter m FILTER_NONFEED)
        = has_unwatched_filter m
      /\ has_non_feed_filter (toggle_filter m FILTER_NONFEED)
         = negb (has_non_feed_filter m)
      /\ has_downloaded_filter (toggle_filter m FILTER_NONFEED)
         = has_downloaded_filter m)
  /\ (has_unwatched_filter (toggle_filter m FILTER_DOWNLOADED)
        = has_unwatched_filter m
      /\ has_non_feed_filter (toggle_filter m FILTER_DOWNLOADED)
         = has_non_feed_filter m
      /\ has_downloaded_filter (toggle_filter m FILTER_DOWNLOADED)
         = negb (has_downloaded_filter m))
  /\ (is_view_all_filter m = true ->
      has_unwatched_filter m = false
      /\ has_non_feed_filter m = false
      /\ has_downloaded_filter m = false).
Proof.
  rewrite !has_unwatched_testbit, !has_non_feed_testbit, !has_downloaded_testbit.
  unfold toggle_filter, FILTER_UNWATCHED, FILTER_NONFEED, FILTER_DOWNLOADED,
    FILTER_VIEW_ALL, is_view_all_filter. cbn [Z.eqb].
  rewrite !Z.lxor_spec.
  change (Z.testbit 1 0) with true. change (Z.testbit 1 1) with false.
  change (Z.testbit 1 2) with false. change (Z.testbit 2 0) with false.
  change (Z.testbit 2 1) with true. change (Z.testbit 2 2) with false.
  change (Z.testbit 4 0) with false. change (Z.testbit 4 1) with false.
  change (Z.testbit 4 2) with true.
  rewrite !xorb_false_r, !xorb_true_r.
  split; [repeat split |]. split; [repeat split |]. split; [repeat split |].
  intros Hm. apply Z.eqb_eq in Hm. subst m. repeat split.
Qed.

Lemma toggle_filter_flips_one_test_witness :
  has_unwatched_filter 0 = false
  /\ has_non_feed_filter 0 = false
  /\ has_downloaded_filter 0 = false.
Proof.
  exact (proj2 (proj2 (proj2 (toggle_filter_flips_one_test 0))) eq_refl).
Defined.

(** *** Column widths *)

Lemma fill_default_widths_fst (names : list string) (acc : gmap string Z)
    (w w' : World) :
  fst (fill_default_widths names acc w) = fst (fill_default_widths names acc w').
Proof.
  revert acc. induction names as [|name rest IH]; intros acc.
  - reflexivity.
  - change (fill_default_widths (name :: rest) acc)
      with (bind (getitem DEFAULT_COLUMN_WIDTHS name)
                 (fun width => fill_default_widths rest (<[name := width]> acc))
            : M (gmap string Z)).
    unfold bind, getitem.
    destruct (DEFAULT_COLUMN_WIDTHS !! name); [apply IH | reflexivity].
Qed.

Lemma get_column_widths_spec (dt : string) (id : pyval) (w : World) :
  get_column_widths dt id LIST_VIEW w
  = (widths_outcome dt (dt, unicode id) w, touch (dt, unicode id) w).
Proof.
  rewrite (surjective_pairing (get_column_widths dt id LIST_VIEW w)).
  rewrite get_column_widths_world. f_equal.
  unfold get_column_widths, widths_outcome.
  change (is_list_view LIST_VIEW) with true. cbv iota. fetch.
  destruct (list_view_widths (entity (dt, unicode id) w)); [reflexivity |].
  unfold bind at 1. rewrite get_columns_enabled_spec, columns_object_touch.
  destruct (columns_object dt (dt, unicode id) w) as [l|]; [| reflexivity].
  erewrite bind_ret by reflexivity. unfold columns_of.
  rewrite touch_touch, touch_heap. apply fill_default_widths_fst.
Qed.

Lemma widths_outcome_touch (dt : string) (key : string * string) (w : World) :
  widths_outcome dt key (touch key w) = widths_outcome dt key w.
Proof.
  unfold widths_outcome. rewrite touch_entity, columns_object_touch.
  destruct (list_view_widths (entity key w)); [reflexivity |].
  destruct (columns_object dt key w); [| reflexivity].
  unfold columns_of. rewrite touch_heap. apply fill_default_widths_fst.
Qed.

Lemma update_column_widths_spec (dt : string) (id : pyval)
    (ws : gmap string Z) (w : World) :
  update_column_widths dt id LIST_VIEW ws w
  = match widths_outcome dt (dt, unicode id) w with
    | Ret cw =>
        (Ret tt,
         updated (dt, unicode id)
           (with_list_view_widths (entity (dt, unicode id) w) (Some (ws ∪ cw)))
           w)
    | Raise e => (Raise e, touch (dt, unicode id) w)
    end.
Proof.
  unfold update_column_widths.
  change (is_list_view LIST_VIEW) with true. cbv iota. fetch.
  unfold widths_outcome at 1.
  destruct (list_view_widths (entity (dt, unicode id) w)) as [cw|] eqn:Hcw.
  - erewrite bind_ret by reflexivity. rewrite Hcw. apply put_then_save.
  - pose proof (get_column_widths_spec dt id (touch (dt, unicode id) w)) as Hget.
    rewrite touch_touch, widths_outcome_touch in Hget.
    unfold widths_outcome in Hget at 1. rewrite Hcw in Hget.
    destruct (match columns_object dt (dt, unicode id) w with
              | Some l => fst (fill_default_widths (columns_of l w) ∅ w)
              | None => Raise (KeyError dt)
              end) as [cw|e].
    + erewrite (bind_ret (bind _ _)).
      2:{ erewrite bind_ret by exact Hget. erewrite bind_ret by reflexivity.
          reflexivity. }
      erewrite bind_ret by reflexivity. rewrite save_display_state_spec.
      match goal with
      | |- context [touch ?k ?w2] =>
          destruct (touch_present k w2 _ (lookup_insert_eq _ _ _)) as [-> ->]
      end.
      cbn. unfold updated. now rewrite insert_insert_eq, touch_heap, touch_views.
    + erewrite (bind_raise (bind _ _)); [reflexivity |].
      erewrite bind_raise by exact Hget. reflexivity.
Qed.

(** *** What the backend was told last *)

Lemma saved_stored_updated (key : string * string) (d : DisplayInfo) (w : World) :
  saved_stored key (updated key d w).
Proof.
  exists d. unfold updated. cbn. split; [apply last_snoc | apply lookup_insert_eq].
Qed.

Lemma saved_stored_toggled (key : string * string) (l : loc) (c : string)
    (w : World) :
  saved_stored key (toggled_world key l c w).
Proof.
  eexists. unfold toggled_world. cbn.
  split; [apply last_snoc | apply lookup_insert_eq].
Qed.

Lemma touch_same_or_saved (key : string * string) (w : World) :
  touch key w = w \/ saved_stored key (touch key w).
Proof.
  unfold touch. destruct (displays w !! key); [now left | right].
  exists (new_DisplayInfo key). unfold created. cbn.
  split; [apply last_snoc | apply lookup_insert_eq].
Qed.

(** X4: after any display method the world is either exactly as before,
    or the last command sent is a save of the display as the store now
    holds it; a setter that returns normally is always in the second
    case.  No assignment is left unsaved. *)
Theorem last_save_is_what_is_stored (a : display_access) (dt : string)
    (id : pyval) (w : World) :
  let key := (dt, unicode id) in
  let w' := snd (run_access a dt id w) in
  (w' = w \/ saved_stored key w')
  /\ (is_getter a = false -> fst (run_access a dt id w) = Ret tt ->
      saved_stored key w').
Proof.
  cbv zeta. destruct a; cbn [run_access is_getter]; rewrite ?discard_world.
  - rewrite get_selected_view_spec. cbn [snd].
    split; [apply touch_same_or_saved | discriminate].
  - rewrite set_selected_view_spec. cbn [snd].
    split; [right |]; intros; apply saved_stored_updated.
  - rewrite get_filters_spec. cbn [snd].
    split; [apply touch_same_or_saved | discriminate].
  - rewrite toggle_filters_spec. cbn [snd].
    split; [right |]; intros; apply saved_stored_updated.
  - rewrite get_columns_enabled_spec. cbn [snd].
    split; [apply touch_same_or_saved | discriminate].
  - rewrite set_columns_enabled_spec. cbn [snd].
    split; [right |]; intros; apply saved_stored_updated.
  - rewrite toggle_column_spec.
    destruct (columns_object dt (dt, unicode id) w); cbn [fst snd].
    + split; [right |]; intros; apply saved_stored_toggled.
    + split; [apply touch_same_or_saved | discriminate].
  - rewrite get_column_widths_spec. cbn [snd].
    split; [apply touch_same_or_saved | discriminate].
  - rewrite update_column_widths_spec.
    destruct (widths_outcome dt (dt, unicode id) w); cbn [fst snd].
    + split; [right |]; intros; apply saved_stored_updated.
    + split; [apply touch_same_or_saved | discriminate].
Qed.

Lemma last_save_is_what_is_stored_witness :
  saved_stored ("videos", "1")
    (snd (toggle_column "videos" (PyInt 1) LIST_VIEW "rating" init)).
Proof.
  exact (proj2 (last_save_is_what_is_stored (ToggleColumn "rating") "videos"
                  (PyInt 1) init) eq_refl eq_refl).
Defined.

(** *** Frames *)

(** X5: a display method leaves the views alone, leaves every display
    under another key alone, and leaves the contents of every list object
    alone, except that [toggle_column] changes the one object it works
    on. *)
Theorem display_access_frame (a : display_access) (dt : string) (id : pyval)
    (w : World) :
  let key := (dt, unicode id) in
  let w' := snd (run_access a dt id w) in
  views w' = views w
  /\ (forall key', key' <> key -> displays w' !! key' = displays w !! key')
  /\ (forall l, columns_of l w' = columns_of l w
                \/ exists c, a = ToggleColumn c
                             /\ columns_object dt key w = Some l).
Proof.
  cbv zeta.
  assert (Htouch : views (touch (dt, unicode id) w) = views w
            /\ (forall key', key' <> (dt, unicode id) ->
                  displays (touch (dt, unicode id) w) !! key' = displays w !! key')
            /\ forall l, columns_of l (touch (dt, unicode id) w) = columns_of l w).
  { split; [apply touch_views |]. split.
    - intros key' Hne. now apply touch_lookup_ne.
    - intros l. unfold columns_of. now rewrite touch_heap. }
  assert (Hupd : forall d,
            views (updated (dt, unicode id) d w) = views w
            /\ (forall key', key' <> (dt, unicode id) ->
                  displays (updated (dt, unicode id) d w) !! key'
                  = displays w !! key')
            /\ forall l, columns_of l (updated (dt, unicode id) d w)
                         = columns_of l w).
  { intros d. unfold updated, columns_of. cbn. split; [reflexivity |]. split.
    - intros key' Hne. rewrite lookup_insert_ne by congruence.
      now apply touch_lookup_ne.
    - reflexivity. }
  destruct a; cbn [run_access]; rewrite ?discard_world.
  - rewrite get_selected_view_spec. cbn [snd].
    destruct Htouch as (? & ? & ?). auto.
  - rewrite set_selected_view_spec. cbn [snd].
    destruct (Hupd (with_selected_view (entity (dt, unicode id) w) (Some view)))
      as (? & ? & ?). auto.
  - rewrite get_filters_spec. cbn [snd]. destruct Htouch as (? & ? & ?). auto.
  - rewrite toggle_filters_spec. cbn [snd].
    match goal with |- context [updated _ ?d w] =>
      destruct (Hupd d) as (? & ? & ?) end. auto.
  - rewrite get_columns_enabled_spec. cbn [snd].
    destruct Htouch as (? & ? & ?). auto.
  - rewrite set_columns_enabled_spec. cbn [snd].
    match goal with |- context [updated _ ?d w] =>
      destruct (Hupd d) as (? & ? & ?) end. auto.
  - rewrite toggle_column_spec.
    destruct (columns_object dt (dt, unicode id) w) as [l0|] eqn:Hobj; cbn [snd].
    + unfold toggled_world, columns_of. cbn. split; [reflexivity |]. split.
      * intros key' Hne. rewrite lookup_insert_ne by congruence.
        now apply touch_lookup_ne.
      * intros l. destruct (decide (l0 = l)) as [<- | Hne].
        -- right. eauto.
        -- left. now rewrite lookup_insert_ne.
    + destruct Htouch as (? & ? & ?). auto.
  - rewrite get_column_widths_spec. cbn [snd].
    destruct Htouch as (? & ? & ?). auto.
  - rewrite update_column_widths_spec.
    destruct (widths_outcome dt (dt, unicode id) w); cbn [snd].
    + match goal with |- context [updated _ ?d w] =>
        destruct (Hupd d) as (? & ? & ?) end. auto.
    + destruct Htouch as (? & ? & ?). auto.
Qed.

(** *** Enabled columns *)

(** X6: the list object given to [set_columns_enabled] is the one
    [get_columns_enabled] returns afterwards, also for a display type
    without default columns; [toggle_column] on a display without stored
    columns stores the default object of its type in the display, so the
    display keeps following that shared object. *)
Theorem columns_object_is_kept (dt : string) (id : pyval) (w : World) :
  (forall l : loc,
     fst (get_columns_enabled dt id LIST_VIEW
            (snd (set_columns_enabled dt id LIST_VIEW l w))) = Ret l)
  /\ (forall (c : string) (l0 : loc),
        list_view_columns (entity (dt, unicode id) w) = None ->
        DEFAULT_COLUMNS !! dt = Some l0 ->
        let w' := snd (toggle_column dt id LIST_VIEW c w) in
        list_view_columns (entity (dt, unicode id) w') = Some l0
        /\ fst (get_columns_enabled dt id LIST_VIEW w') = Ret l0).
Proof.
  split.
  - intros l. rewrite set_columns_enabled_spec, get_columns_enabled_spec.
    cbn [fst snd]. unfold columns_object.
    now rewrite (proj1 (updated_entity _ _ _)).
  - intros c l0 Hunset Hdefault. cbv zeta.
    assert (Hobj : columns_object dt (dt, unicode id) w = Some l0).
    { unfold columns_object. now rewrite Hunset. }
    rewrite toggle_column_spec, Hobj. cbn [snd].
    assert (He : entity (dt, unicode id) (toggled_world (dt, unicode id) l0 c w)
                 = with_list_view_columns (entity (dt, unicode id) w) (Some l0)).
    { unfold entity at 1, toggled_world. cbn. now rewrite lookup_insert_eq. }
    rewrite get_columns_enabled_spec. unfold columns_object. rewrite He.
    split; reflexivity.
Qed.

Lemma columns_object_is_kept_witness :
  fst (get_columns_enabled "videos" (PyInt 1) LIST_VIEW
         (snd (toggle_column "videos" (PyInt 1) LIST_VIEW "rating" init)))
  = Ret videos_columns.
Proof.
  exact (proj2 (proj2 (columns_object_is_kept "videos" (PyInt 1) init)
                  "rating" videos_columns eq_refl eq_refl)).
Defined.

Lemma list_remove_absent (c : string) (cols : list string) :
  c ∉ cols -> list_remove c cols = cols.
Proof.
  induction cols as [|y rest IH]; [reflexivity |].
  intros Hnot. apply not_elem_of_cons in Hnot as [Hne Hrest]. cbn.
  destruct (String.eqb_spec c y); [contradiction |]. now rewrite IH.
Qed.

Lemma list_remove_app_absent (c : string) (cols : list string) :
  c ∉ cols -> list_remove c (cols ++ [c]) = cols.
Proof.
  induction cols as [|y rest IH]; intros Hnot; cbn.
  - now rewrite String.eqb_refl.
  - apply not_elem_of_cons in Hnot as [Hne Hrest].
    destruct (String.eqb_spec c y); [contradiction |]. now rewrite IH.
Qed.

Lemma list_remove_perm (c : string) (cols : list string) :
  c ∈ cols -> cols ≡ₚ c :: list_remove c cols.
Proof.
  induction cols as [|y rest IH]; intros Hin.
  - now apply elem_of_nil in Hin.
  - cbn. destruct (String.eqb_spec c y) as [-> | Hne]; [reflexivity |].
    apply elem_of_cons in Hin as [-> | Hin]; [contradiction |].
    rewrite (IH Hin) at 1. apply Permutation_swap.
Qed.

Lemma list_remove_length (c : string) (cols : list string) :
  c ∈ cols -> S (length (list_remove c cols)) = length cols.
Proof.
  intros Hin. now rewrite (Permutation_length (list_remove_perm c cols Hin)).
Qed.

(** What two [toggle_column] calls in a row leave in the list object. *)
Lemma toggle_column_twice_world (dt : string) (id : pyval) (c : string)
    (l : loc) (w : World) :
  columns_object dt (dt, unicode id) w = Some l ->
  fst (toggle_column dt id LIST_VIEW c
         (snd (toggle_column dt id LIST_VIEW c w))) = Ret tt
  /\ columns_of l (snd (toggle_column dt id LIST_VIEW c
                          (snd (toggle_column dt id LIST_VIEW c w))))
     = toggled c (toggled c (columns_of l w)).
Proof.
  intros Hobj. rewrite (toggle_column_spec dt id c w), Hobj. cbn [snd].
  assert (Hobj' : columns_object dt (dt, unicode id)
                    (toggled_world (dt, unicode id) l c w) = Some l).
  { unfold columns_object, entity, toggled_world. cbn.
    now rewrite lookup_insert_eq. }
  rewrite toggle_column_spec, Hobj'. cbn [fst snd]. split; [reflexivity |].
  unfold columns_of at 1, toggled_world at 1. cbn. rewrite lookup_insert_eq. cbn.
  f_equal. unfold columns_of, toggled_world. cbn. now rewrite lookup_insert_eq.
Qed.

(** X7: [toggle_column] twice with a column that was not enabled leaves
    the list of columns exactly as it was; with a column that was enabled
    once, the column ends up last: the same columns, in another order.
    One [toggle_column] with an enabled column makes the list one shorter. *)
Theorem toggle_column_twice (dt : string) (id : pyval) (c : string)
    (l : loc) (w : World) :
  columns_object dt (dt, unicode id) w = Some l ->
  let cols := columns_of l w in
  let w1 := snd (toggle_column dt id LIST_VIEW c w) in
  let w2 := snd (toggle_column dt id LIST_VIEW c w1) in
  (c ∉ cols -> columns_of l w1 = cols ++ [c] /\ columns_of l w2 = cols)
  /\ (c ∈ cols -> S (length (columns_of l w1)) = length cols)
  /\ (c ∈ cols -> c ∉ list_remove c cols ->
      columns_of l w2 = list_remove c cols ++ [c]
      /\ columns_of l w2 ≡ₚ cols).
Proof.
  intros Hobj. cbv zeta.
  destruct (toggle_column_twice_world dt id c l w Hobj) as [_ Htwice].
  rewrite Htwice.
  assert (Hone : columns_of l (snd (toggle_column dt id LIST_VIEW c w))
                 = toggled c (columns_of l w)).
  { rewrite toggle_column_spec, Hobj. cbn [snd].
    unfold columns_of at 1, toggled_world. cbn. now rewrite lookup_insert_eq. }
  rewrite Hone. unfold toggled. split; [| split].
  - intros Hnot. rewrite (bool_decide_eq_false_2 _ Hnot).
    rewrite bool_decide_eq_true_2 by (apply elem_of_app; right; now left).
    split; [reflexivity | now apply list_remove_app_absent].
  - intros Hin. rewrite (bool_decide_eq_true_2 _ Hin).
    now apply list_remove_length.
  - intros Hin Hgone. rewrite (bool_decide_eq_true_2 _ Hin).
    rewrite (bool_decide_eq_false_2 _ Hgone). split; [reflexivity |].
    rewrite (list_remove_perm c (columns_of l w) Hin) at 2.
    symmetry. apply Permutation_cons_append.
Qed.

Lemma toggle_column_twice_witness :
  columns_of videos_columns
    (snd (toggle_column "videos" (PyInt 1) LIST_VIEW "name"
            (snd (toggle_column "videos" (PyInt 1) LIST_VIEW "name" init))))
  = ["state"; "length"; "feed-name"; "size"; "name"].
Proof.
  destruct (toggle_column_twice "videos" (PyInt 1) "name" videos_columns init
              eq_refl) as (_ & _ & Hmoved).
  assert (Hin : "name" ∈ columns_of videos_columns init).
  { apply (bool_decide_unpack _). vm_compute. exact I. }
  assert (Hgone : "name" ∉ list_remove "name" (columns_of videos_columns init)).
  { apply (bool_decide_unpack _). vm_compute. exact I. }
  destruct (Hmoved Hin Hgone) as [Heq _]. rewrite Heq. vm_compute. reflexivity.
Defined.

(** *** Default and stored column widths *)

Lemma fill_default_widths_step (name : string) (rest : list string)
    (acc : gmap string Z) (w : World) :
  fill_default_widths (name :: rest) acc w
  = match DEFAULT_COLUMN_WIDTHS !! name with
    | Some width => fill_default_widths rest (<[name := width]> acc) w
    | None => (Raise (KeyError name), w)
    end.
Proof.
  change (fill_default_widths (name :: rest) acc)
    with (bind (getitem DEFAULT_COLUMN_WIDTHS name)
               (fun width => fill_default_widths rest (<[name := width]> acc))
          : M (gmap string Z)).
  unfold bind, getitem. now destruct (DEFAULT_COLUMN_WIDTHS !! name).
Qed.

Lemma fill_default_widths_ok (names : list string) (acc : gmap string Z)
    (w : World) :
  (forall name, name ∈ names -> is_Some (DEFAULT_COLUMN_WIDTHS !! name)) ->
  exists ws,
    fst (fill_default_widths names acc w) = Ret ws
    /\ forall name,
         ws !! name = if decide (name ∈ names)
                      then DEFAULT_COLUMN_WIDTHS !! name else acc !! name.
Proof.
  revert acc. induction names as [|n rest IH]; intros acc Hall.
  - exists acc. split; [reflexivity |]. intros name.
    destruct (decide (name ∈ [])) as [Hin |]; [| reflexivity].
    now apply elem_of_nil in Hin.
  - rewrite fill_default_widths_step.
    destruct (Hall n (list_elem_of_here n rest)) as [width Hwidth].
    rewrite Hwidth.
    destruct (IH (<[n := width]> acc)) as (ws & Hws & Hlook).
    { intros name Hin. apply Hall. now apply list_elem_of_further. }
    exists ws. split; [exact Hws |]. intros name. rewrite Hlook.
    destruct (decide (name ∈ rest)) as [Hin | Hnot].
    + rewrite decide_True by (now apply list_elem_of_further). reflexivity.
    + destruct (decide (name = n)) as [-> | Hne].
      * rewrite decide_True by apply list_elem_of_here.
        now rewrite lookup_insert_eq.
      * rewrite decide_False.
        -- now rewrite lookup_insert_ne.
        -- intros Hin. apply elem_of_cons in Hin as [? | ?]; contradiction.
Qed.

Lemma fill_default_widths_missing (before after : list string)
    (missing : string) (acc : gmap string Z) (w : World) :
  (forall name, name ∈ before -> is_Some (DEFAULT_COLUMN_WIDTHS !! name)) ->
  DEFAULT_COLUMN_WIDTHS !! missing = None ->
  fst (fill_default_widths (before ++ missing :: after) acc w)
  = Raise (KeyError missing).
Proof.
  revert acc. induction before as [|n rest IH]; intros acc Hall Hmissing.
  - cbn [app]. rewrite fill_default_widths_step. now rewrite Hmissing.
  - cbn [app]. rewrite fill_default_widths_step.
    destruct (Hall n (list_elem_of_here n rest)) as [width Hwidth].
    rewrite Hwidth. apply IH; [| exact Hmissing].
    intros name Hin. apply Hall. now apply list_elem_of_further.
Qed.

(** X8: for a display without stored widths, [get_column_widths] builds
    a dict that has exactly the enabled columns as keys, each with its
    entry of [DEFAULT_COLUMN_WIDTHS]; when an enabled column has no entry
    there, it raises [KeyError] for the first such column.  Neither way
    is anything stored. *)
Theorem get_column_widths_defaults (dt : string) (id : pyval) (l : loc)
    (w : World) :
  list_view_widths (entity (dt, unicode id) w) = None ->
  fst (get_columns_enabled dt id LIST_VIEW w) = Ret l ->
  let cols := columns_of l w in
  snd (get_column_widths dt id LIST_VIEW w)
    = snd (get_columns_enabled dt id LIST_VIEW w)
  /\ ((forall name, name ∈ cols -> is_Some (DEFAULT_COLUMN_WIDTHS !! name)) ->
      exists ws,
        fst (get_column_widths dt id LIST_VIEW w) = Ret ws
        /\ forall name,
             ws !! name = if decide (name ∈ cols)
                          then DEFAULT_COLUMN_WIDTHS !! name else None)
  /\ (forall before missing after,
        cols = before ++ missing :: after ->
        (forall name, name ∈ before -> is_Some (DEFAULT_COLUMN_WIDTHS !! name)) ->
        DEFAULT_COLUMN_WIDTHS !! missing = None ->
        fst (get_column_widths dt id LIST_VIEW w) = Raise (KeyError missing)).
Proof.
  intros Hunset. rewrite get_columns_enabled_spec. cbn [fst snd].
  intros Hl. cbv zeta. rewrite get_column_widths_spec. cbn [fst snd].
  assert (Hobj : columns_object dt (dt, unicode id) w = Some l).
  { destruct (columns_object dt (dt, unicode id) w); congruence. }
  unfold widths_outcome. rewrite Hunset, Hobj.
  split; [reflexivity |]. split.
  - intros Hall.
    destruct (fill_default_widths_ok (columns_of l w) ∅ w Hall) as (ws & Hws & Hlook).
    exists ws. split; [exact Hws |]. intros name. rewrite Hlook.
    destruct (decide (name ∈ columns_of l w)); [reflexivity | apply lookup_empty].
  - intros before missing after -> Hall Hmissing.
    now apply fill_default_widths_missing.
Qed.

Lemma get_column_widths_defaults_witness :
  fst (get_column_widths "sharing" (PyInt 2) LIST_VIEW
         (snd (toggle_column "videos" (PyInt 1) LIST_VIEW "bitrate" init)))
  = Raise (KeyError "bitrate").
Proof.
  set (w := snd (toggle_column "videos" (PyInt 1) LIST_VIEW "bitrate" init)).
  destruct (get_column_widths_defaults "sharing" (PyInt 2) videos_columns w
              eq_refl eq_refl) as (_ & _ & Hmissing).
  apply (Hmissing ["state"; "name"; "length"; "feed-name"; "size"] "bitrate" []).
  - vm_compute. reflexivity.
  - intros name Hin. apply (bool_decide_unpack _).
    repeat (apply elem_of_cons in Hin as [-> | Hin]; [vm_compute; exact I |]).
    now apply elem_of_nil in Hin.
  - vm_compute. reflexivity.
Defined.

(** X9: [update_column_widths] stores the given widths over the widths
    [get_column_widths] gave before and leaves the other widths; what is
    read back is that merged dict, also after the enabled columns change:
    stored widths no longer follow the columns.  When [get_column_widths]
    raises, [update_column_widths] raises the same and stores nothing. *)
Theorem update_column_widths_round_trip (dt : string) (id : pyval)
    (ws : gmap string Z) (w : World) :
  (forall old,
     fst (get_column_widths dt id LIST_VIEW w) = Ret old ->
     let w1 := snd (update_column_widths dt id LIST_VIEW ws w) in
     fst (update_column_widths dt id LIST_VIEW ws w) = Ret tt
     /\ fst (get_column_widths dt id LIST_VIEW w1) = Ret (ws ∪ old)
     /\ (forall name width, ws !! name = Some width ->
           (ws ∪ old) !! name = Some width)
     /\ (forall name, ws !! name = None -> (ws ∪ old) !! name = old !! name)
     /\ forall c,
          fst (get_column_widths dt id LIST_VIEW
                 (snd (toggle_column dt id LIST_VIEW c w1))) = Ret (ws ∪ old))
  /\ (forall e,
        fst (get_column_widths dt id LIST_VIEW w) = Raise e ->
        update_column_widths dt id LIST_VIEW ws w
        = (Raise e, snd (get_column_widths dt id LIST_VIEW w))).
Proof.
  rewrite update_column_widths_spec, get_column_widths_spec. cbn [fst snd]. split.
  - intros old ->. cbn [fst snd]. split; [reflexivity |].
    set (d := with_list_view_widths (entity (dt, unicode id) w) (Some (ws ∪ old))).
    destruct (updated_entity (dt, unicode id) d w) as [He Ht].
    split; [| split; [| split]].
    + rewrite get_column_widths_spec. cbn [fst].
      unfold widths_outcome. now rewrite He.
    + intros name width Hname. now apply lookup_union_Some_l.
    + intros name Hname. now apply lookup_union_r.
    + intros c. rewrite get_column_widths_spec. cbn [fst].
      rewrite toggle_column_spec.
      destruct (columns_object dt (dt, unicode id) (updated (dt, unicode id) d w))
        as [l|]; cbn [snd].
      * unfold widths_outcome, entity at 1, toggled_world. cbn.
        rewrite lookup_insert_eq. cbn. now rewrite He.
      * rewrite widths_outcome_touch. unfold widths_outcome. now rewrite He.
  - now intros e ->.
Qed.

Lemma update_column_widths_round_trip_witness :
  fst (get_column_widths "others" (PyInt 5) LIST_VIEW
         (snd (update_column_widths "others" (PyInt 5) LIST_VIEW
                 {["name" := 200]} init)))
  = Ret ({["name" := 200]} ∪ {["name" := 130; "feed-name" := 70; "size" := 65]}).
Proof.
  destruct (update_column_widths_round_trip "others" (PyInt 5)
              {["name" := 200]} init) as [Hok _].
  refine (proj1 (proj2 (Hok _ _))).
  vm_compute. reflexivity.
Defined.

(** *** Loading displays *)

Lemma setup_displays_lookup_other (ds : list DisplayInfo)
    (m : gmap (string * string) DisplayInfo) (key : string * string) :
  (forall d, d ∈ ds -> display_key d <> key) ->
  fold_left (fun acc d => <[display_key d := d]> acc) ds m !! key = m !! key.
Proof.
  revert m. induction ds as [|d rest IH]; intros m Hall; [reflexivity |].
  cbn. rewrite IH.
  - apply lookup_insert_ne. apply Hall. apply list_elem_of_here.
  - intros d' Hin. apply Hall. now apply list_elem_of_further.
Qed.

Lemma setup_displays_lookup_last (before after : list DisplayInfo)
    (d : DisplayInfo) (m : gmap (string * string) DisplayInfo) :
  (forall d', d' ∈ after -> display_key d' <> display_key d) ->
  fold_left (fun acc d => <[display_key d := d]> acc) (before ++ d :: after) m
    !! display_key d = Some d.
Proof.
  intros Hafter. rewrite fold_left_app. cbn.
  rewrite setup_displays_lookup_other by exact Hafter.
  apply lookup_insert_eq.
Qed.

(** X10: [setup_displays] sends nothing and touches neither views nor
    list objects; a display that is not in the message stays as it was;
    of the displays in the message with the same key the last one is the
    one in the store, and [_get_display] then hands it out without
    creating or saving anything. *)
Theorem setup_displays_loads (ds : list DisplayInfo) (w : World) :
  let w1 := snd (setup_displays ds w) in
  fst (setup_displays ds w) = Ret tt
  /\ backend w1 = backend w /\ views w1 = views w /\ heap w1 = heap w
  /\ (forall key,
        (forall d, d ∈ ds -> display_key d <> key) ->
        displays w1 !! key = displays w !! key)
  /\ (forall before d after dt id,
        ds = before ++ d :: after ->
        (forall d', d' ∈ after -> display_key d' <> display_key d) ->
        display_key d = (dt, unicode id) ->
        _get_display dt id w1 = (Ret d, w1)).
Proof.
  cbv zeta. unfold setup_displays. cbn [fst snd heap views backend displays].
  repeat split.
  - intros key Hall. now apply setup_displays_lookup_other.
  - intros before d after dt id -> Hafter Hkey.
    rewrite _get_display_spec. cbn [displays]. rewrite <- Hkey.
    now rewrite setup_displays_lookup_last.
Qed.

Lemma setup_displays_loads_witness :
  let saved := mkDisplayInfo ("music", "7") (Some STANDARD_VIEW) (Some 5) None None in
  let w1 := snd (setup_displays [new_DisplayInfo ("music", "7"); saved] init) in
  _get_display "music" (PyInt 7) w1 = (Ret saved, w1).
Proof.
  cbv zeta.
  destruct (setup_displays_loads
              [new_DisplayInfo ("music", "7");
               mkDisplayInfo ("music", "7") (Some STANDARD_VIEW) (Some 5) None None]
              init) as (_ & _ & _ & _ & _ & Hload).
  apply (Hload [new_DisplayInfo ("music", "7")] _ [] "music" (PyInt 7)).
  - reflexivity.
  - intros d' Hin. now apply elem_of_nil in Hin.
  - reflexivity.
Defined.

(** *** Views *)

Lemma view_touch_lookup_ne (key key' : string * string * Z) (w : World) :
  key <> key' -> views (view_touch key w) !! key' = views w !! key'.
Proof.
  intros Hne. unfold view_touch. destruct (views w !! key); [reflexivity |].
  cbn. now rewrite lookup_insert_ne.
Qed.

(** X11: the scroll position that was set is read back, and a view that
    has none reads (0, 0), for any display type and view type; the two
    views of a display are separate: setting the scroll position or the
    sort state of one changes neither for any other view, and setting one
    of the two fields leaves the other field of the same view. *)
Theorem scroll_position_round_trip (dt : string) (id : pyval) (vt : Z)
    (p : Z * Z) (w : World) :
  let w1 := snd (set_scroll_position dt id vt p w) in
  fst (get_scroll_position dt id vt w1) = Ret p
  /\ (scroll_position (view_entity (dt, unicode id, vt) w) = None ->
      fst (get_scroll_position dt id vt w) = Ret (0, 0))
  /\ sort_state (view_entity (dt, unicode id, vt) w1)
     = sort_state (view_entity (dt, unicode id, vt) w)
  /\ (forall k,
        scroll_position
          (view_entity (dt, unicode id, vt) (snd (set_sort_state dt id vt k w)))
        = scroll_position (view_entity (dt, unicode id, vt) w))
  /\ (forall dt' id' vt' k,
        (dt', unicode id', vt') <> (dt, unicode id, vt) ->
        views w1 !! (dt', unicode id', vt') = views w !! (dt', unicode id', vt')
        /\ views (snd (set_sort_state dt id vt k w)) !! (dt', unicode id', vt')
           = views w !! (dt', unicode id', vt'))
  /\ displays w1 = displays w /\ heap w1 = heap w.
Proof.
  cbv zeta. rewrite set_scroll_position_spec. cbn [snd].
  split; [| split; [| split; [| split; [| split]]]].
  - rewrite get_scroll_position_spec. cbn [fst].
    now rewrite (proj1 (view_updated_entity _ _ _)).
  - intros Hunset. rewrite get_scroll_position_spec. cbn [fst]. now rewrite Hunset.
  - now rewrite (proj1 (view_updated_entity _ _ _)).
  - intros k. rewrite set_sort_state_spec. cbn [snd].
    now rewrite (proj1 (view_updated_entity _ _ _)).
  - intros dt' id' vt' k Hne. rewrite set_sort_state_spec. cbn [snd].
    unfold view_updated. cbn.
    rewrite !lookup_insert_ne by congruence.
    split; apply view_touch_lookup_ne; congruence.
  - unfold view_updated. cbn. split; reflexivity.
Qed.

Lemma scroll_position_round_trip_witness :
  fst (get_scroll_position "bogus" PyNone 42 init) = Ret (0, 0)
  /\ fst (get_scroll_position "bogus" PyNone 42
            (snd (set_scroll_position "bogus" PyNone 42 (3, 80) init)))
     = Ret (3, 80).
Proof.
  destruct (scroll_position_round_trip "bogus" PyNone 42 (3, 80) init)
    as (Hset & Hunset & _).
  split; [exact (Hunset eq_refl) | exact Hset].
Defined.

(** X12: the first [get_sort_state] for a display persists what it
    creates: on the standard view one save of the new view and nothing
    else; on the list view of a known display type the save of the new
    view followed by the save of the new display, which it reads the
    enabled columns from.  Asking again sends nothing. *)
Theorem get_sort_state_first_access (dt : string) (id : pyval) (w : World) :
  let key := (dt, unicode id) in
  dt ∈ display_types ->
  displays w !! key = None ->
  (views w !! (dt, unicode id, STANDARD_VIEW) = None ->
   let w1 := snd (get_sort_state dt id STANDARD_VIEW w) in
   backend w1
     = backend w ++ [SaveViewState (new_ViewInfo (dt, unicode id, STANDARD_VIEW))]
   /\ displays w1 = displays w
   /\ snd (get_sort_state dt id STANDARD_VIEW w1) = w1)
  /\ (views w !! (dt, unicode id, LIST_VIEW) = None ->
      let w1 := snd (get_sort_state dt id LIST_VIEW w) in
      backend w1
        = backend w ++ [SaveViewState (new_ViewInfo (dt, unicode id, LIST_VIEW));
                        SaveDisplayState (new_DisplayInfo key)]
      /\ displays w1 !! key = Some (new_DisplayInfo key)
      /\ snd (get_sort_state dt id LIST_VIEW w1) = w1).
Proof.
  cbv zeta. intros Hdt Habsent.
  destruct (proj1 (table_known _ dt dom_DEFAULT_SORT_COLUMN) Hdt) as [dflt Hdflt].
  destruct (proj1 (table_known _ dt dom_DEFAULT_COLUMNS) Hdt) as [l Hl].
  assert (Hworld : forall vt w0,
            snd (get_sort_state dt id vt w0)
            = if is_standard_view vt then view_touch (dt, unicode id, vt) w0
              else if is_list_view vt
                   then touch (dt, unicode id) (view_touch (dt, unicode id, vt) w0)
                   else view_touch (dt, unicode id, vt) w0).
  { intros vt w0. rewrite get_sort_state_spec. cbv zeta. rewrite Hdflt.
    assert (Hobj : is_Some (columns_object dt (dt, unicode id) w0))
      by now apply columns_object_known.
    destruct Hobj as [l0 ->].
    destruct (sort_state (view_entity (dt, unicode id, vt) w0));
      destruct (is_standard_view vt); destruct (is_list_view vt); reflexivity. }
  assert (Hidem : forall vkey w0,
            view_touch vkey (view_touch vkey w0) = view_touch vkey w0).
  { intros vkey w0.
    exact (proj1 (view_touch_present vkey _ _ (view_touch_lookup vkey w0))). }
  split; intros Hview; rewrite !Hworld.
  - change (is_standard_view STANDARD_VIEW) with true. cbv iota.
    rewrite Hidem. unfold view_touch. rewrite Hview. cbn.
    repeat split.
  - change (is_standard_view LIST_VIEW) with false.
    change (is_list_view LIST_VIEW) with true. cbv iota.
    set (vkey := (dt, unicode id, LIST_VIEW)). set (key := (dt, unicode id)).
    assert (Hagain : view_touch vkey (touch key (view_touch vkey w))
                     = touch key (view_touch vkey w)).
    { apply (proj1 (view_touch_present vkey _ (view_entity vkey w)
                      ltac:(rewrite touch_views; apply view_touch_lookup))). }
    rewrite Hagain, touch_touch.
    assert (Hvt : view_touch vkey w = view_created vkey w).
    { unfold view_touch, vkey. now rewrite Hview. }
    rewrite Hvt.
    assert (Ht : touch key (view_created vkey w) = created key (view_created vkey w)).
    { unfold touch, key. cbn. now rewrite Habsent. }
    rewrite Ht. cbn. rewrite <- app_assoc. split; [reflexivity |].
    split; [apply lookup_insert_eq | reflexivity].
Qed.

Lemma get_sort_state_first_access_witness :
  backend (snd (get_sort_state "feed" (PyInt 2) LIST_VIEW init))
  = [SaveViewState (new_ViewInfo ("feed", "2", LIST_VIEW));
     SaveDisplayState (new_DisplayInfo ("feed", "2"))].
Proof.
  assert (Hdt : "feed" ∈ display_types).
  { unfold display_types. rewrite !elem_of_cons. auto 10. }
  destruct (get_sort_state_first_access "feed" (PyInt 2) init Hdt eq_refl)
    as [_ Hlist].
  exact (proj1 (Hlist eq_refl)).
Defined.

End StoreExtra.

(** ** Cells: description, buttons, stars, background, progress layout *)

Module CellsProofs.
Import Style Cells CellSamples.

(** *** Slices *)













(** *** The description and its links *)




(** *** Hit-testing the description *)

Lemma link_at_Some (index : Z) (links : list (Z * Z * string)) (r : string) :
  link_at index links = Some r ->
  exists before start end_ url after,
    links = before ++ (start, end_, url) :: after
    /\ start <= index < end_
    /\ Forall (fun link => ~ (fst (fst link) <= index < snd (fst link))) before
    /\ r = if String.eqb url "#show-torrent-contents" then "show_contents"
           else ("description-link:" ++ url)%string.
Proof.
  induction links as [|[[start end_] url] rest IH]; [discriminate |].
  cbn [link_at].
  destruct ((start <=? index) && (index <? end_)) eqn:Hhit.
  - apply andb_true_iff in Hhit as [H1 H2].
    apply Z.leb_le in H1. apply Z.ltb_lt in H2.
    intros Hr. exists [], start, end_, url, rest.
    split; [reflexivity |]. split; [lia |]. split; [constructor |].
    destruct (String.eqb url "#show-torrent-contents"); congruence.
  - intros Hr. destruct (IH Hr) as (before & s & e & u & after & -> & Hin & Hbefore & Hres).
    exists ((start, end_, url) :: before), s, e, u, after.
    split; [reflexivity |]. split; [exact Hin |]. split; [| exact Hres].
    constructor; [| exact Hbefore]. cbn.
    apply andb_false_iff in Hhit as [H | H];
      [apply Z.leb_gt in H | apply Z.ltb_ge in H]; lia.
Qed.

Lemma link_at_None (index : Z) (links : list (Z * Z * string)) :
  link_at index links = None <->
  Forall (fun link => ~ (fst (fst link) <= index < snd (fst link))) links.
Proof.
  induction links as [|[[start end_] url] rest IH]; cbn [link_at].
  - split; [constructor | reflexivity].
  - destruct ((start <=? index) && (index <? end_)) eqn:Hhit.
    + apply andb_true_iff in Hhit as [H1 H2].
      apply Z.leb_le in H1. apply Z.ltb_lt in H2. split.
      * destruct (String.eqb url "#show-torrent-contents"); discriminate.
      * intros Hall. inversion Hall as [|? ? Hhead _]. cbn in Hhead. lia.
    + rewrite IH. split.
      * intros Hall. constructor; [| exact Hall]. cbn.
        apply andb_false_iff in Hhit as [H | H];
          [apply Z.leb_gt in H | apply Z.ltb_ge in H]; lia.
      * intros Hall. now inversion Hall.
Qed.

(** X13: [hotspot_test] passes every hotspot other than 'description'
    on as it is.  For 'description' it gives no hotspot when the point is
    on no character or on the preface, and otherwise the hotspot of the
    first link, in list order, whose span holds the character, with
    'show_contents' for the torrent-contents link; a span that is empty or
    reversed never matches, and the answer is never 'description'
    itself. *)
Theorem description_hotspot_resolution (description : Description)
    (char_at : Z -> Z -> option Z) (x y : Z) :
  let test := hotspot_of_layout description char_at in
  test None = None
  /\ (forall hotspot, hotspot <> "description" ->
        test (Some (hotspot, x, y)) = Some hotspot)
  /\ (char_at x y = None -> test (Some ("description", x, y)) = None)
  /\ (forall index, char_at x y = Some index ->
        index < description_text_start description ->
        test (Some ("description", x, y)) = None)
  /\ (forall index, char_at x y = Some index ->
        description_text_start description <= index ->
        (test (Some ("description", x, y)) = None <->
         Forall (fun link =>
                   ~ (fst (fst link)
                      <= index - description_text_start description
                      < snd (fst link)))
                (description_links description))
        /\ forall r, test (Some ("description", x, y)) = Some r ->
             r <> "description"
             /\ exists before start end_ url after,
                  description_links description
                  = before ++ (start, end_, url) :: after
                  /\ start <= index - description_text_start description < end_
                  /\ Forall (fun link =>
                               ~ (fst (fst link)
                                  <= index - description_text_start description
                                  < snd (fst link))) before
                  /\ r = if String.eqb url "#show-torrent-contents"
                         then "show_contents"
                         else ("description-link:" ++ url)%string).
Proof.
  cbv zeta. unfold hotspot_of_layout.
  split; [reflexivity |]. split; [| split; [| split]].
  - intros hotspot Hne.
    destruct (String.eqb_spec hotspot "description"); [contradiction | reflexivity].
  - intros ->. reflexivity.
  - intros index -> Hlt. cbn.
    destruct (Z.ltb_spec (index - description_text_start description) 0);
      [reflexivity | lia].
  - intros index -> Hge. cbn.
    destruct (Z.ltb_spec (index - description_text_start description) 0);
      [lia |].
    split; [apply link_at_None |].
    intros r Hr. destruct (link_at_Some _ _ _ Hr)
      as (before & start & end_ & url & after & Hsplit & Hin & Hbefore & Hres).
    split.
    + rewrite Hres. destruct (String.eqb url "#show-torrent-contents");
        [discriminate |]. cbn. intros [=].
    + exists before, start, end_, url, after. auto.
Qed.

Lemma description_hotspot_resolution_witness :
  hotspot_of_layout linked_description char_at_x (Some ("description", 15, 0))
  = Some "description-link:http://example.com/"
  /\ hotspot_of_layout linked_description char_at_x (Some ("description", 3, 0))
     = None
  /\ hotspot_of_layout linked_description char_at_x (Some ("play", 3, 0))
     = Some "play".
Proof.
  destruct (description_hotspot_resolution linked_description char_at_x 3 0)
    as (_ & Hpass & _ & Hpreface & _).
  split; [reflexivity |].
  split; [apply (Hpreface 3 eq_refl); vm_compute; reflexivity |].
  apply Hpass. discriminate.
Defined.

(** *** Emblem button and thumbnail *)

(** X16: the button beside the emblem and the thumbnail offer the same
    action: both download when the item is not downloaded, both play when
    it is downloaded and playable, and for a downloaded item that cannot
    be played the button reveals the file and the thumbnail has no
    hotspot.  The button is 'play_pause' exactly for the item that is
    playing, showing 'pause' unless playback is paused, and the pressed
    art is used exactly when the active hotspot is the button's own. *)
Theorem emblem_button_agrees_with_thumbnail (gettext : string -> string)
    (REVEAL_IN_TEXT : string) (playing_item : option Z) (is_paused : bool)
    (i : ItemInfo) (more : ItemMore) (active : option string) :
  let result := make_emblem_button gettext REVEAL_IN_TEXT playing_item is_paused
                                   i more active in
  let b := fst result in
  let hotspot_name := snd result in
  (hotspot_name = "download" <-> calc_thumbnail_hotspot i = Some "thumbnail-download")
  /\ (hotspot_name = "play" \/ hotspot_name = "play_pause"
      <-> calc_thumbnail_hotspot i = Some "thumbnail-play")
  /\ (hotspot_name = "show_local_file" <-> calc_thumbnail_hotspot i = None)
  /\ (hotspot_name = "play_pause"
      <-> downloaded i = true /\ is_playable i = true /\ playing_item = Some (id i))
  /\ (hotspot_name = "play_pause" ->
      exists name, b = ImageButton name
        /\ (is_paused = false <-> name = "pause" \/ name = "pause-pressed"))
  /\ (active = Some hotspot_name
      <-> match b with
          | ImageButton name =>
              name = "play-pressed" \/ name = "pause-pressed"
          | TextButton _ pressed _ => pressed = true
          end).
Proof.
  cbv zeta. unfold make_emblem_button, calc_thumbnail_hotspot.
  destruct (downloaded i); cbn [negb].
  - destruct (is_playable i).
    + destruct playing_item as [playing_id|].
      * destruct (Z.eqb_spec playing_id (id i)) as [-> | Hne].
        -- destruct is_paused; cbn [fst snd];
             destruct (bool_decide_reflect (active = Some "play_pause"));
             cbn [fst snd]; repeat split; try tauto; try congruence;
             try (intros [? | ?]; congruence); eauto;
             try (intros _; eexists; split; [reflexivity |]; split;
                  [intros; auto | intros; reflexivity]);
             try (intros _; eexists; split; [reflexivity |]; split;
                  [discriminate | intros [? | ?]; discriminate]).
        -- cbn [fst snd];
             destruct (bool_decide_reflect (active = Some "play"));
             cbn [fst snd]; repeat split; try tauto; try congruence;
             try (intros [? | ?]; congruence); eauto;
             try (intros (_ & _ & [= ?]); congruence).
      * cbn [fst snd];
          destruct (bool_decide_reflect (active = Some "play"));
          cbn [fst snd]; repeat split; try tauto; try congruence;
          try (intros [? | ?]; congruence); eauto;
          try (intros (_ & _ & ?); congruence).
    + cbn [fst snd]. rewrite bool_decide_eq_true.
      repeat split; try tauto; try congruence;
        try (intros [? | ?]; congruence);
        try (intros (_ & ? & _); congruence).
  - cbn [fst snd]. rewrite bool_decide_eq_true.
    repeat split; try tauto; try congruence;
      try (intros [? | ?]; congruence);
      try (intros (? & _); congruence).
Qed.

(** *** Rating stars *)

Lemma draw_stars_lookup (self : RatingRenderer) (hover : option Z)
    (more : ItemMore) (y_pos : Z) (count : nat) :
  forall (i x_pos : Z) (n : nat),
    (n < count)%nat ->
    draw_stars self hover more y_pos count i x_pos !! n
    = Some (ImageDraw (_get_icon hover more (i + Z.of_nat n))
                      (x_pos + Z.of_nat n * (icon_width self + ICON_HORIZONTAL_SPACING))
                      y_pos (icon_width self) (icon_height self)).
Proof.
  induction count as [|count IH]; intros i x_pos n Hn; [lia |].
  destruct n as [|n]; cbn [draw_stars].
  - cbn. f_equal. f_equal; [f_equal; lia | lia].
  - cbn [lookup list_lookup]. rewrite IH by lia.
    f_equal. f_equal; [f_equal; lia | lia].
Qed.

Lemma draw_stars_length (self : RatingRenderer) (hover : option Z)
    (more : ItemMore) (y_pos : Z) (count : nat) (i x_pos : Z) :
  length (draw_stars self hover more y_pos count i x_pos) = count.
Proof.
  revert i x_pos. induction count as [|count IH]; intros i x_pos;
    [reflexivity |]. cbn. now rewrite IH.
Qed.

(** X18: the rating cell draws five stars, star i at
    x = (i - 1) * (icon_width + spacing); a point on a drawn star
    hit-tests to that star's index; while the pointer is over star k the
    stars up to k show 'yes' and the others 'no' whatever the rating is;
    without a pointer an explicit rating r shows 'yes' up to r and 'no'
    after it, and without one the inferred rating shows 'probably' and
    'unset'. *)
Theorem rating_stars_match_hit_test (self : RatingRenderer) (more : ItemMore)
    (context_height : Z) (hover : option (Z * Z)) :
  0 < icon_width self ->
  let pad := icon_width self + ICON_HORIZONTAL_SPACING in
  let stars := rating_render self more context_height hover in
  let hover_index :=
    match hover with Some (x, _) => icon_index_at_x self x | None => None end in
  length stars = 5%nat
  /\ (forall i, 1 <= i <= 5 ->
        stars !! Z.to_nat (i - 1)
        = Some (ImageDraw (_get_icon hover_index more i) ((i - 1) * pad)
                          ((context_height - icon_height self) / 2)
                          (icon_width self) (icon_height self)))
  /\ (forall i x, 1 <= i <= 5 ->
        (i - 1) * pad <= x < (i - 1) * pad + icon_width self ->
        icon_index_at_x self x = Some i)
  /\ (forall k i, hover_index = Some k ->
        _get_icon hover_index more i = if i <=? k then "yes" else "no")
  /\ (forall r i, hover_index = None -> rating more = Some r ->
        _get_icon hover_index more i = if i <=? r then "yes" else "no")
  /\ (forall i, hover_index = None -> rating more = None ->
        _get_icon hover_index more i
        = match auto_rating more with
          | Some a => if i <=? a then "probably" else "unset"
          | None => "unset"
          end).
Proof.
  intros Hwidth. cbv zeta. unfold rating_render.
  set (hover_index := match hover with
                      | Some (x, _) => icon_index_at_x self x
                      | None => None
                      end).
  replace (match hover with
           | Some (x, _) => icon_index_at_x self x
           | None => None
           end) with hover_index by reflexivity.
  split; [apply draw_stars_length |]. split; [| split; [| split; [| split]]].
  - intros i Hi. rewrite draw_stars_lookup by (unfold ICON_COUNT; lia).
    rewrite Z2Nat.id by lia.
    f_equal. f_equal; first [lia | f_equal; lia].
  - intros i x Hi Hx. unfold icon_index_at_x, ICON_HORIZONTAL_SPACING, ICON_COUNT in *.
    change (2 / 2) with 1.
    assert (Hq : (x + 1) / (icon_width self + 2) = i - 1).
    { symmetry. apply (Z.div_unique _ _ _ (x + 1 - (i - 1) * (icon_width self + 2)));
        nia. }
    rewrite Hq.
    destruct (Z.leb_spec 0 (x + 1)); [| nia].
    destruct (Z.ltb_spec (x + 1) ((icon_width self + 2) * 5)); [| nia].
    cbn. f_equal. lia.
  - intros k i ->. reflexivity.
  - intros r i -> Hr. cbn. now rewrite Hr.
  - intros i -> Hr. cbn. now rewrite Hr.
Qed.

Lemma rating_stars_match_hit_test_witness :
  rating_render new_RatingRenderer plain_more 20 (Some (25, 3))
  !! 2%nat = Some (ImageDraw "yes" 22 5 9 9)
  /\ icon_index_at_x new_RatingRenderer 25 = Some 3.
Proof.
  assert (Hw : 0 < icon_width new_RatingRenderer) by reflexivity.
  destruct (rating_stars_match_hit_test new_RatingRenderer plain_more 20
              (Some (25, 3)) Hw) as (_ & Hstar & Hhit & _).
  split.
  - exact (Hstar 3 ltac:(lia)).
  - apply (Hhit 3 25); vm_compute; split; congruence.
Defined.

(** *** Background *)

Ltac decide_comparisons :=
  repeat match goal with
    | |- context [?a <=? ?b] =>
        first [ replace (a <=? b) with true by (symmetry; apply Z.leb_le; lia)
              | replace (a <=? b) with false by (symmetry; apply Z.leb_gt; lia) ]
    | |- context [?a <? ?b] =>
        first [ replace (a <? b) with true by (symmetry; apply Z.ltb_lt; lia)
              | replace (a <? b) with false by (symmetry; apply Z.ltb_ge; lia) ]
    end.

(** X19: when the image area ends between the left cap and the right
    piece (the cell is wide enough for its guides) and no image has a
    negative width, the background is painted without gap or overlap:
    [draw_background] paints four pieces, every pixel column of the cell,
    from x to x + width, is painted by exactly one of them, and no column
    outside the cell is painted.  The right piece is the right cap outside
    download mode and the 115 wide download-info background in download
    mode. *)
Theorem draw_background_tiles (self : ItemRenderer) (guides : Guides)
    (x y width height : Z) (mode : bool) :
  download_mode self = Some mode ->
  let left_w :=
    Style.width (images self (if selected self then "selected-background-left"
                              else "background-left")) in
  let right_w :=
    if mode then 115
    else Style.width (images self (if selected self then "selected-background-right"
                                   else "background-right")) in
  0 <= left_w ->
  0 <= right_w ->
  x + left_w <= rect_right (image_rect guides) <= x + width - right_w ->
  exists ops : list paint_op,
    draw_background self guides x y width height [] = (Ret tt, ops)
    /\ length ops = 4%nat
    /\ (forall px, x <= px < x + width ->
          length (List.filter (paints_at px) ops) = 1%nat)
    /\ (forall px, ~ (x <= px < x + width) ->
          List.filter (paints_at px) ops = [])
    /\ (forall px, x + width - right_w <= px < x + width ->
          List.filter (paints_at px) ops
          = [ if mode
              then ThreeImageDraw
                     (if selected self then "dl-stats-selected-left-cap"
                      else "dl-stats-left-cap")
                     (if selected self then "dl-stats-selected-middle"
                      else "dl-stats-middle")
                     (if selected self then "dl-stats-selected-right-cap"
                      else "dl-stats-right-cap")
                     (x + width - 115) y 115
              else SurfaceDraw (if selected self then "selected-background-right"
                                else "background-right")
                               (x + width - right_w) y right_w height ]).
Proof.
  intros Hmode. cbv zeta. intros Hleft Hright Hguides.
  unfold draw_background, draw_download_info_background, RIGHT_WIDTH_DOWNLOAD_MODE.
  rewrite Hmode.
  destruct (selected self); destruct mode;
    (eexists; split; [reflexivity |]; split; [reflexivity |];
     cbn [app List.filter paints_at extent];
     split; [| split]; intros px Hpx;
     [ match type of Hleft with
       | 0 <= ?left_w =>
           destruct (Z.lt_ge_cases px (x + left_w)) as [Hin_left | Hpast_left]
       end;
       [| destruct (Z.lt_ge_cases px (rect_right (image_rect guides)))
            as [Hin_thumb | Hpast_thumb];
          [| match type of Hguides with
             | _ <= _ <= ?right_x =>
                 destruct (Z.lt_ge_cases px right_x) as [Hin_middle | Hin_right]
             end ] ]
     | destruct (Z.lt_ge_cases px x)
     | ];
     decide_comparisons; reflexivity).
Qed.

Lemma draw_background_tiles_witness :
  exists ops : list paint_op,
    draw_background painting_throbber sample_guides 15 5 570 137 []
    = (Ret tt, ops)
    /\ length (List.filter (paints_at 300) ops) = 1%nat
    /\ List.filter (paints_at 585) ops = [].
Proof.
  destruct (draw_background_tiles painting_throbber sample_guides 15 5 570 137
              true eq_refl ltac:(cbn; lia) ltac:(cbn; lia)
              ltac:(vm_compute; split; discriminate))
    as (ops & Hrun & _ & Hin & Hout & _).
  exists ops. split; [exact Hrun |].
  split; [apply Hin; lia | apply Hout; lia].
Defined.

(** *** Progress bar layout *)

(** X17: [layout_progress_bar] adds the left button, the cancel button,
    the track and the progress bar, in that order, the bar being the
    track widened by the 10 pixel caps on both sides.  The left button
    resumes exactly when the download is paused and pauses otherwise,
    also when there is no download info.  In throbber mode the width used
    is the width of the middle area less at most 9 pixels, such that the
    bar is a multiple of 10 pixels wide; otherwise the bar is the middle
    area less 74 pixels. *)
Theorem layout_progress_bar_geometry (self : ItemRenderer) (guides : Guides)
    (active : option string) (throbbing : bool) (dl : option DownloadInfo) :
  hotspot self = Some active ->
  throbber_mode self = Some throbbing ->
  self_download_info self = Some dl ->
  let left := rect_x (middle_rect guides) in
  let top := emblem_bottom guides - Style.height (images self "progress-track") in
  let paused := match dl with
                | Some d => String.eqb (dl_state d) "paused"
                | None => false
                end in
  exists (width : Z) (left_image stop_image : string) (track bar : LayoutRect),
    layout_progress_bar self guides []
    = (Ret tt,
       [ AddImage left_image left top
                  (Some (if paused then "resume" else "pause"));
         AddImage stop_image (left + width - 47) top (Some "cancel");
         AddRect track (ImageCallback "progress-track");
         AddRect bar DrawProgressBar ])
    /\ track = mkLayoutRect (left + 47) top (width - 94) 22
    /\ bar = mkLayoutRect (rect_x track - 10) top (rect_width track + 20) 22
    /\ rect_right bar = rect_right track + 10
    /\ (throbbing = true ->
        rect_width bar mod 10 = 0
        /\ 0 <= rect_width (middle_rect guides) - width < 10)
    /\ (throbbing = false -> width = rect_width (middle_rect guides)).
Proof.
  intros Hhot Hthrob Hdl. cbv zeta.
  set (W := rect_width (middle_rect guides)).
  assert (Hmod : 0 <= (W - 74) mod 10 < 10) by (apply Z.mod_pos_bound; lia).
  assert (Hbar : (W - (W - 74) mod 10 - 74) mod 10 = 0).
  { replace (W - (W - 74) mod 10 - 74) with ((W - 74) / 10 * 10).
    - apply Z.mod_mul. lia.
    - pose proof (Z.div_mod (W - 74) 10 ltac:(lia)). lia. }
  exists (if throbbing then W - (W - 74) mod 10 else W).
  unfold layout_progress_bar, _add_image_button, _make_image_button, lift.
  rewrite Hhot, Hthrob, Hdl. fold W.
  change (47 * 2 - 10 * 2) with 74.
  destruct dl as [d|]; [destruct (String.eqb (dl_state d) "paused") |];
    destruct throbbing; cbn [negb];
    unfold bind, ret, call; repeat case_bool_decide; cbn [negb app];
    (eexists _, _, _, _; split; [reflexivity |];
     unfold rect_right; cbn [rect_x rect_width];
     split; [f_equal; lia |]; split; [f_equal; lia |]; split; [lia |];
     split; intros Ht;
     first [ discriminate Ht | reflexivity
           | split; [| lia];
             match goal with
             | |- ?e mod 10 = 0 =>
                 replace e with (W - (W - 74) mod 10 - 74) by lia
             end; exact Hbar ]).
Qed.

Lemma layout_progress_bar_geometry_witness :
  exists (width : Z) (left_image stop_image : string) (track bar : LayoutRect),
    layout_progress_bar painting_throbber sample_guides []
    = (Ret tt,
       [ AddImage left_image 220 96 (Some "pause");
         AddImage stop_image (220 + width - 47) 96 (Some "cancel");
         AddRect track (ImageCallback "progress-track");
         AddRect bar DrawProgressBar ])
    /\ track = mkLayoutRect 267 96 (width - 94) 22
    /\ bar = mkLayoutRect (rect_x track - 10) 96 (rect_width track + 20) 22
    /\ rect_right bar = rect_right track + 10
    /\ (true = true -> rect_width bar mod 10 = 0 /\ 0 <= 250 - width < 10)
    /\ (true = false -> width = 250).
Proof.
  exact (layout_progress_bar_geometry painting_throbber sample_guides
           None true (Some Samples.started_download) eq_refl eq_refl eq_refl).
Defined.

(** *** The line below the title *)

Lemma draw_textboxes_spec (text_size : string -> Z * Z) (color_ : color)
    (boxes : list string) (y height : Z) :
  forall (x : Z) (painted : list paint_op),
  exists ops : list paint_op,
    draw_textboxes text_size color_ boxes x y height painted
    = (Ret tt, painted ++ ops)
    /\ length ops = (4 * length boxes)%nat
    /\ forall (n : nat) (t : string), boxes !! n = Some t ->
         let tx := x + foldr (fun b acc => fst (text_size b) + 8 + acc) 0
                             (take n boxes) in
         ops !! (4 * n)%nat
         = Some (TextDraw t tx y (fst (text_size t)) (snd (text_size t)))
         /\ ops !! (4 * n + 1)%nat = Some (SetColor color_)
         /\ ops !! (4 * n + 2)%nat
            = Some (Rectangle (tx + fst (text_size t) + 4) y 1 height)
         /\ ops !! (4 * n + 3)%nat = Some Fill.
Proof.
  induction boxes as [|box rest IH]; intros x painted.
  - exists []. cbn. rewrite app_nil_r. split; [reflexivity |].
    split; [reflexivity |]. intros n t Hn. rewrite lookup_nil in Hn. discriminate.
  - cbn [draw_textboxes]. destruct (text_size box) as [tw th] eqn:Hsize.
    unfold bind, paint.
    destruct (IH (x + tw + 8)
                 ((((painted ++ [TextDraw box x y tw th]) ++ [SetColor color_])
                   ++ [Rectangle (x + tw + 4) y 1 height]) ++ [Fill]))
      as (ops & Hrun & Hlen & Hops).
    exists ([TextDraw box x y tw th; SetColor color_;
             Rectangle (x + tw + 4) y 1 height; Fill] ++ ops).
    split; [| split].
    + rewrite Hrun. f_equal. rewrite <- !app_assoc. reflexivity.
    + rewrite length_app, Hlen. cbn [length]. lia.
    + intros [|n] t Hn.
      * cbn in Hn. injection Hn as <-. cbn [take foldr]. rewrite Hsize.
        cbn [fst snd]. rewrite Z.add_0_r. repeat split; reflexivity.
      * cbn [lookup list_lookup] in Hn. specialize (Hops n t Hn). cbv zeta in Hops.
        destruct Hops as (H0 & H1 & H2 & H3).
        cbn [take foldr]. rewrite Hsize. cbn [fst].
        replace (x + (tw + 8 + foldr (fun b acc => fst (text_size b) + 8 + acc) 0
                                     (take n rest)))
          with (x + tw + 8 + foldr (fun b acc => fst (text_size b) + 8 + acc) 0
                                   (take n rest)) by lia.
        replace (4 * S n)%nat with (4 + 4 * n)%nat by lia.
        replace (4 + 4 * n + 1)%nat with (4 + (4 * n + 1))%nat by lia.
        replace (4 + 4 * n + 2)%nat with (4 + (4 * n + 2))%nat by lia.
        replace (4 + 4 * n + 3)%nat with (4 + (4 * n + 3))%nat by lia.
        repeat split; assumption.
Qed.

(** X15: the line below the title shows the display date, the duration,
    the size and the file format, in that order, leaving out the ones that
    are empty.  Each text is followed by four painting steps' worth of a
    separator: a 1 pixel wide bar of the cell's height in the separator
    color, 4 pixels after the text, the next text starting 8 pixels after
    the text; the last text has its separator too.  After [reset] nothing
    is drawn. *)
Theorem extra_info_draws_nonempty_fields (text_size : string -> Z * Z)
    (more : ItemMore) (line_height : Z) (separator : color)
    (x y width height : Z) :
  let texts := List.filter (fun attr => negb (String.eqb attr EmptyString))
                 [display_date more; display_duration more; display_size more;
                  file_format more] in
  let drawer := extra_info_setup more line_height separator in
  exists ops : list paint_op,
    extra_info_draw text_size drawer x y width height [] = (Ret tt, ops)
    /\ length ops = (4 * length texts)%nat
    /\ (forall (n : nat) (t : string), texts !! n = Some t ->
          let tx := x + foldr (fun b acc => fst (text_size b) + 8 + acc) 0
                              (take n texts) in
          t <> EmptyString
          /\ ops !! (4 * n)%nat
             = Some (TextDraw t tx y (fst (text_size t)) (snd (text_size t)))
          /\ ops !! (4 * n + 1)%nat = Some (SetColor separator)
          /\ ops !! (4 * n + 2)%nat
             = Some (Rectangle (tx + fst (text_size t) + 4) y 1 height)
          /\ ops !! (4 * n + 3)%nat = Some Fill)
    /\ extra_info_draw text_size (extra_info_reset drawer) x y width height []
       = (Ret tt, []).
Proof.
  cbv zeta. unfold extra_info_draw, extra_info_setup, extra_info_reset.
  cbn [separator_color textboxes drawer_height].
  set (texts := List.filter _ _).
  destruct (draw_textboxes_spec text_size separator texts y height x [])
    as (ops & Hrun & Hlen & Hops).
  exists ops. split; [exact Hrun |]. split; [exact Hlen |]. split; [| reflexivity].
  intros n t Hn. split; [| exact (Hops n t Hn)].
  assert (Hin : In t texts).
  { apply list_elem_of_In. eapply list_elem_of_lookup_2. exact Hn. }
  apply List.filter_In in Hin. destruct Hin as [_ Hne].
  intros ->. discriminate Hne.
Qed.

(** *** Torrent details *)

Lemma add_detail_lines_spec (line_height : Z) (rect : LayoutRect)
    (lines : list (string * string)) :
  forall (y : Z) (layout : list layout_call),
  exists calls : list layout_call,
    add_detail_lines line_height lines rect y layout = (Ret tt, layout ++ calls)
    /\ length calls = (2 * length lines)%nat
    /\ forall (n : nat) (label value : string),
         lines !! n = Some (label, value) ->
         calls !! (2 * n)%nat
         = Some (AddTextLine (TextboxCallback label TORRENT_INFO_LABEL_COLOR false)
                             (rect_x rect) (y + line_height * Z.of_nat n)
                             (rect_width rect))
         /\ calls !! (2 * n + 1)%nat
            = Some (AddTextLine (TextboxCallback value TORRENT_INFO_DATA_COLOR true)
                                (rect_x rect) (y + line_height * Z.of_nat n)
                                (rect_width rect)).
Proof.
  induction lines as [|[label0 value0] rest IH]; intros y layout.
  - exists []. cbn. rewrite app_nil_r. split; [reflexivity |].
    split; [reflexivity |]. intros n l v Hn. rewrite lookup_nil in Hn. discriminate.
  - cbn [add_detail_lines]. unfold bind, call.
    match goal with
    | |- context [add_detail_lines _ rest rect ?y' ?layout'] =>
        destruct (IH y' layout') as (calls & Hrun & Hlen & Hcalls)
    end.
    eexists ([_; _] ++ calls).
    split; [| split].
    + rewrite Hrun. f_equal. rewrite <- !app_assoc. reflexivity.
    + rewrite length_app, Hlen. cbn [length]. lia.
    + intros [|n] l v Hn.
      * cbn in Hn. injection Hn as <- <-.
        replace (y + line_height * Z.of_nat 0) with y by lia.
        split; reflexivity.
      * cbn [lookup list_lookup] in Hn. destruct (Hcalls n l v Hn) as [H0 H1].
        replace (y + line_height * Z.of_nat (S n))
          with (y + line_height + line_height * Z.of_nat n) by lia.
        replace (2 * S n)%nat with (2 + 2 * n)%nat by lia.
        replace (2 + 2 * n + 1)%nat with (2 + (2 * n + 1))%nat by lia.
        split; assumption.
Qed.

(** X20: for a torrent that has a transfer rate, the details block shows
    the first k of the four lines PEERS, SEEDS, LEECH, SHARE, each as a
    label and a right-aligned value on the same line, one line height
    apart, the last line ending at the bottom of the rectangle.  With
    p = rect.height // line_height, k is min(p, 4) when p >= 0; a negative
    p cuts lines off the end of the four instead, k = max(0, 4 + p).  When
    the line height is positive and the rectangle's height is not
    negative, the lines shown fit into the rectangle. *)
Theorem torrent_details_rows (gettext : string -> string)
    (text_size : string -> Z * Z) (line_height : Z) (ratio_text : string)
    (i : ItemInfo) (more : ItemMore) (rect : LayoutRect) (dl : DownloadInfo) :
  download_info i = Some dl ->
  rate dl <> 0 ->
  line_height <> 0 ->
  let lines := [ (gettext "PEERS", unicode (PyInt (connections more)));
                 (gettext "SEEDS", unicode (PyInt (seeders more)));
                 (gettext "LEECH", unicode (PyInt (leechers more)));
                 (gettext "SHARE", ratio_text) ] in
  let p := rect_height rect / line_height in
  let k := if p <? 0 then Z.max 0 (4 + p) else Z.min p 4 in
  exists calls : list layout_call,
    layout_download_right_torrent gettext text_size line_height ratio_text
                                  i more rect []
    = (Ret tt, calls)
    /\ Z.of_nat (length calls) = 2 * k
    /\ (forall (n : nat) (label value : string),
          Z.of_nat n < k -> lines !! n = Some (label, value) ->
          let y := rect_bottom rect - line_height * (k - Z.of_nat n) in
          calls !! (2 * n)%nat
          = Some (AddTextLine (TextboxCallback label TORRENT_INFO_LABEL_COLOR false)
                              (rect_x rect) y (rect_width rect))
          /\ calls !! (2 * n + 1)%nat
             = Some (AddTextLine (TextboxCallback value TORRENT_INFO_DATA_COLOR true)
                                 (rect_x rect) y (rect_width rect)))
    /\ (0 < line_height -> 0 <= rect_height rect ->
        line_height * k <= rect_height rect).
Proof.
  intros Hdl Hrate Hheight. cbv zeta.
  set (lines := [ _; _; _; _ ]).
  set (p := rect_height rect / line_height).
  set (k := if p <? 0 then Z.max 0 (4 + p) else Z.min p 4).
  assert (Hk : 0 <= k <= 4) by (unfold k; destruct (Z.ltb_spec p 0); lia).
  unfold layout_download_right_torrent. rewrite Hdl.
  destruct (Z.eqb_spec (rate dl) 0) as [|_]; [contradiction |].
  destruct (Z.eqb_spec line_height 0) as [|_]; [contradiction |].
  fold lines. fold p.
  assert (Hslice : py_slice_to lines p = take (Z.to_nat k) lines).
  { unfold py_slice_to, py_slice_list, slice_index, k.
    change (Z.of_nat (length lines)) with 4. change (0 <? 0) with false.
    cbv iota. change (Z.min 0 4) with 0. change (Z.to_nat 0) with 0%nat.
    rewrite drop_0, Z.sub_0_r.
    destruct (Z.ltb_spec p 0); f_equal; f_equal; lia. }
  rewrite Hslice.
  assert (Hlen : length (take (Z.to_nat k) lines) = Z.to_nat k).
  { rewrite length_take. change (length lines) with 4%nat. lia. }
  rewrite Hlen, Z2Nat.id by lia.
  destruct (add_detail_lines_spec line_height rect (take (Z.to_nat k) lines)
              (rect_bottom rect - line_height * k) [])
    as (calls & Hrun & Hcount & Hcalls).
  exists calls. split; [exact Hrun |]. split; [rewrite Hcount, Hlen; lia |].
  split.
  - intros n label value Hn Hline.
    assert (Htake : take (Z.to_nat k) lines !! n = Some (label, value)).
    { rewrite lookup_take_lt by lia. exact Hline. }
    destruct (Hcalls n label value Htake) as [H0 H1].
    replace (rect_bottom rect - line_height * (k - Z.of_nat n))
      with (rect_bottom rect - line_height * k + line_height * Z.of_nat n) by lia.
    split; assumption.
  - intros Hpos Hnonneg.
    assert (Hp : 0 <= p) by (apply Z.div_pos; lia).
    assert (Hmul : line_height * p <= rect_height rect)
      by (apply Z.mul_div_le; lia).
    unfold k. destruct (Z.ltb_spec p 0); [lia |]. nia.
Qed.

Lemma torrent_details_rows_witness :
  exists calls : list layout_call,
    layout_download_right_torrent (fun text => text) flat_size 12 "1.50"
                                  torrent_item plain_more
                                  (mkLayoutRect 480 60 100 30) []
    = (Ret tt, calls)
    /\ Z.of_nat (length calls) = 4
    /\ 12 * 2 <= 30.
Proof.
  destruct (torrent_details_rows (fun text => text) flat_size 12 "1.50"
              torrent_item plain_more (mkLayoutRect 480 60 100 30)
              (mkDownloadInfo "downloading" 50 200 10 EmptyString)
              eq_refl ltac:(cbn; lia) ltac:(lia))
    as (calls & Hrun & Hlen & _ & Hfit).
  exists calls. split; [exact Hrun |]. split; [exact Hlen |].
  apply Hfit; [lia | cbn; lia].
Defined.

End CellsProofs.
